(** * Presubmit result reporting (v23 presubmit [result] command)

    A shallow embedding of the report generation of
    [src/v23/misc.go] (the part that used to be [presubmit/result.go]):
    [postTestReport] and the functions it calls, down to the classification
    of failed test cases into new, known and fixed failures, the walk over
    the postsubmit builds and the link generator.  The status record that a
    presubmit test writes on a merge conflict comes from
    [src/unnamed/part_001] ([recordMergeConflict]).

    Around the report the development embeds the [result] command itself
    ([runResult]), the earlier link generation that [misc.go] still holds
    ([genFailedTestLinks], [parseFailedTestCases]) and, from
    [src/unnamed/part_001], the presubmit [test] command: [parseCLs], the
    loop of [runTest] over the attempts to prepare the test branch,
    [recordMergeConflict] and [writeTestStatusFile].

    Go's [int] and [int64] are modelled by [Z] with the wrap-around written
    where the code does arithmetic on them; Go strings are [string]s of
    bytes; [map[string]int] is a [gmap string Z]. *)

From Stdlib Require Import ZArith String Ascii DecimalString Lia.
From stdpp Require Import gmap strings list sorting.
From Equations Require Import Equations.

Open Scope Z_scope.

(** ** The parts of Go's standard library that are functions on strings and
    integers *)

Module Go.

(** [math.MaxInt64] and the two's complement wrap-around of a 64 bit [int]. *)
Definition MaxInt64 : Z := 9223372036854775807.
Definition MinInt64 : Z := - 9223372036854775808.

Definition int_range (z : Z) : Prop := MinInt64 <= z <= MaxInt64.

Definition wrap_int (z : Z) : Z := (z - MinInt64) mod 2 ^ 64 + MinInt64.

(** [n++] on an [int]. *)
Definition incr (n : Z) : Z := wrap_int (n + 1).

(** The line feed of an interpreted Go string literal. *)
Definition LF : string := String (ascii_of_nat 10) EmptyString.

(** [fmt.Sprintf("%d", z)]. *)
Definition Sprintf_d (z : Z) : string := NilZero.string_of_int (Z.to_int z).

(** [strconv.Atoi]: an optional sign, then one or more decimal digits, and
    a value that fits an [int]; anything else is an error. *)
Definition Atoi_digits (s : string) : option Z :=
  match s with
  | EmptyString => None
  | _ => Z.of_uint <$> NilZero.uint_of_string s
  end.

Definition Atoi (s : string) : Z + string :=
  let signed :=
    match s with
    | String "-"%char rest => Z.opp <$> Atoi_digits rest
    | String "+"%char rest => Atoi_digits rest
    | _ => Atoi_digits s
    end in
  match signed with
  | Some z =>
      if decide (MinInt64 <= z <= MaxInt64) then inl z
      else inr ("strconv.Atoi: parsing " +:+ s +:+ ": value out of range")
  | None => inr ("strconv.Atoi: parsing " +:+ s +:+ ": invalid syntax")
  end.

(** [strings.Replace(s, old, new, -1)] for a non-empty [old]: the
    occurrences of [old] are found from left to right and do not overlap.
    [skip] counts the bytes of a matched [old] still to be dropped. *)
Fixpoint Replace_from (skip : nat) (s old new : string) : string :=
  match s with
  | EmptyString => EmptyString
  | String c s' =>
      match skip with
      | S k => Replace_from k s' old new
      | O =>
          if String.prefix old s
          then new +:+ Replace_from (String.length old - 1) s' old new
          else String c (Replace_from 0 s' old new)
      end
  end.

Definition Replace (s old new : string) : string := Replace_from 0 s old new.

(** [strings.LastIndex(s, sub)]: the byte offset of the last occurrence of
    [sub] in [s], or -1. *)
Fixpoint LastIndex_from (i : Z) (s sub : string) : Z :=
  match s with
  | EmptyString => if String.prefix sub EmptyString then i else -1
  | String _ s' =>
      let later := LastIndex_from (i + 1) s' sub in
      if decide (later = -1)
      then (if String.prefix sub s then i else -1)
      else later
  end.

Definition LastIndex (s sub : string) : Z := LastIndex_from 0 s sub.

(** [strings.Contains(s, sub)]. *)
Definition Contains (s sub : string) : bool :=
  negb (bool_decide (LastIndex s sub = -1)).

(** The slice expressions [s[0:i]] and [s[i:]] for [0 <= i <= len(s)]. *)
Definition slice_to (s : string) (i : Z) : string :=
  String.substring 0 (Z.to_nat i) s.
Definition slice_from (s : string) (i : Z) : string :=
  String.substring (Z.to_nat i) (String.length s - Z.to_nat i) s.

(** [strings.Join(l, sep)]. *)
Fixpoint Join (l : list string) (sep : string) : string :=
  match l with
  | [] => EmptyString
  | [x] => x
  | x :: l' => x +:+ sep +:+ Join l' sep
  end.

End Go.

(** ** Data model *)

Definition error := string.

(** Modelled from the spec: the status constants and the [TestResult]
    struct of package [testutil], which [misc.go] imports (section 3,
    TestRunResult: Passed, Failed, TimedOut, Skipped, MergeConflict).  The
    code reads the three fields below. *)
Module testutil.
Inductive TestStatus :=
| TestPassed | TestFailed | TestTimedOut | TestSkipped
| TestFailedMergeConflict.

#[global] Instance TestStatus_eq_dec : EqDecision TestStatus.
Proof. solve_decision. Defined.

Record TestResult := {
  Status : TestStatus;
  TimeoutValue : Z;
  MergeConflictCL : string }.
End testutil.

(** Package [jenkins], which [misc.go] imports as well: the records hold
    the fields the code reads, and a [Jenkins] value is the answers of the
    server at the time of the run. *)
Module jenkins.
Record BuildInfo := {
  Id : string;
  Timestamp : Z;
  Result : string }.

Record TestCase := {
  ClassName : string;
  Name : string }.

#[global] Instance TestCase_eq_dec : EqDecision TestCase.
Proof. solve_decision. Defined.

(** Modelled from the spec: the method [Equal] of [jenkins.TestCase]
    (section 4.3: exact string equality on the pair of class name and
    test name). *)
Definition Equal (t t2 : TestCase) : bool :=
  bool_decide (ClassName t = ClassName t2) && bool_decide (Name t = Name t2).

(** [FailedTestCasesForBuildSpec] answers with the failed test cases or
    with an error; on an error the slice it returns is empty (the
    comment in [genFailedTestCasesGroupsForAllTests]). *)
Record Jenkins := {
  BuildInfoForSpec : string -> BuildInfo + error;
  BuildInfoOf : string -> Z -> BuildInfo + error;
  FailedTestCasesForBuildSpec : string -> list TestCase + error }.
End jenkins.

(** The Gerrit client: the changes a query lists, each with its reference
    and the names of its labels, and the answer of [PostReview]. *)
Module gerrit.
Record Change := {
  Reference : string;
  Labels : list string }.

Record Gerrit := {
  Query : string -> list Change + error;
  PostReview : string -> string -> gmap string string -> option error }.
End gerrit.

(** [testResultInfo], as read from a status file. *)
Record testResultInfo := {
  Result : testutil.TestResult;
  TestName : string;
  SlaveLabel : string;
  Timestamp : Z;
  PostSubmitResult : string }.

Inductive failureType := fixedFailure | newFailure | knownFailure.

#[global] Instance failureType_eq_dec : EqDecision failureType.
Proof. solve_decision. Defined.

#[global] Instance failureType_countable : Countable failureType.
Proof.
  refine (inj_countable'
    (fun t => match t with fixedFailure => 0%nat | newFailure => 1%nat
                        | knownFailure => 2%nat end)
    (fun n => match n with 0%nat => fixedFailure | 1%nat => newFailure
                        | _ => knownFailure end) _).
  intros []; reflexivity.
Defined.

Definition failureType_String (t : failureType) : string :=
  match t with
  | fixedFailure => "FIXED FAILURE"
  | newFailure => "NEW FAILURE"
  | knownFailure => "KNOWN FAILURE"
  end.

Record failedTestCaseInfo := {
  className : string;
  testCaseName : string;
  seenTestsCount : Z;
  testName : string;
  slaveLabel : string }.

#[global] Instance failedTestCaseInfo_eq_dec : EqDecision failedTestCaseInfo.
Proof. solve_decision. Defined.

(** [failedTestCasesGroups]: [map[failureType][]failedTestCaseInfo]; a
    missing key reads as the nil slice. *)
Abbreviation failedTestCasesGroups := (gmap failureType (list failedTestCaseInfo)).

Definition group (groups : failedTestCasesGroups) (t : failureType)
  : list failedTestCaseInfo := default [] (groups !! t).

(** [groups[t] = append(groups[t], infos...)]. *)
Definition group_append (groups : failedTestCasesGroups) (t : failureType)
    (infos : list failedTestCaseInfo) : failedTestCasesGroups :=
  <[t := group groups t ++ infos]> groups.

(** The xUnit report as [encoding/xml] decodes it into [testSuites]. *)
Record xmlTestcase := {
  Classname : string;
  tcName : string;
  FailureData : string }.

Record xmlTestsuite := {
  tsName : string;
  Failures : string;
  Testcases : list xmlTestcase }.

Record testSuites := { Testsuites : list xmlTestsuite }.

(** A credential of the [.netrc] file. *)
Record credential := { username : string; password : string }.

(** What a run does to the review server: every call of [postMessage] and
    every call of [gerrit.PostReview], in order. *)
Inductive event :=
| PostMessage (message : string) (refs : list string) (success : bool)
| PostReview (ref message : string) (labels : gmap string string).

(** ** What the code takes from outside *)

(** Functions of Go's standard library that the model leaves open:
    [xml.Unmarshal] into a [testSuites], [html.UnescapeString],
    [url.Parse] followed by [String] on its result, [filepath.Join],
    [time.Duration]'s [String], and [ReplaceAllString] of the two
    compiled patterns [reURLUnsafeChars] and [reNotIdentifierChars],
    which another file of the package declares. *)
Class GoLib := {
  xml_Unmarshal : string -> testSuites + error;
  html_UnescapeString : string -> string;
  url_Parse : string -> string + error;
  filepath_Join : list string -> string;
  Duration_String : Z -> string;
  reURLUnsafeChars_ReplaceAllString : string -> string -> string;
  reNotIdentifierChars_ReplaceAllString : string -> string -> string }.

(** The command line flags and the package level constants and helpers
    declared in other files of package [main]. *)
Class Flags := {
  jenkinsBuildNumberFlag : Z;
  jenkinsHostFlag : string;
  presubmitTestJobFlag : string;
  reviewTargetRefsFlag : string;
  projectsFlag : string;
  gerritBaseUrlFlag : string;
  jenkinsBaseJobUrl : string;
  defaultQueryString : string;
  DefaultTestTimeout : Z;
  genStartPresubmitBuildLink : string -> string -> string -> string;
  checkGerritBaseUrl : string + error;
  gerritHostCredential : string -> credential + error }.

(** [util.Context] and the operating system as the run sees them.  Of the
    diagnostics written to [ctx.Stdout] and [ctx.Stderr] the model keeps
    the "Checking build %d..." lines of the walk over the builds. *)
Record Context := {
  ctx_Jenkins : string -> jenkins.Jenkins + error;
  ctx_Gerrit : string -> string -> string -> gerrit.Gerrit;
  ReadFile : string -> string + error;
  Getenv : string -> string;
  BuildCop : string + error }.

Definition unknownStatus : string := "UNKNOWN".

Definition mergeConflictMessage (cl : string) : string :=
  "Possible merge conflict detected in " +:+ cl +:+ "." +:+ Go.LF +:+
  "Presubmit tests will be executed after a new patchset that resolves the conflicts is submitted.".

(** All the multi-configuration Jenkins jobs. *)
Definition multiConfigurationJobs : list string :=
  ["third_party-go-test"; "vanadium-go-build"; "vanadium-go-test";
   "vanadium-integration-test"]%string.

Definition isMultiConfigurationJob (jobName : string) : bool :=
  bool_decide (jobName ∈ multiConfigurationJobs).


(** ** The functions of the report generation *)

Section Report.

Context `{lib : GoLib} `{flags : Flags}.

(** *** The postsubmit build status *)

(** [lastCompletedBuildStatus]. *)
Definition lastCompletedBuildStatus (ctx : Context) (jobName slaveLabel : string)
  : jenkins.BuildInfo + error :=
  match ctx_Jenkins ctx jenkinsHostFlag with
  | inr err => inr err
  | inl jenkinsObj =>
      let buildSpec :=
        if isMultiConfigurationJob jobName
        then jobName +:+ "/L=" +:+ slaveLabel +:+ "/lastCompletedBuild"
        else jobName +:+ "/lastCompletedBuild" in
      jenkins.BuildInfoForSpec jenkinsObj buildSpec
  end.

(** The build specification of build [i] in the loop of
    [getPostSubmitBuildStatus]. *)
Definition buildSpecOf (jobName slaveLabel : string) (i : Z) : string :=
  if isMultiConfigurationJob jobName
  then jobName +:+ "/L=" +:+ slaveLabel +:+ "/" +:+ Go.Sprintf_d i
  else jobName +:+ "/" +:+ Go.Sprintf_d i.

(** The loop [for i := curId; i >= 0; i--] of [getPostSubmitBuildStatus],
    entered at [i].  It gives the status returned and the numbers of the
    builds checked, in the order of the "Checking build %d..." lines.  The
    status returned on success is [buildInfo.Result], the result of the
    last completed build that the caller passes in. *)
Equations? checkBuilds (jenkinsObj : jenkins.Jenkins)
    (jobName slaveLabel : string) (timestamp : Z)
    (buildInfo : jenkins.BuildInfo) (i : Z) : string * list Z
    by wf (Z.to_nat (i + 1)) lt :=
checkBuilds jenkinsObj jobName slaveLabel timestamp buildInfo i
    with decide (i >= 0) := {
  | right _ => (unknownStatus, [])
  | left _ with jenkins.BuildInfoForSpec jenkinsObj
                  (buildSpecOf jobName slaveLabel i) := {
    | inr _ => (unknownStatus, [i])
    | inl curBuildInfo with decide (jenkins.Timestamp curBuildInfo > timestamp) := {
      | left _ =>
          let r := checkBuilds jenkinsObj jobName slaveLabel timestamp
                     buildInfo (i - 1) in
          (r.1, i :: r.2)
      | right _ => (jenkins.Result buildInfo, [i]) } } }.
Proof. lia. Qed.

(** [getPostSubmitBuildStatus], with the builds it checked.  The second
    call of [ctx.Jenkins] is the one [lastCompletedBuildStatus] has made
    with success, so its error branch is not reached. *)
Definition getPostSubmitBuildStatus_log (ctx : Context)
    (jobName slaveLabel : string) (timestamp : Z) : string * list Z :=
  match lastCompletedBuildStatus ctx jobName slaveLabel with
  | inr _ => (unknownStatus, [])
  | inl buildInfo =>
      match Go.Atoi (jenkins.Id buildInfo) with
      | inr _ => (unknownStatus, [])
      | inl curId =>
          match ctx_Jenkins ctx jenkinsHostFlag with
          | inr _ => (unknownStatus, [])
          | inl jenkinsObj =>
              checkBuilds jenkinsObj jobName slaveLabel timestamp buildInfo curId
          end
      end
  end.

Definition getPostSubmitBuildStatus (ctx : Context)
    (jobName slaveLabel : string) (timestamp : Z) : string :=
  (getPostSubmitBuildStatus_log ctx jobName slaveLabel timestamp).1.

(** *** The classification of the failed test cases *)

(** [getFailedTestCases]: the failed test cases of the last completed
    build of the job, and the error of the lookup, if any. *)
Definition getFailedTestCases (ctx : Context) (jobName slaveLabel : string)
  : list jenkins.TestCase * option error :=
  match ctx_Jenkins ctx jenkinsHostFlag with
  | inr err => ([], Some err)
  | inl jenkinsObj =>
      let buildSpec :=
        if isMultiConfigurationJob jobName
        then jobName +:+ "/L=" +:+ slaveLabel +:+ "/lastCompletedBuild"
        else jobName +:+ "/lastCompletedBuild" in
      match jenkins.FailedTestCasesForBuildSpec jenkinsObj buildSpec with
      | inl cases => (cases, None)
      | inr err => ([], Some err)
      end
  end.

(** [genTestFullName]. *)
Definition genTestFullName (className testName : string) : string :=
  Go.Replace (className +:+ "." +:+ testName) "." "::".

(** The loop that decides [isNewFailure]: it stops at the first postsubmit
    failure with the same class name and test name. *)
Fixpoint isNewFailure (Classname Name : string)
    (postsubmitFailedTestCases : list jenkins.TestCase) : bool :=
  match postsubmitFailedTestCases with
  | [] => true
  | postsubmitFailedTestCase :: rest =>
      if bool_decide (Classname = jenkins.ClassName postsubmitFailedTestCase)
         && bool_decide (Name = jenkins.Name postsubmitFailedTestCase)
      then false
      else isNewFailure Classname Name rest
  end.

(** The loop that decides [fixed] for one postsubmit failure. *)
Fixpoint isFixed (postsubmitFailedTestCase : jenkins.TestCase)
    (curFailedTestCases : list jenkins.TestCase) : bool :=
  match curFailedTestCases with
  | [] => true
  | curFailedTestCase :: rest =>
      if jenkins.Equal postsubmitFailedTestCase curFailedTestCase
      then false
      else isFixed postsubmitFailedTestCase rest
  end.

(** The variables of the loops over the parsed report. *)
Record oneTestState := {
  st_groups : failedTestCasesGroups;
  st_curFailedTestCases : list jenkins.TestCase;
  st_seenTests : gmap string Z }.

(** The class name and the test name of a test case after the defaulting
    to the suite name and the unescaping. *)
Definition caseClassname (curTestSuite : xmlTestsuite) (curTestCase : xmlTestcase)
  : string :=
  html_UnescapeString
    (if decide (Classname curTestCase = "") then tsName curTestSuite
     else Classname curTestCase).

Definition caseName (curTestCase : xmlTestcase) : string :=
  html_UnescapeString (tcName curTestCase).

(** The key of a test case in [seenTests]. *)
Definition testKeyOf (slaveLabel : string) (curTestSuite : xmlTestsuite)
    (curTestCase : xmlTestcase) : string :=
  let testFullName :=
    genTestFullName (caseClassname curTestSuite curTestCase)
      (caseName curTestCase) in
  if decide (slaveLabel <> "") then testFullName +:+ "-" +:+ slaveLabel
  else testFullName.

(** [seenTests[testKey]++]; a missing key reads as 0. *)
Definition seen_count (seenTests : gmap string Z) (testKey : string) : Z :=
  default 0 (seenTests !! testKey).

Definition seen_incr (seenTests : gmap string Z) (testKey : string)
  : gmap string Z :=
  <[testKey := Go.incr (seen_count seenTests testKey)]> seenTests.

(** The body of the inner loop of [genFailedTestCasesGroupsForOneTest]. *)
Definition oneTestCase (testName slaveLabel : string)
    (postsubmitFailedTestCases : list jenkins.TestCase)
    (curTestSuite : xmlTestsuite) (st : oneTestState)
    (curTestCase : xmlTestcase) : oneTestState :=
  let Classname := caseClassname curTestSuite curTestCase in
  let Name := caseName curTestCase in
  let testKey := testKeyOf slaveLabel curTestSuite curTestCase in
  let seenTests := seen_incr (st_seenTests st) testKey in
  if decide (FailureData curTestCase <> "") then
    let linkInfo :=
      {| className := Classname;
         testCaseName := Name;
         seenTestsCount := seen_count seenTests testKey;
         testName := testName;
         slaveLabel := slaveLabel |} in
    let groups :=
      if isNewFailure Classname Name postsubmitFailedTestCases
      then group_append (st_groups st) newFailure [linkInfo]
      else group_append (st_groups st) knownFailure [linkInfo] in
    {| st_groups := groups;
       st_curFailedTestCases :=
         st_curFailedTestCases st
           ++ [{| jenkins.ClassName := Classname; jenkins.Name := Name |}];
       st_seenTests := seenTests |}
  else
    {| st_groups := st_groups st;
       st_curFailedTestCases := st_curFailedTestCases st;
       st_seenTests := seenTests |}.

Definition oneTestSuite (testName slaveLabel : string)
    (postsubmitFailedTestCases : list jenkins.TestCase)
    (st : oneTestState) (curTestSuite : xmlTestsuite) : oneTestState :=
  fold_left
    (oneTestCase testName slaveLabel postsubmitFailedTestCases curTestSuite)
    (Testcases curTestSuite) st.

(** The entry of the fixed failure group for a postsubmit failure: only
    the class name and the test case name are set. *)
Definition fixedInfo (postsubmitFailedTestCase : jenkins.TestCase)
  : failedTestCaseInfo :=
  {| className := jenkins.ClassName postsubmitFailedTestCase;
     testCaseName := jenkins.Name postsubmitFailedTestCase;
     seenTestsCount := 0;
     testName := "";
     slaveLabel := "" |}.

(** The loop that populates the fixed failure group. *)
Definition populateFixed (curFailedTestCases : list jenkins.TestCase)
    (groups : failedTestCasesGroups)
    (postsubmitFailedTestCase : jenkins.TestCase) : failedTestCasesGroups :=
  if isFixed postsubmitFailedTestCase curFailedTestCases
  then group_append groups fixedFailure [fixedInfo postsubmitFailedTestCase]
  else groups.

(** [genFailedTestCasesGroupsForOneTest]: the groups or the error, and
    [seenTests] as the call leaves it. *)
Definition genFailedTestCasesGroupsForOneTest (testResult : testResultInfo)
    (presubmitXUnitReport : string) (seenTests : gmap string Z)
    (postsubmitFailedTestCases : list jenkins.TestCase)
  : (failedTestCasesGroups + error) * gmap string Z :=
  match xml_Unmarshal presubmitXUnitReport with
  | inr err =>
      (inr ("Unmarshal(" +:+ presubmitXUnitReport +:+ ") failed: " +:+ err),
       seenTests)
  | inl suites =>
      let st :=
        fold_left
          (oneTestSuite (TestName testResult) (SlaveLabel testResult)
             postsubmitFailedTestCases)
          (Testsuites suites)
          {| st_groups := ∅; st_curFailedTestCases := [];
             st_seenTests := seenTests |} in
      (inl (fold_left (populateFixed (st_curFailedTestCases st))
              postsubmitFailedTestCases (st_groups st)),
       st_seenTests st)
  end.

(** The path of the xUnit report collected for a test. *)
Definition xUnitReportFile (ctx : Context) (testName slaveLabel : string)
  : string :=
  filepath_Join
    [Getenv ctx "WORKSPACE"; "test_results"%string;
     Go.Sprintf_d jenkinsBuildNumberFlag;
     "L=" +:+ slaveLabel +:+ ",TEST=" +:+ testName;
     "tests_" +:+ Go.Replace testName "-" "_" +:+ ".xml"].

(** [groups[t] = append(groups[t], infos...)] for every entry of the
    groups of one test. *)
Definition mergeGroups (groups cur : failedTestCasesGroups)
  : failedTestCasesGroups :=
  union_with (fun infos curInfos => Some (infos ++ curInfos)) groups cur.

(** The body of the loop of [genFailedTestCasesGroupsForAllTests]. *)
Definition allTestsStep (ctx : Context)
    (acc : failedTestCasesGroups * gmap string Z) (testResult : testResultInfo)
  : failedTestCasesGroups * gmap string Z :=
  let testName := TestName testResult in
  let slaveLabel := SlaveLabel testResult in
  match ReadFile ctx (xUnitReportFile ctx testName slaveLabel) with
  | inr _ => acc
  | inl bytes =>
      let postsubmitFailedTestCases :=
        (getFailedTestCases ctx testName slaveLabel).1 in
      match genFailedTestCasesGroupsForOneTest testResult bytes acc.2
              postsubmitFailedTestCases with
      | (inr _, seenTests) => (acc.1, seenTests)
      | (inl curFailedTestCasesGroups, seenTests) =>
          (mergeGroups acc.1 curFailedTestCasesGroups, seenTests)
      end
  end.

(** [genFailedTestCasesGroupsForAllTests]: the groups and the error it
    returns. *)
Definition genFailedTestCasesGroupsForAllTests (ctx : Context)
    (testResults : list testResultInfo)
  : failedTestCasesGroups * option error :=
  ((fold_left (allTestsStep ctx) testResults (∅, ∅)).1, None).

(** *** Links *)

Definition safePackageOrClassName (name : string) : string :=
  reURLUnsafeChars_ReplaceAllString name "_".

Definition safeTestName (name : string) : string :=
  reNotIdentifierChars_ReplaceAllString name "_".

(** The raw URL that [genTestResultLink] builds for [url.Parse].  In
    JUnit the part of the class name before its last "." is the package
    name, "(root)" when it has none. *)
Definition testResultRawurl (className testCaseName testName slaveLabel : string)
  : string :=
  let '(packageName, className) :=
    if Go.Contains className "." then
      let lastDotIndex := Go.LastIndex className "." in
      (Go.slice_to className lastDotIndex,
       Go.slice_from className (lastDotIndex + 1))
    else ("(root)"%string, className) in
  let safePackageName := safePackageOrClassName packageName in
  let safeClassName := safePackageOrClassName className in
  let safeTestCaseName := safeTestName testCaseName in
  "http://goto.google.com/vpst/" +:+ Go.Sprintf_d jenkinsBuildNumberFlag
  +:+ "/L=" +:+ slaveLabel +:+ ",TEST=" +:+ testName +:+ "/testReport/"
  +:+ safePackageName +:+ "/" +:+ safeClassName +:+ "/" +:+ safeTestCaseName.

(** [genTestResultLink]. *)
Definition genTestResultLink (className testCaseName : string) (suffix : Z)
    (testName slaveLabel : string) : string :=
  let testFullName := genTestFullName className testCaseName in
  let rawurl := testResultRawurl className testCaseName testName slaveLabel in
  match url_Parse rawurl with
  | inl testResultUrl =>
      let link := "- " +:+ testFullName +:+ Go.LF +:+ testResultUrl in
      if decide (suffix > 1) then link +:+ "_" +:+ Go.Sprintf_d suffix
      else link
  | inr err =>
      "- " +:+ testFullName +:+ Go.LF +:+ "  Result link not available ("
      +:+ err +:+ ")"
  end.

(** *** Posting to Gerrit *)

(** [getRefsUsingVerifiedLabel]: the references of the open changes that
    carry the "Verified" label. *)
Definition getRefsUsingVerifiedLabel (ctx : Context) (gerritCred : credential)
  : gset string + error :=
  let gerritObj :=
    ctx_Gerrit ctx gerritBaseUrlFlag (username gerritCred) (password gerritCred) in
  match gerrit.Query gerritObj defaultQueryString with
  | inr err => inr err
  | inl cls =>
      inl (fold_left
             (fun (ret : gset string) cl =>
                if bool_decide ("Verified"%string ∈ gerrit.Labels cl)
                then {[gerrit.Reference cl]} ∪ ret else ret)
             cls ∅)
  end.

(** The loop of [postMessage] over the references: the error that ends
    it, if any, and the reviews posted. *)
Fixpoint postReviews (gerritObj : gerrit.Gerrit) (message value : string)
    (refsUsingVerifiedLabel : gset string) (refs : list string)
  : option error * list event :=
  match refs with
  | [] => (None, [])
  | ref :: rest =>
      let labels : gmap string string :=
        if bool_decide (ref ∈ refsUsingVerifiedLabel)
        then {["Verified"%string := value]} else ∅ in
      match gerrit.PostReview gerritObj ref message labels with
      | Some err => (Some err, [PostReview ref message labels])
      | None =>
          let r := postReviews gerritObj message value refsUsingVerifiedLabel rest in
          (r.1, PostReview ref message labels :: r.2)
      end
  end.

(** [postMessage]. *)
Definition postMessage (ctx : Context) (message : string) (refs : list string)
    (success : bool) : option error * list event :=
  let call := PostMessage message refs success in
  match checkGerritBaseUrl with
  | inr err => (Some err, [call])
  | inl gerritHost =>
      match gerritHostCredential gerritHost with
      | inr err => (Some err, [call])
      | inl gerritCred =>
          match getRefsUsingVerifiedLabel ctx gerritCred with
          | inr err => (Some err, [call])
          | inl refsUsingVerifiedLabel =>
              let value := if success then "1"%string else "-1"%string in
              let gerritObj :=
                ctx_Gerrit ctx gerritBaseUrlFlag (username gerritCred)
                  (password gerritCred) in
              let r := postReviews gerritObj message value
                         refsUsingVerifiedLabel refs in
              (r.1, call :: r.2)
          end
      end
  end.

(** *** The sections of the report *)

(** [reportFailedPresubmitBuild]: whether the presubmit build failed, and
    the report buffer. *)
Definition reportFailedPresubmitBuild (ctx : Context) (report : string)
  : bool * string :=
  match ctx_Jenkins ctx jenkinsHostFlag with
  | inr _ => (false, report)
  | inl jenkinsObj =>
      match jenkins.BuildInfoOf jenkinsObj presubmitTestJobFlag
              jenkinsBuildNumberFlag with
      | inr _ => (false, report)
      | inl masterJobInfo =>
          if decide (jenkins.Result masterJobInfo = "FAILURE")
          then (true, report +:+ "SOME TESTS FAILED TO RUN." +:+ Go.LF
                        +:+ "Retrying..." +:+ Go.LF)
          else (false, report)
      end
  end.

(** [reportMergeConflicts]: whether a merge conflict was found, and what
    the call did to the review server. *)
Fixpoint reportMergeConflicts (ctx : Context) (testResults : list testResultInfo)
    (refs : list string) : bool * list event :=
  match testResults with
  | [] => (false, [])
  | resultInfo :: rest =>
      if decide (testutil.Status (Result resultInfo)
                 = testutil.TestFailedMergeConflict)
      then
        let message :=
          mergeConflictMessage (testutil.MergeConflictCL (Result resultInfo)) in
        (true, (postMessage ctx message refs false).2)
      else reportMergeConflicts ctx rest refs
  end.

(** [reportBuildCop]. *)
Definition reportBuildCop (ctx : Context) (report : string) : string :=
  match BuildCop ctx with
  | inr _ => report
  | inl buildCop =>
      report +:+ Go.LF +:+ "Current Build Cop: " +:+ buildCop +:+ Go.LF +:+ Go.LF
  end.

(** The body of the loop of [reportTestResultsSummary], on the failed test
    names and the report buffer. *)
Definition summaryStep (ctx : Context) (acc : list string * string)
    (resultInfo : testResultInfo) : list string * string :=
  let '(failedTestNames, report) := acc in
  let name := TestName resultInfo in
  let result := Result resultInfo in
  let slaveLabel := SlaveLabel resultInfo in
  if decide (testutil.Status result = testutil.TestSkipped) then
    (failedTestNames, report +:+ "skipped " +:+ name +:+ Go.LF)
  else
    let lastStatus :=
      getPostSubmitBuildStatus ctx name slaveLabel (Timestamp resultInfo) in
    let lastStatusString :=
      if decide (lastStatus = unknownStatus) then "?"%string
      else if decide (lastStatus = "SUCCESS") then "✔"%string
      else "✖"%string in
    let '(failedTestNames, curStatusString) :=
      if decide (testutil.Status result = testutil.TestPassed)
      then (failedTestNames, "✔"%string)
      else (failedTestNames ++ [name], "✖"%string) in
    let nameString :=
      if isMultiConfigurationJob name
      then name +:+ " [" +:+ Go.Replace slaveLabel "-slave" "" +:+ "]"
      else name in
    let report :=
      report +:+ lastStatusString +:+ " ➔ " +:+ curStatusString +:+ ": "
      +:+ nameString in
    if decide (testutil.Status result = testutil.TestTimedOut) then
      let timeoutValue :=
        if decide (testutil.TimeoutValue result <> 0)
        then testutil.TimeoutValue result else DefaultTestTimeout in
      (failedTestNames,
       report +:+ " [TIMED OUT after " +:+ Duration_String timeoutValue
       +:+ "]" +:+ Go.LF)
    else (failedTestNames, report +:+ Go.LF).

(** [reportTestResultsSummary]: the failed test names and the report
    buffer. *)
Definition reportTestResultsSummary (ctx : Context)
    (testResults : list testResultInfo) (report : string)
  : list string * string :=
  fold_left (summaryStep ctx) testResults
    ([], report +:+ "Test results:" +:+ Go.LF).

(** The body of the loop of [reportFailedTestCases] over the failure
    types. *)
Definition reportGroup (groups : failedTestCasesGroups) (report : string)
    (failureType : failureType) : string :=
  match groups !! failureType with
  | None => report
  | Some failedTestCaseInfos =>
      if decide (length failedTestCaseInfos = 0%nat) then report
      else
        let failureTypeStr :=
          if decide (1 < length failedTestCaseInfos)%nat
          then failureType_String failureType +:+ "S"
          else failureType_String failureType in
        let curLinks :=
          map (fun testCase =>
                 genTestResultLink (className testCase) (testCaseName testCase)
                   (seenTestsCount testCase) (testName testCase)
                   (slaveLabel testCase))
              failedTestCaseInfos in
        report +:+ Go.LF +:+ failureTypeStr +:+ ":" +:+ Go.LF
        +:+ Go.Join curLinks Go.LF +:+ Go.LF +:+ Go.LF
  end.

(** [reportFailedTestCases]: the number of new failures with the error,
    and the report buffer. *)
Definition reportFailedTestCases (ctx : Context)
    (testResults : list testResultInfo) (report : string)
  : (Z * option error) * string :=
  match genFailedTestCasesGroupsForAllTests ctx testResults with
  | (_, Some err) => ((-1, Some err), report)
  | (groups, None) =>
      ((Z.of_nat (length (group groups newFailure)), None),
       fold_left (reportGroup groups)
         [newFailure; knownFailure; fixedFailure] report)
  end.

(** [reportUsefulLinks]. *)
Definition reportUsefulLinks (ctx : Context) (report : string)
    (failedTestNames : list string) : string :=
  let report :=
    report +:+ Go.LF +:+ "More details at:" +:+ Go.LF +:+ jenkinsBaseJobUrl
    +:+ "/" +:+ presubmitTestJobFlag +:+ "/"
    +:+ Go.Sprintf_d jenkinsBuildNumberFlag +:+ "/" +:+ Go.LF in
  if decide (0 < length failedTestNames)%nat then
    let link :=
      genStartPresubmitBuildLink reviewTargetRefsFlag projectsFlag
        (Go.Join failedTestNames " ") in
    let report :=
      report +:+ Go.LF
      +:+ "To re-run FAILED TESTS ONLY without uploading a new patch set:"
      +:+ Go.LF +:+ "(click Proceed button on the next screen)" +:+ Go.LF
      +:+ link +:+ Go.LF in
    let link :=
      genStartPresubmitBuildLink reviewTargetRefsFlag projectsFlag
        (Getenv ctx "TESTS") in
    report +:+ Go.LF
    +:+ "To re-run presubmit tests without uploading a new patch set:"
    +:+ Go.LF +:+ "(click Proceed button on the next screen)" +:+ Go.LF
    +:+ link +:+ Go.LF
  else report.

(** *** [postTestReport] *)

(** The number of new failures and the report after the summary: the
    failed test cases are grouped and reported only when some test failed. *)
Definition reportBody (ctx : Context) (testResults : list testResultInfo)
    (report : string) : list string * (Z * option error) * string :=
  let '(failedTestNames, report) :=
    reportTestResultsSummary ctx testResults report in
  if decide (length failedTestNames <> 0%nat) then
    let '(r, report) := reportFailedTestCases ctx testResults report in
    (failedTestNames, r, report)
  else (failedTestNames, (0, None), report).

(** [postTestReport]: the error it returns and what it did to the review
    server. *)
Definition postTestReport (ctx : Context) (testResults : list testResultInfo)
    (refs : list string) : option error * list event :=
  if decide (length testResults = 0%nat) then (None, [])
  else
    let report := ""%string in
    let '(failed, report) := reportFailedPresubmitBuild ctx report in
    if failed then (None, [])
    else
      let '(conflict, posted) := reportMergeConflicts ctx testResults refs in
      if conflict then (None, posted)
      else
        let report := reportBuildCop ctx report in
        let '(failedTestNames, (numNewFailures, err), report) :=
          reportBody ctx testResults report in
        match err with
        | Some err => (Some err, [])
        | None =>
            let report := reportUsefulLinks ctx report failedTestNames in
            let success := bool_decide (numNewFailures = 0) in
            postMessage ctx report refs success
        end.

End Report.

(** ** The status record of a merge conflict *)

(** [recordMergeConflict] ([src/unnamed/part_001]): the record that
    [writeTestStatusFile] writes for the test [testFlag] run under the
    label [L] when pulling [failedCL] fails.  Its time stamp is
    [math.MaxInt64]. *)
Definition recordMergeConflict (testFlag L failedCL : string) : testResultInfo :=
  {| Result :=
       {| testutil.Status := testutil.TestFailedMergeConflict;
          testutil.TimeoutValue := 0;
          testutil.MergeConflictCL := failedCL |};
     TestName := testFlag;
     SlaveLabel := L;
     Timestamp := Go.MaxInt64;
     PostSubmitResult := "" |}.

(** ** The commands around the report *)

(** More of Go's standard library: [strings.Split] for a non-empty
    separator, [strings.HasPrefix], [strings.HasSuffix] and
    [sort.Strings], which sorts by the order of the bytes. *)
Module GoMore.

(** [piece] is the part of the current element read so far, [skip] the
    bytes of a matched separator still to be dropped. *)
Fixpoint Split_from (skip : nat) (piece s sep : string) : list string :=
  match s with
  | EmptyString => [piece]
  | String c s' =>
      match skip with
      | S k => Split_from k piece s' sep
      | O =>
          if String.prefix sep s
          then piece :: Split_from (String.length sep - 1) EmptyString s' sep
          else Split_from 0 (piece +:+ String c EmptyString) s' sep
      end
  end.

Definition Split (s sep : string) : list string := Split_from 0 EmptyString s sep.

Definition HasPrefix (s prefix : string) : bool := String.prefix prefix s.

Definition HasSuffix (s suffix : string) : bool :=
  (String.length suffix <=? String.length s)%nat
  && bool_decide (String.substring (String.length s - String.length suffix)
                    (String.length suffix) s = suffix).

Definition string_le (a b : string) : Prop := String.leb a b = true.

#[global] Instance string_le_dec a b : Decision (string_le a b).
Proof. unfold string_le. apply _. Defined.

Definition sort_Strings (l : list string) : list string := merge_sort string_le l.

End GoMore.

(** The test case of the earlier presubmit test command, which the file
    still holds ([testCase] and its method [equal]). *)
Module Old.
Record testCase := {
  ClassName : string;
  Name : string;
  Status : string }.

Definition equal (t t2 : testCase) : bool :=
  bool_decide (ClassName t = ClassName t2) && bool_decide (Name t = Name t2).
End Old.

(** What the commands take from outside besides [GoLib] and [Flags]:
    [json.Unmarshal] into and [json.Marshal] of a [testResultInfo], and
    [parseRefString], which another file of the package declares. *)
Class CmdLib := {
  json_Unmarshal : string -> testResultInfo + error;
  json_Marshal : testResultInfo -> string + error;
  parseRefString : string -> (Z * Z) + error }.

(** A call that returns, or one that ends in a run-time panic (a method
    called on a nil value). *)
Inductive outcome (A : Type) :=
| Returned (a : A)
| Panicked.

Arguments Returned {A} a.
Arguments Panicked {A}.

Section Commands.

Context `{lib : GoLib} `{flags : Flags} `{cmds : CmdLib}.

(** *** [runResult] *)

(** The function that [runResult] passes to [filepath.Walk], over the
    visits of the walk: each visit has a path and the name of its file
    info, or no file info at all (the walk could not stat the root); the
    function asks a missing file info for its name. *)
Fixpoint collectStatusFiles (visits : list (string * option string))
  : option (list string) :=
  match visits with
  | [] => Some []
  | (path, None) :: _ => None
  | (path, Some fileName) :: rest =>
      match collectStatusFiles rest with
      | None => None
      | Some statusFiles =>
          if GoMore.HasPrefix fileName "status_" && GoMore.HasSuffix fileName ".json"
          then Some (path :: statusFiles)
          else Some statusFiles
      end
  end.

(** The loop of [runResult] that reads the status files. *)
Fixpoint readStatusFiles (ctx : Context) (statusFiles : list string)
  : list testResultInfo + error :=
  match statusFiles with
  | [] => inl []
  | statusFile :: rest =>
      match ReadFile ctx statusFile with
      | inr err => inr ("ReadFile(" +:+ statusFile +:+ ") failed: " +:+ err)
      | inl bytes =>
          match json_Unmarshal bytes with
          | inr err => inr ("Unmarshal() failed: " +:+ err)
          | inl curResult =>
              match readStatusFiles ctx rest with
              | inr err => inr err
              | inl testResults => inl (curResult :: testResults)
              end
          end
      end
  end.

(** [runResult], for the walk [Walk] of the file tree: what it returns
    and what it did to the review server. *)
Definition runResult (ctx : Context)
    (Walk : string -> list (string * option string))
  : outcome (option error) * list event :=
  let workspaceDir := Getenv ctx "WORKSPACE" in
  let curTestResultsDir :=
    filepath_Join [workspaceDir; "test_results"%string;
                   Go.Sprintf_d jenkinsBuildNumberFlag] in
  match collectStatusFiles (Walk curTestResultsDir) with
  | None => (Panicked, [])
  | Some statusFiles =>
      match readStatusFiles ctx (GoMore.sort_Strings statusFiles) with
      | inr err => (Returned (Some err), [])
      | inl testResults =>
          let refs := GoMore.Split reviewTargetRefsFlag ":" in
          let r := postTestReport ctx testResults refs in
          (Returned r.1, r.2)
      end
  end.

(** *** The earlier link generation *)

(** [failedTestLinksMap]: [map[failureType][]string]. *)
Definition links (linksMap : gmap failureType (list string)) (t : failureType)
  : list string := default [] (linksMap !! t).

Definition links_append (linksMap : gmap failureType (list string))
    (t : failureType) (link : string) : gmap failureType (list string) :=
  <[t := links linksMap t ++ [link]]> linksMap.

(** [parseFailedTestCases], on the suites that the JSON decoder gives:
    the cases whose status is "FAILED" or "REGRESSION". *)
Definition parseFailedTestCases (decoded : list (list Old.testCase) + error)
  : list Old.testCase * option error :=
  match decoded with
  | inr err => ([], Some ("Decode() failed: " +:+ err))
  | inl suites =>
      (fold_left
         (fun failedTestCases suite =>
            fold_left
              (fun failedTestCases curCase =>
                 if bool_decide (Old.Status curCase = "FAILED")
                    || bool_decide (Old.Status curCase = "REGRESSION")
                 then failedTestCases ++ [curCase] else failedTestCases)
              suite failedTestCases)
         suites [],
       None)
  end.

(** The earlier [genTestResultLink], which is given the full test name. *)
Definition Old_genTestResultLink (className testCaseName testFullName : string)
    (suffix : Z) (testName slaveLabel : string) : string :=
  let rawurl := testResultRawurl className testCaseName testName slaveLabel in
  match url_Parse rawurl with
  | inl testResultUrl =>
      let link := "- " +:+ testFullName +:+ Go.LF +:+ testResultUrl in
      if decide (suffix > 1) then link +:+ "_" +:+ Go.Sprintf_d suffix
      else link
  | inr err =>
      "- " +:+ testFullName +:+ Go.LF +:+ "  Result link not available ("
      +:+ err +:+ ")"
  end.

Fixpoint Old_isNewFailure (Classname Name : string)
    (failedTestCases : list Old.testCase) : bool :=
  match failedTestCases with
  | [] => true
  | prevFailedTestCase :: rest =>
      if bool_decide (Classname = Old.ClassName prevFailedTestCase)
         && bool_decide (Name = Old.Name prevFailedTestCase)
      then false
      else Old_isNewFailure Classname Name rest
  end.

Fixpoint Old_isFixed (prevFailedTestCase : Old.testCase)
    (curFailedTestCases : list Old.testCase) : bool :=
  match curFailedTestCases with
  | [] => true
  | curFailedTestCase :: rest =>
      if Old.equal prevFailedTestCase curFailedTestCase
      then false
      else Old_isFixed prevFailedTestCase rest
  end.

Record linksState := {
  ls_linksMap : gmap failureType (list string);
  ls_curFailedTestCases : list Old.testCase;
  ls_seenTests : gmap string Z }.

(** The body of the inner loop of [genFailedTestLinks]. *)
Definition Old_oneTestCase (testName slaveLabel : string)
    (failedTestCases : list Old.testCase)
    (curTestSuite : xmlTestsuite) (st : linksState)
    (curTestCase : xmlTestcase) : linksState :=
  let Classname := caseClassname curTestSuite curTestCase in
  let Name := caseName curTestCase in
  let testFullName := genTestFullName Classname Name in
  let testKey :=
    if decide (slaveLabel <> "") then testFullName +:+ "-" +:+ slaveLabel
    else testFullName in
  let seenTests := seen_incr (ls_seenTests st) testKey in
  if decide (FailureData curTestCase <> "") then
    let link :=
      Old_genTestResultLink Classname Name testFullName
        (seen_count seenTests testKey) testName slaveLabel in
    let linksMap :=
      if Old_isNewFailure Classname Name failedTestCases
      then links_append (ls_linksMap st) newFailure link
      else links_append (ls_linksMap st) knownFailure link in
    {| ls_linksMap := linksMap;
       ls_curFailedTestCases :=
         ls_curFailedTestCases st
           ++ [{| Old.ClassName := Classname; Old.Name := Name;
                  Old.Status := "" |}];
       ls_seenTests := seenTests |}
  else
    {| ls_linksMap := ls_linksMap st;
       ls_curFailedTestCases := ls_curFailedTestCases st;
       ls_seenTests := seenTests |}.

(** The loop of [genFailedTestLinks] over the previous failures: a fixed
    test is shown by its name only. *)
Definition Old_populateFixed (curFailedTestCases : list Old.testCase)
    (linksMap : gmap failureType (list string))
    (prevFailedTestCase : Old.testCase) : gmap failureType (list string) :=
  if Old_isFixed prevFailedTestCase curFailedTestCases
  then links_append linksMap fixedFailure
         ("- " +:+ genTestFullName (Old.ClassName prevFailedTestCase)
                     (Old.Name prevFailedTestCase))
  else linksMap.

(** [genFailedTestLinks], on the bytes that its reader gives: the links or
    the error, and [seenTests] as the call leaves it. *)
Definition genFailedTestLinks (reader : string) (seenTests : gmap string Z)
    (testName slaveLabel : string)
    (getFailedTestCases : string -> string -> list Old.testCase * option error)
  : (gmap failureType (list string) + error) * gmap string Z :=
  let failedTestCases := (getFailedTestCases testName slaveLabel).1 in
  match xml_Unmarshal reader with
  | inr err => (inr ("Decode() failed: " +:+ err), seenTests)
  | inl testSuites =>
      let st :=
        fold_left
          (fun st curTestSuite =>
             fold_left (Old_oneTestCase testName slaveLabel failedTestCases
                          curTestSuite)
               (Testcases curTestSuite) st)
          (Testsuites testSuites)
          {| ls_linksMap := ∅; ls_curFailedTestCases := [];
             ls_seenTests := seenTests |} in
      (inl (fold_left (Old_populateFixed (ls_curFailedTestCases st))
              failedTestCases (ls_linksMap st)),
       ls_seenTests st)
  end.

End Commands.

(** ** The presubmit test command ([src/unnamed/part_001]) *)

(** What the test command takes from outside: the [-test] flag; package
    [xunit], whose [CreateFailureReport] answers with its error and with
    the files it has written (the xUnit report of the failure); the file
    writes of [ctx.Run()]; the [%v] of a [testResultInfo]; and the
    deferred clean-up of [runTest]: the answer of [cleanupFn], and
    [collect.Error], which is given that answer and the result [e] of the
    command and gives the result that the command returns. *)
Class TestLib := {
  testFlag : string;
  xunit_CreateFailureReport :
    string -> string -> string -> string -> string
    -> option error * list (string * string);
  WriteFile : string -> string -> option error;
  Sprintf_v : testResultInfo -> string;
  cleanupFn : option error;
  collect_Error : option error -> option error -> option error }.

Module Test.

Record cl := {
  clNumber : Z;
  patchset : Z;
  ref : string;
  project : string }.

Definition cl_String (c : cl) : string :=
  "http://go/vcl/" +:+ Go.Sprintf_d (clNumber c) +:+ "/"
  +:+ Go.Sprintf_d (patchset c).

Definition prepareTestBranchAttempts : nat := 3.

(** [%v] of a slice of strings. *)
Definition Sprintf_v_strings (l : list string) : string :=
  "[" +:+ Go.Join l " " +:+ "]".

(** How the loop of [runTest] over the attempts ends: the command goes on
    to rebuild the tools and to run the test, or it ends with the result
    [r]. *)
Inductive prepared :=
| TestsRun
| Return (r : outcome (option error)).

Section TestCommand.

Context `{lib : GoLib} `{flags : Flags} `{cmds : CmdLib} `{tests : TestLib}.

(** The loop of [parseCLs]; [projects[i]] out of range is a run-time
    panic. *)
Fixpoint parseCLs_loop (i : nat) (refs projects : list string) (cls : list cl)
  : outcome (list cl + error) :=
  match refs with
  | [] => Returned (inl cls)
  | curRef :: refs' =>
      match projects !! i with
      | None => Panicked
      | Some curProject =>
          match parseRefString curRef with
          | inr err => Returned (inr err)
          | inl (curClNumber, curPatchset) =>
              parseCLs_loop (S i) refs' projects
                (cls ++ [{| clNumber := curClNumber; patchset := curPatchset;
                            ref := curRef; project := curProject |}])
          end
      end
  end.

Definition parseCLs : outcome (list cl + error) :=
  let refs := GoMore.Split reviewTargetRefsFlag ":" in
  let projects := GoMore.Split projectsFlag ":" in
  if decide (length refs <> length projects) then
    Returned
      (inr ("Mismatching lengths of " +:+ Sprintf_v_strings refs +:+ " and "
            +:+ Sprintf_v_strings projects +:+ ": "
            +:+ Go.Sprintf_d (Z.of_nat (length refs)) +:+ " vs. "
            +:+ Go.Sprintf_d (Z.of_nat (length projects))))
  else parseCLs_loop 0 refs projects [].

Definition presubmitTestBranchName (ref : string) : string := "presubmit_" +:+ ref.

(** The name of the status file of the test. *)
Definition statusFileName : string :=
  "status_" +:+ Go.Replace testFlag "-" "_" +:+ ".json".

(** [writeTestStatusFile]: the error, and the files written with their
    content. *)
Definition writeTestStatusFile (ctx : Context) (result : testutil.TestResult)
    (curTimestamp : Z) : option error * list (string * string) :=
  let workspace := Getenv ctx "WORKSPACE" in
  let fileName := statusFileName in
  let statusFilePath :=
    if decide (workspace = "")
    then filepath_Join [Getenv ctx "HOME"; "tmp"%string; testFlag; fileName]
    else filepath_Join [workspace; fileName] in
  let r :=
    {| Result := result;
       TestName := testFlag;
       SlaveLabel := Getenv ctx "L";
       Timestamp := curTimestamp;
       PostSubmitResult := "" |} in
  match json_Marshal r with
  | inr err => (Some ("Marshal(" +:+ Sprintf_v r +:+ ") failed: " +:+ err), [])
  | inl bytes =>
      match WriteFile statusFilePath bytes with
      | Some err =>
          (Some ("WriteFile(" +:+ statusFilePath +:+ ") failed: " +:+ err), [])
      | None => (None, [(statusFilePath, bytes)])
      end
  end.

(** [recordMergeConflict] as a whole: what it returns and the files
    written, those of the failure report first.  [failedCL] is a pointer
    and [failedCL.String()] on nil is a run-time panic. *)
Definition recordMergeConflict (ctx : Context) (failedCL : option cl)
  : outcome (option error) * list (string * string) :=
  match failedCL with
  | None => (Panicked, [])
  | Some c =>
      let message := mergeConflictMessage (cl_String c) in
      match xunit_CreateFailureReport testFlag testFlag "MergeConflict"
              message message with
      | (Some err, reportFiles) => (Returned None, reportFiles)
      | (None, reportFiles) =>
          let result :=
            {| testutil.Status := testutil.TestFailedMergeConflict;
               testutil.TimeoutValue := 0;
               testutil.MergeConflictCL := cl_String c |} in
          let w := writeTestStatusFile ctx result Go.MaxInt64 in
          (Returned w.1, reportFiles ++ w.2)
      end
  end.

(** The deferred [collect.Error(cleanupFn, &e)] of [runTest]: it runs
    when the command returns and settles the result; a panic goes on
    after it. *)
Definition deferred (e : outcome (option error)) : outcome (option error) :=
  match e with
  | Returned e => Returned (collect_Error cleanupFn e)
  | Panicked => Panicked
  end.

(** The loop of [runTest] that prepares the presubmit test branch, from
    attempt [i] with [fuel] attempts left.  [preparePresubmitTestBranch]
    gives the answer of each attempt by its number.  The result is how
    the loop ends, the files written, and the number of the last attempt
    made.  A [return] inside the loop ends the command: its value goes
    through the deferred clean-up. *)
Fixpoint prepareFrom (ctx : Context)
    (preparePresubmitTestBranch : nat -> option cl * option error)
    (fuel i : nat) : prepared * list (string * string) * nat :=
  match fuel with
  | O => (TestsRun, [], Nat.pred i)
  | S fuel' =>
      match preparePresubmitTestBranch i with
      | (failedCL, Some err) =>
          if Go.Contains err "unable to access"
          then prepareFrom ctx preparePresubmitTestBranch fuel' (S i)
          else if Go.Contains err "git pull"
          then
            let r := recordMergeConflict ctx failedCL in
            (Return (deferred r.1), r.2, i)
          else (Return (deferred (Returned (Some err))), [], i)
      | (_, None) => (TestsRun, [], i)
      end
  end.

Definition prepareTestBranch (ctx : Context)
    (preparePresubmitTestBranch : nat -> option cl * option error)
  : prepared * list (string * string) * nat :=
  prepareFrom ctx preparePresubmitTestBranch prepareTestBranchAttempts 1.

End TestCommand.

End Test.


(** * The notions of the properties *)

Section Notions.

Context `{lib : GoLib} `{flags : Flags}.

(** [countdown i n]: the [n] build numbers [i], [i - 1], ... *)
Fixpoint countdown (i : Z) (n : nat) : list Z :=
  match n with
  | O => []
  | S k => i :: countdown (i - 1) k
  end.

(** Build [i] is the first one at or before [cutoff] on the way down from
    [curId]: its lookup succeeds with a time stamp that is not after the
    cutoff, and every build above it up to [curId] has one after it. *)
Definition firstBuildAtOrBefore (jenkinsObj : jenkins.Jenkins)
    (jobName slaveLabel : string) (cutoff curId i : Z) : Prop :=
  0 <= i <= curId /\
  (exists b, jenkins.BuildInfoForSpec jenkinsObj (buildSpecOf jobName slaveLabel i)
             = inl b /\ jenkins.Timestamp b <= cutoff) /\
  forall k, i < k <= curId ->
    exists b, jenkins.BuildInfoForSpec jenkinsObj (buildSpecOf jobName slaveLabel k)
              = inl b /\ jenkins.Timestamp b > cutoff.

(** No build from [i] down to 0 is at or before [cutoff]. *)
Definition buildsExhausted (jenkinsObj : jenkins.Jenkins)
    (jobName slaveLabel : string) (cutoff i : Z) : Prop :=
  forall k, 0 <= k <= i ->
    exists b, jenkins.BuildInfoForSpec jenkinsObj (buildSpecOf jobName slaveLabel k)
              = inl b /\ jenkins.Timestamp b > cutoff.

(** The claim of a resolution at the cutoff, as the specification words
    it: the status and the failed test cases returned are those of the
    first build at or before the cutoff. *)
Definition resolvesAtCutoff (ctx : Context) (jobName slaveLabel : string)
    (cutoff : Z) : Prop :=
  forall jenkinsObj buildInfo curId i b cases,
    ctx_Jenkins ctx jenkinsHostFlag = inl jenkinsObj ->
    lastCompletedBuildStatus ctx jobName slaveLabel = inl buildInfo ->
    Go.Atoi (jenkins.Id buildInfo) = inl curId ->
    firstBuildAtOrBefore jenkinsObj jobName slaveLabel cutoff curId i ->
    jenkins.BuildInfoForSpec jenkinsObj (buildSpecOf jobName slaveLabel i) = inl b ->
    jenkins.FailedTestCasesForBuildSpec jenkinsObj (buildSpecOf jobName slaveLabel i)
    = inl cases ->
    getPostSubmitBuildStatus ctx jobName slaveLabel cutoff = jenkins.Result b /\
    (getFailedTestCases ctx jobName slaveLabel).1 = cases.

(** The test cases of a parsed report with their suites, over all the
    suites, in the order of the report. *)
Definition allCases (suites : testSuites) : list (xmlTestsuite * xmlTestcase) :=
  Testsuites suites ≫= (fun curTestSuite => pair curTestSuite <$> Testcases curTestSuite).

(** A test case failed when its failure payload is not empty. *)
Definition failed (c : xmlTestsuite * xmlTestcase) : Prop := FailureData c.2 <> "".

(** The identity of a test case: its class name and its test name, as the
    parser leaves them. *)
Definition rawName (c : xmlTestsuite * xmlTestcase) : string * string :=
  (caseClassname c.1 c.2, caseName c.2).

(** The failing cases of the current run of a test, over all its suites. *)
Definition currentFailures (suites : testSuites) : list (string * string) :=
  rawName <$> filter failed (allCases suites).

Definition sameTest (x : string * string) (p : jenkins.TestCase) : Prop :=
  jenkins.ClassName p = x.1 /\ jenkins.Name p = x.2.

(** Some case of the baseline has the identity [x]. *)
Definition inBaseline (postsubmit : list jenkins.TestCase) (x : string * string)
  : Prop := Exists (sameTest x) postsubmit.

(** Some failing case of the current run has the identity of [p]. *)
Definition stillFailing (current : list (string * string)) (p : jenkins.TestCase)
  : Prop := (jenkins.ClassName p, jenkins.Name p) ∈ current.

Definition identity (info : failedTestCaseInfo) : string * string :=
  (className info, testCaseName info).

#[global] Instance failed_dec c : Decision (failed c).
Proof. unfold failed. apply _. Defined.

#[global] Instance sameTest_dec x p : Decision (sameTest x p).
Proof. unfold sameTest. apply _. Defined.

#[global] Instance inBaseline_dec postsubmit x : Decision (inBaseline postsubmit x).
Proof. unfold inBaseline. apply _. Defined.

#[global] Instance stillFailing_dec current p : Decision (stillFailing current p).
Proof. unfold stillFailing. apply _. Defined.

(** The loops over the suites and their test cases as one loop over
    [allCases]. *)
Definition casesStep (testName slaveLabel : string)
    (postsubmit : list jenkins.TestCase) (st : oneTestState)
    (c : xmlTestsuite * xmlTestcase) : oneTestState :=
  oneTestCase testName slaveLabel postsubmit c.1 st c.2.

Definition caseOf (c : xmlTestsuite * xmlTestcase) : jenkins.TestCase :=
  {| jenkins.ClassName := (rawName c).1; jenkins.Name := (rawName c).2 |}.

(** Every "." of a string replaced by "::". *)
Fixpoint escapeDots (s : string) : string :=
  match s with
  | EmptyString => EmptyString
  | String c s' =>
      if decide (c = "."%char) then String ":" (String ":" (escapeDots s'))
      else String c (escapeDots s')
  end.

(** A test that counts as failed in the summary: neither skipped nor
    passed. *)
Definition testFailed (resultInfo : testResultInfo) : Prop :=
  testutil.Status (Result resultInfo) <> testutil.TestSkipped /\
  testutil.Status (Result resultInfo) <> testutil.TestPassed.

#[global] Instance testFailed_dec resultInfo : Decision (testFailed resultInfo).
Proof. unfold testFailed. apply _. Defined.

(** The NEW group that the report shows: the one of the classification
    when some test failed, and none otherwise, as the failed test cases
    are then not grouped at all. *)
Definition reportedNew (ctx : Context) (testResults : list testResultInfo)
  : list failedTestCaseInfo :=
  if decide (filter testFailed testResults = []) then []
  else group (genFailedTestCasesGroupsForAllTests ctx testResults).1 newFailure.

(** The failing cases of a test of the run: those of its report when the
    report can be read and parses, none otherwise. *)
Definition shardFailures (ctx : Context) (testResult : testResultInfo)
  : list (string * string) :=
  match ReadFile ctx (xUnitReportFile ctx (TestName testResult)
                        (SlaveLabel testResult)) with
  | inr _ => []
  | inl report =>
      match xml_Unmarshal report with
      | inr _ => []
      | inl suites => currentFailures suites
      end
  end.

(** A change of the query with the reference [ref] carries the
    "Verified" label. *)
Definition usesVerifiedLabel (cls : list gerrit.Change) (ref : string) : Prop :=
  Exists (fun cl => gerrit.Reference cl = ref
                    /\ "Verified"%string ∈ gerrit.Labels cl) cls.

#[global] Instance usesVerifiedLabel_dec cls ref : Decision (usesVerifiedLabel cls ref).
Proof. unfold usesVerifiedLabel. apply _. Defined.

(** The vote of a report. *)
Definition voteOf (success : bool) : string :=
  if success then "1"%string else "-1"%string.

(** The review of [ref] with [message]: it carries the vote when [ref]
    uses the "Verified" label and no label otherwise. *)
Definition reviewFor (message value : string) (cls : list gerrit.Change)
    (ref : string) : event :=
  PostReview ref message
    (if bool_decide (usesVerifiedLabel cls ref)
     then {["Verified"%string := value]} else ∅).

(** The references that a run has reviewed, in order. *)
Definition reviewedRefs (events : list event) : list string :=
  omap (fun e => match e with
                 | PostReview ref _ _ => Some ref
                 | PostMessage _ _ _ => None
                 end) events.

(** The parsed report of a test of the run, when its file can be read and
    parses. *)
Definition shardSuites (ctx : Context) (testResult : testResultInfo)
  : option testSuites :=
  match ReadFile ctx (xUnitReportFile ctx (TestName testResult)
                        (SlaveLabel testResult)) with
  | inr _ => None
  | inl report =>
      match xml_Unmarshal report with
      | inr _ => None
      | inl suites => Some suites
      end
  end.

(** The baseline that a test of the run is classified against. *)
Definition baselineOf (ctx : Context) (testResult : testResultInfo)
  : list jenkins.TestCase :=
  (getFailedTestCases ctx (TestName testResult) (SlaveLabel testResult)).1.

(** The package name and the class name that [testResultRawurl] takes from
    a class name. *)
Definition junitPackageAndClass (className : string) : string * string :=
  if Go.Contains className "." then
    let lastDotIndex := Go.LastIndex className "." in
    (Go.slice_to className lastDotIndex,
     Go.slice_from className (lastDotIndex + 1))
  else ("(root)"%string, className).

(** The test cases of a report that count for the key [testKey] of
    [seenTests]. *)
Definition encounters (slaveLabel testKey : string) (suites : testSuites)
  : list (xmlTestsuite * xmlTestcase) :=
  filter (fun c => testKeyOf slaveLabel c.1 c.2 = testKey) (allCases suites).

(** The link that the report shows for an entry of a group. *)
Definition linkOf (info : failedTestCaseInfo) : string :=
  genTestResultLink (className info) (testCaseName info) (seenTestsCount info)
    (testName info) (slaveLabel info).

(** A test case of the earlier command as a test case of package
    [jenkins]. *)
Definition toJenkins (c : Old.testCase) : jenkins.TestCase :=
  {| jenkins.ClassName := Old.ClassName c; jenkins.Name := Old.Name c |}.

(** The loop variables of the two versions go together. *)
Definition linked (ls : linksState) (st : oneTestState) : Prop :=
  ls_seenTests ls = st_seenTests st /\
  toJenkins <$> ls_curFailedTestCases ls = st_curFailedTestCases st /\
  forall t, links (ls_linksMap ls) t = linkOf <$> group (st_groups st) t.

(** The name by which the earlier command shows a fixed test. *)
Definition fixedName (info : failedTestCaseInfo) : string :=
  "- " +:+ genTestFullName (className info) (testCaseName info).

Definition mergeConflict (resultInfo : testResultInfo) : Prop :=
  testutil.Status (Result resultInfo) = testutil.TestFailedMergeConflict.

(** An attempt to prepare the test branch that fails with an error that
    holds "unable to access". *)
Definition unableToAccess (attempt : option Test.cl * option error) : Prop :=
  exists err, attempt.2 = Some err /\ Go.Contains err "unable to access" = true.

(** A test case of a Jenkins test report counts as failed. *)
Definition failedStatus (curCase : Old.testCase) : Prop :=
  Old.Status curCase = "FAILED" \/ Old.Status curCase = "REGRESSION".

#[global] Instance failedStatus_dec curCase : Decision (failedStatus curCase).
Proof. unfold failedStatus. apply _. Defined.

End Notions.

(** ** A concrete run *)

Module Scenario.

(** A table of answers keyed by a string; a key that is missing is an
    error. *)
Fixpoint answer {A : Type} (table : list (string * A)) (key : string)
  : A + error :=
  match table with
  | [] => inr ("not found: " +:+ key)
  | (k, a) :: rest => if decide (k = key) then inl a else answer rest key
  end.

Definition ishex (c : ascii) : bool :=
  let n := nat_of_ascii c in
  ((48 <=? n) && (n <=? 57) || (65 <=? n) && (n <=? 70)
   || (97 <=? n) && (n <=? 102))%nat.

(** Every "%" is followed by two hexadecimal digits. *)
Fixpoint validEscapes (s : string) : bool :=
  match s with
  | EmptyString => true
  | String c rest =>
      if decide (c = "%"%char) then
        match rest with
        | String a (String b rest') => ishex a && ishex b && validEscapes rest'
        | _ => false
        end
      else validEscapes rest
  end.

(** A stand-in for [net/url]: [url.Parse] rejects a raw URL that holds a
    "%" not followed by two hexadecimal digits (an invalid URL escape);
    for the other raw URLs of this scenario [String] gives the raw URL
    back. *)
Definition parseURL (rawurl : string) : string + error :=
  if validEscapes rawurl then inl rawurl
  else inr ("parse " +:+ rawurl +:+ ": invalid URL escape").

(** The xUnit reports of the scenario, named by their content: shard A
    ran T1 (passed) and T2 (failed), shard B ran T3 (failed). *)
Definition suitesA : testSuites :=
  {| Testsuites :=
       [{| tsName := "v.io/x/lib"; Failures := "1";
           Testcases :=
             [{| Classname := "v.io/x/lib.Suite"; tcName := "T1";
                 FailureData := "" |};
              {| Classname := "v.io/x/lib.Suite"; tcName := "T2";
                 FailureData := "assert false" |}] |}] |}.

Definition suitesB : testSuites :=
  {| Testsuites :=
       [{| tsName := "js"; Failures := "1";
           Testcases :=
             [{| Classname := ""; tcName := "T3";
                 FailureData := "timeout" |}] |}] |}.

(** The library on the strings of the scenario: the two reports are
    named by a tag, no name holds an HTML entity, a path is joined with
    "/", and the two patterns stand for "/" and " ". *)
Definition lib : GoLib :=
  {| xml_Unmarshal := answer [("<A/>"%string, suitesA); ("<B/>"%string, suitesB)];
     html_UnescapeString := fun s => s;
     url_Parse := parseURL;
     filepath_Join := fun elem => Go.Join elem "/";
     Duration_String := fun d => Go.Sprintf_d d +:+ "ns";
     reURLUnsafeChars_ReplaceAllString := fun s repl => Go.Replace s "/" repl;
     reNotIdentifierChars_ReplaceAllString := fun s repl => Go.Replace s " " repl |}.

Definition flags : Flags :=
  {| jenkinsBuildNumberFlag := 45;
     jenkinsHostFlag := "http://jenkins";
     presubmitTestJobFlag := "presubmit-test";
     reviewTargetRefsFlag := "refs/changes/1/1/1";
     projectsFlag := "release.go.core";
     gerritBaseUrlFlag := "https://review";
     jenkinsBaseJobUrl := "http://jenkins/job";
     defaultQueryString := "status:open";
     DefaultTestTimeout := 600;
     genStartPresubmitBuildLink :=
       fun refs projects tests => "http://retry/" +:+ tests;
     checkGerritBaseUrl := inl "review"%string;
     gerritHostCredential :=
       fun _ => inl {| username := "u"; password := "p" |} |}.

Definition T2 : jenkins.TestCase :=
  {| jenkins.ClassName := "v.io/x/lib.Suite"; jenkins.Name := "T2" |}.

(** The Jenkins server: [builds] answers [BuildInfoForSpec], [failed]
    answers [FailedTestCasesForBuildSpec] and the presubmit build has the
    result [master]. *)
Definition server (builds : list (string * jenkins.BuildInfo))
    (failed : list (string * list jenkins.TestCase)) (master : string)
  : jenkins.Jenkins :=
  {| jenkins.BuildInfoForSpec := answer builds;
     jenkins.BuildInfoOf := fun _ _ =>
       inl {| jenkins.Id := "45"; jenkins.Timestamp := 2000;
              jenkins.Result := master |};
     jenkins.FailedTestCasesForBuildSpec := answer failed |}.

(** Gerrit lists one open change, which takes the "Verified" label, and
    accepts every review. *)
Definition review : gerrit.Gerrit :=
  {| gerrit.Query := fun _ =>
       inl [{| gerrit.Reference := "refs/changes/1/1/1";
               gerrit.Labels := ["Code-Review"; "Verified"]%string |}];
     gerrit.PostReview := fun _ _ _ => None |}.

Definition world (j : jenkins.Jenkins) : Context :=
  {| ctx_Jenkins := fun _ => inl j;
     ctx_Gerrit := fun _ _ _ => review;
     ReadFile :=
       answer
         [("ws/test_results/45/L=linux-slave,TEST=vanadium-go-test/tests_vanadium_go_test.xml"%string,
           "<A/>"%string);
          ("ws/test_results/45/L=,TEST=vanadium-js-test/tests_vanadium_js_test.xml"%string,
           "<B/>"%string)];
     Getenv := fun name => if decide (name = "WORKSPACE") then "ws"%string
                           else ""%string;
     BuildCop := inl "alice"%string |}.

Definition build (id : string) (ts : Z) (result : string) : jenkins.BuildInfo :=
  {| jenkins.Id := id; jenkins.Timestamp := ts; jenkins.Result := result |}.

(** The go test job has three builds, of which the last failed with T2;
    the js job has one build without failed test cases. *)
Definition goBuilds : list (string * jenkins.BuildInfo) :=
  [("vanadium-go-test/L=linux-slave/lastCompletedBuild"%string,
      build "2" 900 "FAILURE");
   ("vanadium-go-test/L=linux-slave/2"%string, build "2" 900 "FAILURE");
   ("vanadium-go-test/L=linux-slave/1"%string, build "1" 500 "SUCCESS");
   ("vanadium-go-test/L=linux-slave/0"%string, build "0" 100 "SUCCESS");
   ("vanadium-js-test/lastCompletedBuild"%string, build "0" 800 "SUCCESS");
   ("vanadium-js-test/0"%string, build "0" 800 "SUCCESS")].

Definition goFailed : list (string * list jenkins.TestCase) :=
  [("vanadium-go-test/L=linux-slave/lastCompletedBuild"%string, [T2]);
   ("vanadium-go-test/L=linux-slave/2"%string, [T2]);
   ("vanadium-go-test/L=linux-slave/1"%string, []);
   ("vanadium-js-test/lastCompletedBuild"%string, [])].

Definition ctx : Context := world (server goBuilds goFailed "SUCCESS").

Definition result (status : testutil.TestStatus) : testutil.TestResult :=
  {| testutil.Status := status; testutil.TimeoutValue := 0;
     testutil.MergeConflictCL := "" |}.

Definition shardA (ts : Z) : testResultInfo :=
  {| Result := result testutil.TestFailed; TestName := "vanadium-go-test";
     SlaveLabel := "linux-slave"; Timestamp := ts; PostSubmitResult := "" |}.

Definition shardB : testResultInfo :=
  {| Result := result testutil.TestFailed; TestName := "vanadium-js-test";
     SlaveLabel := ""; Timestamp := 1000; PostSubmitResult := "" |}.

Definition refs : list string := ["refs/changes/1/1/1"%string].


Definition jenkinsA : jenkins.Jenkins := server goBuilds goFailed "SUCCESS".

(** The same server when the lookup of the failed test cases fails. *)
Definition ctxNoReport : Context := world (server goBuilds [] "SUCCESS").

(** The same server when the presubmit build itself failed. *)
Definition ctxFailedBuild : Context := world (server goBuilds goFailed "FAILURE").

Definition conflictA : testResultInfo :=
  recordMergeConflict "vanadium-go-test" "linux-slave" "http://go/vcl/7/2".

Definition T2info : failedTestCaseInfo :=
  {| className := "v.io/x/lib.Suite"; testCaseName := "T2"; seenTestsCount := 1;
     testName := "vanadium-go-test"; slaveLabel := "linux-slave" |}.

Definition T3info : failedTestCaseInfo :=
  {| className := "js"; testCaseName := "T3"; seenTestsCount := 1;
     testName := "vanadium-js-test"; slaveLabel := "" |}.

(** The commands on the scenario: a status file is named by a tag, a
    record is written as the name of its test and the CL of its merge
    conflict, and one ref parses. *)
Definition cmds : CmdLib :=
  {| json_Unmarshal := answer [("{A}"%string, shardA 1000); ("{B}"%string, shardB)];
     json_Marshal := fun r =>
       inl ("{" +:+ TestName r +:+ " " +:+ testutil.MergeConflictCL (Result r)
            +:+ "}");
     parseRefString := answer [("refs/changes/1/1/1"%string, (1, 1))] |}.

(** The collected files of the two shards. *)
Definition statusA : string :=
  "ws/test_results/45/L=linux-slave,TEST=vanadium-go-test/status_vanadium_go_test.json".
Definition statusB : string :=
  "ws/test_results/45/L=,TEST=vanadium-js-test/status_vanadium_js_test.json".

Definition ctxStatus : Context :=
  {| ctx_Jenkins := ctx_Jenkins ctx;
     ctx_Gerrit := ctx_Gerrit ctx;
     ReadFile := fun file =>
       match answer [(statusA, "{A}"%string); (statusB, "{B}"%string)] file with
       | inl bytes => inl bytes
       | inr _ => ReadFile ctx file
       end;
     Getenv := Getenv ctx;
     BuildCop := BuildCop ctx |}.

(** Two walks of the collected files, which visit the shards in
    different orders. *)
Definition walk (dir : string) : list (string * option string) :=
  [(statusB, Some "status_vanadium_js_test.json"%string);
   (statusA, Some "status_vanadium_go_test.json"%string)].

Definition walkBack (dir : string) : list (string * option string) :=
  [(statusA, Some "status_vanadium_go_test.json"%string);
   (statusB, Some "status_vanadium_js_test.json"%string)].

(** The same flags when the Gerrit base URL is not accepted. *)
Definition flagsNoGerrit : Flags :=
  {| jenkinsBuildNumberFlag := 45;
     jenkinsHostFlag := "http://jenkins";
     presubmitTestJobFlag := "presubmit-test";
     reviewTargetRefsFlag := "refs/changes/1/1/1";
     projectsFlag := "release.go.core";
     gerritBaseUrlFlag := "review";
     jenkinsBaseJobUrl := "http://jenkins/job";
     defaultQueryString := "status:open";
     DefaultTestTimeout := 600;
     genStartPresubmitBuildLink :=
       fun refs projects tests => "http://retry/" +:+ tests;
     checkGerritBaseUrl := inr "invalid gerrit base url"%string;
     gerritHostCredential :=
       fun _ => inl {| username := "u"; password := "p" |} |}.

(** The same flags with a second ref, which does not parse. *)
Definition flagsTwo : Flags :=
  {| jenkinsBuildNumberFlag := 45;
     jenkinsHostFlag := "http://jenkins";
     presubmitTestJobFlag := "presubmit-test";
     reviewTargetRefsFlag := "refs/changes/1/1/1:refs/oops";
     projectsFlag := "release.go.core:release.go.tools";
     gerritBaseUrlFlag := "https://review";
     jenkinsBaseJobUrl := "http://jenkins/job";
     defaultQueryString := "status:open";
     DefaultTestTimeout := 600;
     genStartPresubmitBuildLink :=
       fun refs projects tests => "http://retry/" +:+ tests;
     checkGerritBaseUrl := inl "review"%string;
     gerritHostCredential :=
       fun _ => inl {| username := "u"; password := "p" |} |}.

(** A Jenkins server that has lost build 1 of the go test job. *)
Definition jenkinsGap : jenkins.Jenkins :=
  server
    [("vanadium-go-test/L=linux-slave/2"%string, build "2" 900 "FAILURE");
     ("vanadium-go-test/L=linux-slave/0"%string, build "0" 100 "SUCCESS")]
    [] "SUCCESS".

(** The test command on the go test: the failure report is created, or
    it is not; every file is written; the clean-up succeeds, and
    [collect.Error] keeps the error of the command and gives that of the
    clean-up otherwise. *)
Definition reportFile : string * string :=
  ("ws/tests_vanadium_go_test.xml"%string, "<testsuites/>"%string).

Definition tests : TestLib :=
  {| testFlag := "vanadium-go-test";
     xunit_CreateFailureReport := fun _ _ _ _ _ => (None, [reportFile]);
     WriteFile := fun _ _ => None;
     Sprintf_v := TestName;
     cleanupFn := None;
     collect_Error := fun cleanup e =>
       match e with Some err => Some err | None => cleanup end |}.

Definition testsNoReport : TestLib :=
  {| testFlag := "vanadium-go-test";
     xunit_CreateFailureReport := fun _ _ _ _ _ =>
       (Some "no space left"%string, []);
     WriteFile := fun _ _ => None;
     Sprintf_v := TestName;
     cleanupFn := None;
     collect_Error := fun cleanup e =>
       match e with Some err => Some err | None => cleanup end |}.

Definition cl7 : Test.cl :=
  {| Test.clNumber := 7; Test.patchset := 2; Test.ref := "refs/changes/7/7/2";
     Test.project := "release.go.core" |}.

(** The answers of [preparePresubmitTestBranch]: the pull of the CL
    fails at every attempt, the host cannot be reached at any attempt,
    and the clean-up before the pull fails. *)
Definition pullFails (i : nat) : option Test.cl * option error :=
  (Some cl7, Some "'git pull' failed"%string).

Definition noAccess (i : nat) : option Test.cl * option error :=
  (None, Some "fatal: unable to access 'https://vanadium.googlesource.com/'"%string).

Definition cleanupFails (i : nat) : option Test.cl * option error :=
  (None, Some "clean up after 'git pull' failed"%string).

(** The failed test cases of the earlier command. *)
Definition oldT2 : Old.testCase :=
  {| Old.ClassName := "v.io/x/lib.Suite"; Old.Name := "T2";
     Old.Status := "FAILED" |}.

End Scenario.


(** * Properties *)

Section Properties.

Context `{lib : GoLib} `{flags : Flags}.

(** ** The library functions on examples *)

Example Sprintf_d_examples :
  Go.Sprintf_d 0 = "0"%string /\ Go.Sprintf_d 45 = "45"%string /\
  Go.Sprintf_d (-1) = "-1"%string.
Proof. repeat split. Qed.

Example Atoi_examples :
  Go.Atoi "45" = inl 45 /\ Go.Atoi "-7" = inl (-7) /\ Go.Atoi "+007" = inl 7 /\
  (exists e, Go.Atoi "" = inr e) /\ (exists e, Go.Atoi "4x" = inr e) /\
  (exists e, Go.Atoi "9223372036854775808" = inr e).
Proof. repeat split; eexists; vm_compute; reflexivity. Qed.

Example Replace_examples :
  Go.Replace "a.b.c" "." "::" = "a::b::c"%string /\
  Go.Replace "linux-slave" "-slave" "" = "linux"%string /\
  Go.Replace "vanadium-go-test" "-" "_" = "vanadium_go_test"%string /\
  Go.Replace "aaa" "aa" "b" = "ba"%string.
Proof. repeat split. Qed.

Example LastIndex_examples :
  Go.LastIndex "v.io/x.Foo" "." = 6 /\ Go.LastIndex "Foo" "." = -1 /\
  Go.slice_to "v.io/x.Foo" 6 = "v.io/x"%string /\
  Go.slice_from "v.io/x.Foo" 7 = "Foo"%string /\
  Go.Contains "a.b" "." = true /\ Go.Contains "ab" "." = false.
Proof. repeat split. Qed.

(** ** The walk over the postsubmit builds *)

Lemma checkBuilds_eq jenkinsObj jobName slaveLabel timestamp buildInfo i :
  checkBuilds jenkinsObj jobName slaveLabel timestamp buildInfo i =
  if decide (i >= 0) then
    match jenkins.BuildInfoForSpec jenkinsObj (buildSpecOf jobName slaveLabel i) with
    | inr _ => (unknownStatus, [i])
    | inl curBuildInfo =>
        if decide (jenkins.Timestamp curBuildInfo > timestamp) then
          let r := checkBuilds jenkinsObj jobName slaveLabel timestamp
                     buildInfo (i - 1) in
          (r.1, i :: r.2)
        else (jenkins.Result buildInfo, [i])
    end
  else (unknownStatus, []).
Proof.
  rewrite checkBuilds_unfold_eq. unfold checkBuilds_unfold.
  destruct (decide (i >= 0)); simpl; [|reflexivity].
  destruct (jenkins.BuildInfoForSpec _ _) as [cur|e]; simpl; [|reflexivity].
  destruct (decide (jenkins.Timestamp cur > timestamp)); reflexivity.
Qed.

(** Induction on the number of builds left below [i]. *)
Lemma walk_ind (P : Z -> Prop) :
  (forall i, i < 0 -> P i) ->
  (forall i, 0 <= i -> P (i - 1) -> P i) ->
  forall i, P i.
Proof.
  intros Hneg Hstep i.
  destruct (decide (i < 0)) as [|Hi]; [auto|].
  assert (Hall : forall n : nat, P (Z.of_nat n - 1)).
  { induction n as [|n IH].
    - apply Hneg. lia.
    - apply Hstep; [lia|]. replace (Z.of_nat (S n) - 1 - 1) with (Z.of_nat n - 1) by lia.
      exact IH. }
  specialize (Hall (Z.to_nat (i + 1))).
  replace (Z.of_nat (Z.to_nat (i + 1)) - 1) with i in Hall by lia. exact Hall.
Qed.

Lemma checkBuilds_visited jenkinsObj jobName slaveLabel timestamp buildInfo i :
  let r := checkBuilds jenkinsObj jobName slaveLabel timestamp buildInfo i in
  r.2 = countdown i (length r.2) /\ (length r.2 <= Z.to_nat (i + 1))%nat.
Proof.
  induction i as [i Hi|i Hi IH] using walk_ind; rewrite checkBuilds_eq.
  - destruct (decide (i >= 0)); [lia|]. simpl. split; [reflexivity|lia].
  - destruct (decide (i >= 0)); [|lia].
    destruct (jenkins.BuildInfoForSpec _ _) as [cur|e]; simpl.
    + destruct (decide (jenkins.Timestamp cur > timestamp)); simpl.
      * destruct IH as [IH1 IH2]. split; [f_equal; exact IH1|lia].
      * split; [reflexivity|lia].
    + split; [reflexivity|lia].
Qed.

Lemma checkBuilds_exhausted jenkinsObj jobName slaveLabel timestamp buildInfo i :
  buildsExhausted jenkinsObj jobName slaveLabel timestamp i ->
  checkBuilds jenkinsObj jobName slaveLabel timestamp buildInfo i
  = (unknownStatus, countdown i (Z.to_nat (i + 1))).
Proof.
  induction i as [i Hi|i Hi IH] using walk_ind; intros Hex;
    rewrite checkBuilds_eq.
  - destruct (decide (i >= 0)); [lia|].
    replace (Z.to_nat (i + 1)) with 0%nat by lia. reflexivity.
  - destruct (decide (i >= 0)); [|lia].
    destruct (Hex i) as (b & -> & Hb); [lia|].
    destruct (decide (jenkins.Timestamp b > timestamp)); [|lia]. simpl.
    rewrite IH; [|intros k Hk; apply Hex; lia]. simpl.
    replace (Z.to_nat (i + 1)) with (S (Z.to_nat (i - 1 + 1))) by lia.
    reflexivity.
Qed.

Lemma checkBuilds_first jenkinsObj jobName slaveLabel timestamp buildInfo curId i :
  firstBuildAtOrBefore jenkinsObj jobName slaveLabel timestamp curId i ->
  checkBuilds jenkinsObj jobName slaveLabel timestamp buildInfo curId
  = (jenkins.Result buildInfo, countdown curId (Z.to_nat (curId - i + 1))).
Proof.
  induction curId as [c Hc|c Hc IH] using walk_ind;
    intros (Hrange & (b & Hb & Hts) & Habove); [lia|].
  rewrite checkBuilds_eq. destruct (decide (c >= 0)); [|lia].
  destruct (decide (i = c)) as [->|Hne].
  - rewrite Hb. destruct (decide (jenkins.Timestamp b > timestamp)); [lia|].
    replace (Z.to_nat (c - c + 1)) with 1%nat by lia. reflexivity.
  - destruct (Habove c) as (b' & -> & Hb'); [lia|].
    destruct (decide (jenkins.Timestamp b' > timestamp)); [|lia]. simpl.
    rewrite IH.
    + simpl. replace (Z.to_nat (c - i + 1)) with (S (Z.to_nat (c - 1 - i + 1))) by lia.
      reflexivity.
    + split; [lia|]. split; [eauto|]. intros k Hk. apply Habove. lia.
Qed.

Lemma countdown_length i n : length (countdown i n) = n.
Proof. revert i. induction n as [|n IH]; intros i; simpl; [|rewrite IH]; reflexivity. Qed.

Lemma countdown_last i n : last (countdown i (S n)) = Some (i - Z.of_nat n).
Proof.
  revert i. induction n as [|n IH]; intros i.
  - simpl. f_equal. lia.
  - change (countdown i (S (S n))) with (i :: countdown (i - 1) (S n)).
    rewrite last_cons, IH. f_equal. lia.
Qed.

Lemma checkBuilds_stops_at_once jenkinsObj jobName slaveLabel timestamp buildInfo i :
  0 <= i ->
  (forall b, jenkins.BuildInfoForSpec jenkinsObj (buildSpecOf jobName slaveLabel i)
             = inl b -> jenkins.Timestamp b <= timestamp) ->
  (checkBuilds jenkinsObj jobName slaveLabel timestamp buildInfo i).2 = [i].
Proof.
  intros Hi Hts. rewrite checkBuilds_eq. destruct (decide (i >= 0)); [|lia].
  destruct (jenkins.BuildInfoForSpec _ _) as [cur|e]; [|reflexivity].
  specialize (Hts cur eq_refl).
  destruct (decide (jenkins.Timestamp cur > timestamp)); [lia|reflexivity].
Qed.

(** C10.  The walk over the builds ends for every input: [checkBuilds] is
    total, it checks at most [curId + 1] builds, whose numbers go down by
    one from [curId]; when no build from [curId] down to 0 is at or before
    the cutoff it checks them all and returns [unknownStatus]; and with
    the time stamp of a merge conflict record ([math.MaxInt64]) it stops
    after the first build, the time stamps of the builds being [int64]s. *)
Theorem baseline_walk_terminates jenkinsObj jobName slaveLabel timestamp
    buildInfo curId :
  let r := checkBuilds jenkinsObj jobName slaveLabel timestamp buildInfo curId in
  (length r.2 <= Z.to_nat (curId + 1))%nat /\
  r.2 = countdown curId (length r.2) /\
  (curId < 0 -> r = (unknownStatus, [])) /\
  (buildsExhausted jenkinsObj jobName slaveLabel timestamp curId ->
   r = (unknownStatus, countdown curId (Z.to_nat (curId + 1)))) /\
  (forall testFlag L failedCL,
     0 <= curId ->
     (forall buildSpec b, jenkins.BuildInfoForSpec jenkinsObj buildSpec = inl b ->
                          Go.int_range (jenkins.Timestamp b)) ->
     (checkBuilds jenkinsObj jobName slaveLabel
        (Timestamp (recordMergeConflict testFlag L failedCL)) buildInfo curId).2
     = [curId]).
Proof.
  intros r. pose proof (checkBuilds_visited jenkinsObj jobName slaveLabel
                          timestamp buildInfo curId) as [Hv Hl].
  repeat split.
  - exact Hl.
  - exact Hv.
  - intros Hneg. subst r. rewrite checkBuilds_eq.
    destruct (decide (curId >= 0)); [lia|reflexivity].
  - intros Hex. apply checkBuilds_exhausted. exact Hex.
  - intros testFlag L failedCL Hi Hrange.
    apply checkBuilds_stops_at_once; [exact Hi|].
    intros b Hb. apply Hrange in Hb. unfold Go.int_range in Hb. simpl. lia.
Qed.

(** The status the walk returns where it stops is the result of the last
    completed build, [buildInfo.Result], not the one of the build it
    stopped at. *)
Lemma getPostSubmitBuildStatus_result ctx jobName slaveLabel cutoff jenkinsObj
    buildInfo curId i :
  ctx_Jenkins ctx jenkinsHostFlag = inl jenkinsObj ->
  lastCompletedBuildStatus ctx jobName slaveLabel = inl buildInfo ->
  Go.Atoi (jenkins.Id buildInfo) = inl curId ->
  firstBuildAtOrBefore jenkinsObj jobName slaveLabel cutoff curId i ->
  getPostSubmitBuildStatus_log ctx jobName slaveLabel cutoff
  = (jenkins.Result buildInfo, countdown curId (Z.to_nat (curId - i + 1))).
Proof.
  intros Hj Hlast Hid Hfirst. unfold getPostSubmitBuildStatus_log.
  rewrite Hlast, Hid, Hj. apply checkBuilds_first. exact Hfirst.
Qed.

(** C3 (amended).  The status lookup starts at the last completed build,
    goes down one build at a time over the builds whose time stamp is
    after the cutoff and stops at the first build whose time stamp is at
    or before it: the builds checked are [curId], [curId - 1], ..., [i].
    The failed test cases are those of the last completed build, whatever
    the cutoff. *)
Theorem baseline_resolution_walk ctx jobName slaveLabel cutoff jenkinsObj
    buildInfo curId i :
  ctx_Jenkins ctx jenkinsHostFlag = inl jenkinsObj ->
  lastCompletedBuildStatus ctx jobName slaveLabel = inl buildInfo ->
  Go.Atoi (jenkins.Id buildInfo) = inl curId ->
  firstBuildAtOrBefore jenkinsObj jobName slaveLabel cutoff curId i ->
  let checked := (getPostSubmitBuildStatus_log ctx jobName slaveLabel cutoff).2 in
  checked = countdown curId (Z.to_nat (curId - i + 1)) /\
  head checked = Some curId /\
  last checked = Some i /\
  getFailedTestCases ctx jobName slaveLabel =
    match jenkins.FailedTestCasesForBuildSpec jenkinsObj
            (if isMultiConfigurationJob jobName
             then jobName +:+ "/L=" +:+ slaveLabel +:+ "/lastCompletedBuild"
             else jobName +:+ "/lastCompletedBuild") with
    | inl cases => (cases, None)
    | inr err => ([], Some err)
    end.
Proof.
  intros Hj Hlast Hid Hfirst checked. subst checked.
  rewrite (getPostSubmitBuildStatus_result _ _ _ _ _ _ _ _ Hj Hlast Hid Hfirst).
  destruct Hfirst as (Hrange & _ & _). simpl.
  replace (Z.to_nat (curId - i + 1)) with (S (Z.to_nat (curId - i))) by lia.
  repeat split.
  - rewrite countdown_last. f_equal. lia.
  - unfold getFailedTestCases. rewrite Hj. reflexivity.
Qed.

(** ** The classification *)

Lemma group_empty t : group ∅ t = [].
Proof. unfold group. rewrite lookup_empty. reflexivity. Qed.

Lemma group_append_same groups t infos :
  group (group_append groups t infos) t = group groups t ++ infos.
Proof. unfold group_append, group at 1. rewrite lookup_insert_eq. reflexivity. Qed.

Lemma group_append_other groups t t' infos :
  t <> t' -> group (group_append groups t infos) t' = group groups t'.
Proof.
  intros Hne. unfold group_append, group at 1.
  rewrite lookup_insert_ne by exact Hne. reflexivity.
Qed.

Lemma isNewFailure_spec Classname Name postsubmit :
  isNewFailure Classname Name postsubmit = true
  <-> ~ inBaseline postsubmit (Classname, Name).
Proof.
  unfold inBaseline. induction postsubmit as [|p rest IH]; simpl.
  - split; [|reflexivity]. intros _ H. inversion H.
  - rewrite Exists_cons. unfold sameTest at 1. simpl.
    repeat case_bool_decide; simpl; rewrite ?IH; try (intuition congruence).
    split; [discriminate|]. intros Hn. exfalso. apply Hn. left. split; congruence.
Qed.

Lemma isFixed_spec p curFailedTestCases :
  isFixed p curFailedTestCases = true
  <-> ~ stillFailing
        ((fun c => (jenkins.ClassName c, jenkins.Name c)) <$> curFailedTestCases) p.
Proof.
  unfold stillFailing. induction curFailedTestCases as [|c rest IH]; simpl.
  - split; [|reflexivity]. intros _ H. inversion H.
  - rewrite elem_of_cons. unfold jenkins.Equal.
    repeat case_bool_decide; simpl; rewrite ?IH; intuition congruence.
Qed.

Lemma oneTestSuite_cases testName slaveLabel postsubmit suites st :
  fold_left (oneTestSuite testName slaveLabel postsubmit) suites st
  = fold_left (casesStep testName slaveLabel postsubmit)
      (suites ≫= (fun curTestSuite => pair curTestSuite <$> Testcases curTestSuite)) st.
Proof.
  revert st. induction suites as [|suite rest IH]; intros st; [reflexivity|].
  simpl. rewrite fold_left_app, <- IH. f_equal.
  unfold oneTestSuite. generalize (Testcases suite) st.
  induction l as [|c l IHl]; intros st0; [reflexivity|]. simpl. apply IHl.
Qed.

(** One test case of the report: what it adds to the loop variables. *)
Lemma casesStep_step testName slaveLabel postsubmit st c :
  let st' := casesStep testName slaveLabel postsubmit st c in
  st_curFailedTestCases st'
  = st_curFailedTestCases st ++ (caseOf <$> filter failed [c]) /\
  identity <$> group (st_groups st') newFailure
  = (identity <$> group (st_groups st) newFailure)
    ++ filter (fun x => ~ inBaseline postsubmit x) (rawName <$> filter failed [c]) /\
  identity <$> group (st_groups st') knownFailure
  = (identity <$> group (st_groups st) knownFailure)
    ++ filter (inBaseline postsubmit) (rawName <$> filter failed [c]) /\
  group (st_groups st') fixedFailure = group (st_groups st) fixedFailure.
Proof.
  destruct c as [suite tc].
  assert (Hflt : filter failed [(suite, tc)]
                 = if decide (FailureData tc <> "") then [(suite, tc)] else []).
  { rewrite filter_cons, filter_nil. unfold failed. simpl.
    destruct (decide (FailureData tc <> "")); reflexivity. }
  rewrite Hflt. clear Hflt. unfold casesStep, oneTestCase. cbn [fst snd].
  destruct (decide (FailureData tc <> "")) as [Hf|Hf];
    cbn [st_groups st_curFailedTestCases fmap list_fmap].
  - rewrite !filter_cons, !filter_nil. unfold rawName. cbn [fst snd].
    destruct (isNewFailure _ _ postsubmit) eqn:Hnew.
    + apply isNewFailure_spec in Hnew.
      rewrite group_append_same, !group_append_other by discriminate.
      rewrite fmap_app.
      destruct (decide (~ inBaseline postsubmit (caseClassname suite tc, caseName tc)));
        [|contradiction].
      destruct (decide (inBaseline postsubmit (caseClassname suite tc, caseName tc)));
        [contradiction|].
      rewrite app_nil_r. auto.
    + assert (Hin : inBaseline postsubmit (caseClassname suite tc, caseName tc)).
      { destruct (decide (inBaseline postsubmit (caseClassname suite tc, caseName tc)))
          as [|Hn]; [assumption|].
        apply isNewFailure_spec in Hn. congruence. }
      rewrite group_append_same, !group_append_other by discriminate.
      rewrite fmap_app.
      destruct (decide (~ inBaseline postsubmit (caseClassname suite tc, caseName tc)));
        [contradiction|].
      destruct (decide (inBaseline postsubmit (caseClassname suite tc, caseName tc)));
        [|contradiction].
      rewrite app_nil_r. auto.
  - rewrite !filter_nil, !app_nil_r. auto.
Qed.

(** The loop over all the test cases of the report. *)
Lemma casesStep_fold testName slaveLabel postsubmit l st :
  let st' := fold_left (casesStep testName slaveLabel postsubmit) l st in
  st_curFailedTestCases st'
  = st_curFailedTestCases st ++ (caseOf <$> filter failed l) /\
  identity <$> group (st_groups st') newFailure
  = (identity <$> group (st_groups st) newFailure)
    ++ filter (fun x => ~ inBaseline postsubmit x) (rawName <$> filter failed l) /\
  identity <$> group (st_groups st') knownFailure
  = (identity <$> group (st_groups st) knownFailure)
    ++ filter (inBaseline postsubmit) (rawName <$> filter failed l) /\
  group (st_groups st') fixedFailure = group (st_groups st) fixedFailure.
Proof.
  revert st. induction l as [|c l IH]; intros st; simpl.
  - rewrite !filter_nil. simpl. rewrite !app_nil_r. auto.
  - destruct (IH (casesStep testName slaveLabel postsubmit st c))
      as (H1 & H2 & H3 & H4).
    destruct (casesStep_step testName slaveLabel postsubmit st c)
      as (S1 & S2 & S3 & S4). simpl in S1, S2, S3, S4.
    rewrite H1, H2, H3, H4, S1, S2, S3, S4.
    change (c :: l) with ([c] ++ l).
    rewrite !filter_app, !fmap_app, !filter_app, <- !app_assoc. auto.
Qed.

(** The loop that populates the fixed failure group. *)
Lemma populateFixed_fold cur postsubmit groups :
  let groups' := fold_left (populateFixed cur) postsubmit groups in
  group groups' fixedFailure
  = group groups fixedFailure
    ++ (fixedInfo <$>
        filter (fun p => ~ stillFailing
                  ((fun c => (jenkins.ClassName c, jenkins.Name c)) <$> cur) p)
          postsubmit) /\
  group groups' newFailure = group groups newFailure /\
  group groups' knownFailure = group groups knownFailure.
Proof.
  revert groups. induction postsubmit as [|p rest IH]; intros groups.
  - cbn [fold_left]. rewrite filter_nil, fmap_nil, app_nil_r. auto.
  - destruct (IH (populateFixed cur groups p)) as (H1 & H2 & H3).
    cbn [fold_left]. rewrite H1, H2, H3. unfold populateFixed. rewrite filter_cons.
    destruct (isFixed p cur) eqn:Hfix.
    + apply isFixed_spec in Hfix.
      destruct (decide _) as [|Hn]; [|contradiction].
      rewrite group_append_same, !group_append_other by discriminate.
      simpl. rewrite <- app_assoc. auto.
    + destruct (decide _) as [Hy|]; [|auto].
      apply isFixed_spec in Hy. congruence.
Qed.

(** What [genFailedTestCasesGroupsForOneTest] returns for a report that
    parses. *)
Lemma genFailedTestCasesGroupsForOneTest_groups testResult report seenTests
    postsubmit suites :
  xml_Unmarshal report = inl suites ->
  exists groups seenTests',
    genFailedTestCasesGroupsForOneTest testResult report seenTests postsubmit
    = (inl groups, seenTests') /\
    identity <$> group groups newFailure
    = filter (fun x => ~ inBaseline postsubmit x) (currentFailures suites) /\
    identity <$> group groups knownFailure
    = filter (inBaseline postsubmit) (currentFailures suites) /\
    group groups fixedFailure
    = fixedInfo <$> filter (fun p => ~ stillFailing (currentFailures suites) p)
                      postsubmit.
Proof.
  intros Hxml. unfold genFailedTestCasesGroupsForOneTest. rewrite Hxml.
  eexists _, _. split; [reflexivity|].
  rewrite oneTestSuite_cases.
  match goal with
  | |- context [fold_left (casesStep ?t ?s ?p) ?l ?st] =>
      destruct (casesStep_fold t s p l st) as (H1 & H2 & H3 & H4);
      set (st' := fold_left (casesStep t s p) l st) in *
  end.
  simpl in H1, H2, H3, H4. rewrite group_empty in H2, H3, H4. simpl in H2, H3.
  destruct (populateFixed_fold (st_curFailedTestCases st') postsubmit (st_groups st'))
    as (F1 & F2 & F3).
  rewrite F1, F2, F3, H2, H3, H4, H1. simpl.
  unfold currentFailures, allCases.
  repeat split. f_equal. rewrite <- list_fmap_compose. reflexivity.
Qed.

Lemma fixedInfo_inj p p' : fixedInfo p = fixedInfo p' -> p = p'.
Proof.
  destruct p, p'. unfold fixedInfo. simpl. intros H. injection H as -> ->.
  reflexivity.
Qed.

Lemma filter_all {A} (P : A -> Prop) `{forall x, Decision (P x)} (l : list A) :
  (forall x, x ∈ l -> P x) -> filter P l = l.
Proof.
  induction l as [|x l IH]; intros Hall; [reflexivity|].
  rewrite filter_cons_True by (apply Hall; left).
  f_equal. apply IH. intros y Hy. apply Hall. right. exact Hy.
Qed.

Lemma filter_none {A} (P : A -> Prop) `{forall x, Decision (P x)} (l : list A) :
  (forall x, x ∈ l -> ~ P x) -> filter P l = [].
Proof.
  induction l as [|x l IH]; intros Hall; [reflexivity|].
  rewrite filter_cons_False by (apply Hall; left).
  apply IH. intros y Hy. apply Hall. right. exact Hy.
Qed.

(** C1.  Every failing case of the current run of a test (a case of any
    suite of its report with a non-empty failure payload) goes to exactly
    one of the groups NEW and KNOWN: to KNOWN when some case of the
    baseline has the same class name and test name, to NEW otherwise; the
    two groups are the two parts of the failing cases, in their order, and
    their sizes add up to the number of failing cases. *)
Theorem classification_new_or_known testResult report seenTests postsubmit suites :
  xml_Unmarshal report = inl suites ->
  exists groups seenTests',
    genFailedTestCasesGroupsForOneTest testResult report seenTests postsubmit
    = (inl groups, seenTests') /\
    let NEW := identity <$> group groups newFailure in
    let KNOWN := identity <$> group groups knownFailure in
    let C := currentFailures suites in
    NEW = filter (fun x => ~ inBaseline postsubmit x) C /\
    KNOWN = filter (inBaseline postsubmit) C /\
    KNOWN ++ NEW ≡ₚ C /\
    (length (group groups newFailure) + length (group groups knownFailure)
     = length C)%nat /\
    forall x, x ∈ C ->
      (x ∈ KNOWN /\ (x ∉ NEW) /\
       exists p, p ∈ postsubmit /\ jenkins.ClassName p = x.1 /\ jenkins.Name p = x.2)
      \/
      (x ∈ NEW /\ (x ∉ KNOWN) /\
       ~ exists p, p ∈ postsubmit /\ jenkins.ClassName p = x.1 /\ jenkins.Name p = x.2).
Proof.
  intros Hxml.
  destruct (genFailedTestCasesGroupsForOneTest_groups testResult report seenTests
              postsubmit suites Hxml) as (groups & seen' & Hgen & Hnew & Hknown & _).
  exists groups, seen'. split; [exact Hgen|]. cbv zeta.
  rewrite Hnew, Hknown. split; [reflexivity|]. split; [reflexivity|].
  assert (Hperm : filter (inBaseline postsubmit) (currentFailures suites)
                  ++ filter (fun x => ~ inBaseline postsubmit x) (currentFailures suites)
                  ≡ₚ currentFailures suites) by apply filter_app_complement.
  split; [exact Hperm|]. split.
  - apply Permutation_length in Hperm. rewrite length_app in Hperm.
    rewrite <- Hperm, <- Hnew, <- Hknown, !length_fmap. lia.
  - intros x Hx. unfold inBaseline.
    destruct (decide (inBaseline postsubmit x)) as [Hin|Hin].
    + left. split; [apply list_elem_of_filter; auto|].
      split; [rewrite list_elem_of_filter; tauto|].
      apply Exists_exists in Hin. destruct Hin as (p & Hp & Hc & Hn). eauto.
    + right. split; [apply list_elem_of_filter; auto|].
      split; [rewrite list_elem_of_filter; tauto|].
      intros (p & Hp & Hc & Hn). apply Hin. apply Exists_exists.
      exists p. split; [exact Hp|]. split; assumption.
Qed.

(** C2.  A case of the baseline's failing set is put in the FIXED group if
    and only if no failing case of the current run of the test, over all
    the suites of its report, has the same class name and test name. *)
Theorem classification_fixed testResult report seenTests postsubmit suites :
  xml_Unmarshal report = inl suites ->
  exists groups seenTests',
    genFailedTestCasesGroupsForOneTest testResult report seenTests postsubmit
    = (inl groups, seenTests') /\
    group groups fixedFailure
    = fixedInfo <$> filter (fun p => ~ stillFailing (currentFailures suites) p)
                      postsubmit /\
    forall p, p ∈ postsubmit ->
      (fixedInfo p ∈ group groups fixedFailure
       <-> ~ exists c, c ∈ allCases suites /\ FailureData c.2 <> "" /\
                       caseClassname c.1 c.2 = jenkins.ClassName p /\
                       caseName c.2 = jenkins.Name p).
Proof.
  intros Hxml.
  destruct (genFailedTestCasesGroupsForOneTest_groups testResult report seenTests
              postsubmit suites Hxml) as (groups & seen' & Hgen & _ & _ & Hfixed).
  exists groups, seen'. split; [exact Hgen|]. split; [exact Hfixed|].
  intros p Hp. rewrite Hfixed.
  assert (Hstill : stillFailing (currentFailures suites) p
                   <-> exists c, c ∈ allCases suites /\ FailureData c.2 <> "" /\
                                 caseClassname c.1 c.2 = jenkins.ClassName p /\
                                 caseName c.2 = jenkins.Name p).
  { unfold stillFailing, currentFailures. rewrite list_elem_of_fmap. split.
    - intros (c & Heq & Hc). apply list_elem_of_filter in Hc as [Hf Hc].
      unfold rawName in Heq. injection Heq as Hcn Hn. exists c. auto.
    - intros (c & Hc & Hf & Hcn & Hn). exists c. split.
      + unfold rawName. congruence.
      + apply list_elem_of_filter. split; assumption. }
  rewrite <- Hstill. rewrite list_elem_of_fmap. split.
  - intros (p' & Heq & Hp'). apply fixedInfo_inj in Heq. subst p'.
    apply list_elem_of_filter in Hp'. tauto.
  - intros Hn. exists p. split; [reflexivity|].
    apply list_elem_of_filter. split; assumption.
Qed.

Lemma getFailedTestCases_error ctx jobName slaveLabel err :
  (getFailedTestCases ctx jobName slaveLabel).2 = Some err ->
  (getFailedTestCases ctx jobName slaveLabel).1 = [].
Proof.
  unfold getFailedTestCases.
  destruct (ctx_Jenkins ctx jenkinsHostFlag) as [j|e]; [|reflexivity].
  destruct (jenkins.FailedTestCasesForBuildSpec _ _); [discriminate|reflexivity].
Qed.

Lemma mergeGroups_group groups cur t :
  group (mergeGroups groups cur) t = group groups t ++ group cur t.
Proof.
  unfold mergeGroups, group. rewrite lookup_union_with.
  destruct (groups !! t), (cur !! t); simpl; rewrite ?app_nil_r; reflexivity.
Qed.

(** C4 (amended).  When the lookup of the failed test cases of the
    postsubmit build fails, report generation goes on
    ([genFailedTestCasesGroupsForAllTests] returns no error for any run)
    and the test is classified against an empty baseline: every failing
    case of its report is NEW and the test adds nothing to KNOWN and
    FIXED, in its own groups and in those of the run. *)
Theorem lookup_error_all_new ctx testResult report seenTests suites err :
  (getFailedTestCases ctx (TestName testResult) (SlaveLabel testResult)).2
  = Some err ->
  xml_Unmarshal report = inl suites ->
  let postsubmit :=
    (getFailedTestCases ctx (TestName testResult) (SlaveLabel testResult)).1 in
  postsubmit = [] /\
  (exists groups seenTests',
     genFailedTestCasesGroupsForOneTest testResult report seenTests postsubmit
     = (inl groups, seenTests') /\
     identity <$> group groups newFailure = currentFailures suites /\
     group groups knownFailure = [] /\
     group groups fixedFailure = []) /\
  (forall groups,
     ReadFile ctx (xUnitReportFile ctx (TestName testResult) (SlaveLabel testResult))
     = inl report ->
     let groups' := (allTestsStep ctx (groups, seenTests) testResult).1 in
     identity <$> group groups' newFailure
     = (identity <$> group groups newFailure) ++ currentFailures suites /\
     group groups' knownFailure = group groups knownFailure /\
     group groups' fixedFailure = group groups fixedFailure) /\
  forall testResults,
    (genFailedTestCasesGroupsForAllTests ctx testResults).2 = None.
Proof.
  intros Herr Hxml postsubmit. subst postsubmit.
  pose proof (getFailedTestCases_error _ _ _ _ Herr) as Hempty.
  destruct (genFailedTestCasesGroupsForOneTest_groups testResult report seenTests
              [] suites Hxml) as (cur & seen' & Hgen & Hnew & Hknown & Hfixed).
  assert (Hno : forall x, ~ inBaseline [] x).
  { intros x Hx. unfold inBaseline in Hx. inversion Hx. }
  rewrite filter_all in Hnew by (intros x _; apply Hno).
  rewrite filter_none in Hknown by (intros x _; apply Hno).
  apply fmap_nil_inv in Hknown. simpl in Hfixed.
  split; [exact Hempty|]. split; [|split; [|reflexivity]].
  - rewrite Hempty. exists cur, seen'. auto.
  - intros groups Hread. unfold allTestsStep. rewrite Hread, Hempty. simpl.
    rewrite Hgen. simpl. rewrite !mergeGroups_group, Hknown, Hfixed, !app_nil_r.
    rewrite fmap_app, Hnew. auto.
Qed.

Lemma allTestsStep_sizes ctx acc testResult :
  let acc' := allTestsStep ctx acc testResult in
  (length (group acc'.1 newFailure) + length (group acc'.1 knownFailure)
   = length (group acc.1 newFailure) + length (group acc.1 knownFailure)
     + length (shardFailures ctx testResult))%nat.
Proof.
  unfold allTestsStep, shardFailures.
  destruct (ReadFile ctx _) as [report|]; [|simpl; lia].
  destruct (xml_Unmarshal report) as [suites|e] eqn:Hxml.
  - destruct (genFailedTestCasesGroupsForOneTest_groups testResult report acc.2
                (getFailedTestCases ctx (TestName testResult)
                   (SlaveLabel testResult)).1 suites Hxml)
      as (cur & seen' & -> & Hnew & Hknown & _).
    simpl. rewrite !mergeGroups_group, !length_app.
    apply (f_equal length) in Hnew, Hknown. rewrite length_fmap in Hnew, Hknown.
    pose proof (filter_app_complement
                  (inBaseline (getFailedTestCases ctx (TestName testResult)
                                 (SlaveLabel testResult)).1)
                  (currentFailures suites)) as Hperm.
    apply Permutation_length in Hperm. rewrite length_app in Hperm. lia.
  - unfold genFailedTestCasesGroupsForOneTest. rewrite Hxml. simpl. lia.
Qed.

(** Over a whole run the NEW and KNOWN groups hold as many entries as
    there are failing cases in the reports that can be read and parse. *)
Lemma run_new_plus_known ctx testResults :
  let groups := (genFailedTestCasesGroupsForAllTests ctx testResults).1 in
  (length (group groups newFailure) + length (group groups knownFailure)
   = length (testResults ≫= shardFailures ctx))%nat.
Proof.
  unfold genFailedTestCasesGroupsForAllTests. cbv zeta. cbn [fst].
  assert (Hgen : forall acc,
            (length (group (fold_left (allTestsStep ctx) testResults acc).1 newFailure)
             + length (group (fold_left (allTestsStep ctx) testResults acc).1
                         knownFailure)
             = length (group acc.1 newFailure) + length (group acc.1 knownFailure)
               + length (testResults ≫= shardFailures ctx))%nat).
  { induction testResults as [|r rest IH]; intros acc; [simpl; lia|].
    cbn [fold_left]. rewrite IH.
    pose proof (allTestsStep_sizes ctx acc r) as Hstep. cbv zeta in Hstep.
    rewrite bind_cons, length_app. lia. }
  rewrite Hgen. simpl. rewrite !group_empty. reflexivity.
Qed.

(** ** The display identity *)

Lemma prefix_empty s : String.prefix "" s = true.
Proof. destruct s; reflexivity. Qed.

Lemma Replace_dots s : Go.Replace s "." "::" = escapeDots s.
Proof.
  unfold Go.Replace. induction s as [|c s IH]; [reflexivity|].
  cbn [Go.Replace_from escapeDots String.prefix].
  destruct (decide (c = "."%char)) as [->|Hne].
  - simpl. rewrite prefix_empty. simpl. rewrite IH. reflexivity.
  - destruct (Ascii.ascii_dec "." c) as [Heq|_]; [congruence|].
    rewrite IH. reflexivity.
Qed.

Lemma escapeDots_no_dot s : ~ In "."%char (list_ascii_of_string (escapeDots s)).
Proof.
  induction s as [|c s IH]; simpl; [tauto|].
  destruct (decide (c = "."%char)) as [->|Hne]; simpl.
  - intros [H|[H|H]]; [discriminate|discriminate|tauto].
  - intros [H|H]; [congruence|tauto].
Qed.

(** C7.  The display identity of a test case is "className.testCaseName"
    with every "." replaced by "::", so no "." is left in it; the
    classification does not use it: a failing case matches a case of the
    baseline exactly when their class names and their test names, as
    parsed, are equal strings, also where two different pairs of names
    have one display identity. *)
Theorem display_identity_no_dot className testCaseName :
  genTestFullName className testCaseName
  = escapeDots (className +:+ "." +:+ testCaseName) /\
  ~ In "."%char (list_ascii_of_string (genTestFullName className testCaseName)) /\
  (forall postsubmit,
     isNewFailure className testCaseName postsubmit = false
     <-> exists p, p ∈ postsubmit /\ jenkins.ClassName p = className
                   /\ jenkins.Name p = testCaseName) /\
  (forall curFailedTestCases,
     isFixed {| jenkins.ClassName := className; jenkins.Name := testCaseName |}
       curFailedTestCases = false
     <-> exists c, c ∈ curFailedTestCases /\ jenkins.ClassName c = className
                   /\ jenkins.Name c = testCaseName) /\
  genTestFullName "a.b" "c" = genTestFullName "a" "b.c" /\
  isNewFailure "a.b" "c" [{| jenkins.ClassName := "a"; jenkins.Name := "b.c" |}]
  = true.
Proof.
  unfold genTestFullName. rewrite Replace_dots.
  split; [reflexivity|]. split; [apply escapeDots_no_dot|].
  split; [|split; [|split; reflexivity]].
  - intros postsubmit.
    pose proof (isNewFailure_spec className testCaseName postsubmit) as Hspec.
    unfold inBaseline in Hspec. rewrite Exists_exists in Hspec.
    unfold sameTest in Hspec. simpl in Hspec.
    destruct (isNewFailure className testCaseName postsubmit).
    + split; [discriminate|]. intros Hex. exfalso. apply Hspec; auto.
    + split; [|reflexivity]. intros _.
      destruct (decide (Exists (sameTest (className, testCaseName)) postsubmit))
        as [Hin|Hin].
      * apply Exists_exists in Hin. exact Hin.
      * exfalso. rewrite Exists_exists in Hin. unfold sameTest in Hin.
        simpl in Hin. apply Hspec in Hin. discriminate.
  - intros cur.
    pose proof (isFixed_spec
                  {| jenkins.ClassName := className; jenkins.Name := testCaseName |}
                  cur) as Hspec.
    unfold stillFailing in Hspec. rewrite list_elem_of_fmap in Hspec.
    simpl in Hspec.
    destruct (isFixed _ cur).
    + split; [discriminate|]. intros (c & Hc & Hcn & Hn). exfalso.
      apply Hspec; [reflexivity|]. exists c. split; [congruence|exact Hc].
    + split; [|reflexivity]. intros _.
      destruct (decide (Exists (fun c => jenkins.ClassName c = className
                                  /\ jenkins.Name c = testCaseName) cur))
        as [Hin|Hin].
      * apply Exists_exists in Hin. destruct Hin as (c & Hc & Hcn & Hn). eauto.
      * exfalso. assert (Htrue : false = true); [|discriminate].
        apply Hspec. intros (c & Heq & Hc). apply Hin. apply Exists_exists.
        exists c. split; [exact Hc|]. injection Heq as -> ->. auto.
Qed.

(** ** Links and the occurrence counter *)

Lemma incr_succ n : Go.MinInt64 <= n < Go.MaxInt64 -> Go.incr n = n + 1.
Proof.
  unfold Go.incr, Go.wrap_int, Go.MinInt64, Go.MaxInt64. intros Hn.
  rewrite Z.mod_small by lia. lia.
Qed.

Lemma seen_incr_same seenTests testKey :
  seen_count (seen_incr seenTests testKey) testKey
  = Go.incr (seen_count seenTests testKey).
Proof. unfold seen_incr, seen_count at 1. rewrite lookup_insert_eq. reflexivity. Qed.

Lemma seen_incr_other seenTests testKey k :
  k <> testKey -> seen_count (seen_incr seenTests testKey) k = seen_count seenTests k.
Proof.
  intros Hne. unfold seen_incr, seen_count at 1.
  rewrite lookup_insert_ne by congruence. reflexivity.
Qed.

Lemma oneTestCase_seenTests testName slaveLabel postsubmit suite st tc :
  st_seenTests (oneTestCase testName slaveLabel postsubmit suite st tc)
  = seen_incr (st_seenTests st) (testKeyOf slaveLabel suite tc).
Proof. unfold oneTestCase. destruct (decide _); reflexivity. Qed.


(** ** What [postTestReport] posts *)

Lemma postReviews_events gerritObj message value verified refs e :
  e ∈ (postReviews gerritObj message value verified refs).2 ->
  exists ref labels,
    e = PostReview ref message labels /\
    forall v, labels !! "Verified"%string = Some v -> v = value.
Proof.
  induction refs as [|ref rest IH]; simpl; [intros H; inversion H|].
  assert (Hlabels : forall v,
            (if bool_decide (ref ∈ verified)
             then ({["Verified"%string := value]} : gmap string string) else ∅)
              !! "Verified"%string = Some v -> v = value).
  { intros v. case_bool_decide.
    - rewrite lookup_singleton_eq. congruence.
    - rewrite lookup_empty. discriminate. }
  destruct (gerrit.PostReview gerritObj ref message _); simpl.
  - intros He. apply list_elem_of_singleton in He. subst e. eauto.
  - intros He. apply elem_of_cons in He as [->|He]; [eauto|auto].
Qed.

(** What a call of [postMessage] does: the call itself, then reviews that
    carry its message and no other "Verified" vote than "1" on success
    and "-1" otherwise. *)
Lemma postMessage_events ctx message refs success e :
  e ∈ (postMessage ctx message refs success).2 ->
  e = PostMessage message refs success \/
  exists ref labels,
    e = PostReview ref message labels /\
    forall v, labels !! "Verified"%string = Some v ->
              v = if success then "1"%string else "-1"%string.
Proof.
  unfold postMessage.
  destruct checkGerritBaseUrl as [gerritHost|]; simpl;
    [|intros He; apply list_elem_of_singleton in He; auto].
  destruct (gerritHostCredential gerritHost) as [gerritCred|]; simpl;
    [|intros He; apply list_elem_of_singleton in He; auto].
  destruct (getRefsUsingVerifiedLabel ctx gerritCred) as [verified|]; simpl;
    [|intros He; apply list_elem_of_singleton in He; auto].
  intros He. apply elem_of_cons in He as [->|He]; [auto|].
  right. eapply postReviews_events. exact He.
Qed.

Lemma postMessage_first ctx message refs success :
  exists rest, (postMessage ctx message refs success).2
               = PostMessage message refs success :: rest.
Proof.
  unfold postMessage.
  destruct checkGerritBaseUrl as [gerritHost|]; simpl; [|eauto].
  destruct (gerritHostCredential gerritHost) as [gerritCred|]; simpl; [|eauto].
  destruct (getRefsUsingVerifiedLabel ctx gerritCred) as [verified|]; simpl; eauto.
Qed.

Lemma summaryStep_names ctx names report resultInfo :
  (summaryStep ctx (names, report) resultInfo).1
  = names ++ (TestName <$> filter testFailed [resultInfo]).
Proof.
  rewrite filter_cons, filter_nil.
  destruct (decide (testFailed resultInfo)) as [[Hs Hp]|Hn]; unfold summaryStep.
  - destruct (decide (testutil.Status (Result resultInfo) = testutil.TestSkipped));
      [contradiction|].
    destruct (decide (testutil.Status (Result resultInfo) = testutil.TestPassed));
      [contradiction|].
    destruct (decide (testutil.Status (Result resultInfo) = testutil.TestTimedOut));
      reflexivity.
  - destruct (decide (testutil.Status (Result resultInfo) = testutil.TestSkipped));
      [simpl; rewrite app_nil_r; reflexivity|].
    destruct (decide (testutil.Status (Result resultInfo) = testutil.TestPassed));
      [|exfalso; apply Hn; split; assumption].
    destruct (decide (testutil.Status (Result resultInfo) = testutil.TestTimedOut));
      simpl; rewrite app_nil_r; reflexivity.
Qed.

Lemma summary_names ctx testResults names report :
  (fold_left (summaryStep ctx) testResults (names, report)).1
  = names ++ (TestName <$> filter testFailed testResults).
Proof.
  revert names report. induction testResults as [|r rest IH]; intros names report.
  - cbn [fold_left fst]. rewrite filter_nil, fmap_nil, app_nil_r. reflexivity.
  - cbn [fold_left].
    pose proof (summaryStep_names ctx names report r) as Hstep.
    destruct (summaryStep ctx (names, report) r) as [names' report'].
    simpl in Hstep. rewrite IH, Hstep.
    change (r :: rest) with ([r] ++ rest).
    rewrite filter_app, fmap_app, app_assoc. reflexivity.
Qed.

(** A run with test results, whose presubmit build did not fail and that
    has no merge conflict, ends with one call of [postMessage], whose
    success flag says that the NEW group of the report is empty. *)
Lemma postTestReport_posts ctx testResults refs :
  testResults <> [] ->
  (reportFailedPresubmitBuild ctx "").1 = false ->
  (reportMergeConflicts ctx testResults refs).1 = false ->
  exists report,
    postTestReport ctx testResults refs
    = postMessage ctx report refs (bool_decide (reportedNew ctx testResults = [])).
Proof.
  intros Hne Hmaster Hconflict. unfold postTestReport.
  destruct (decide (length testResults = 0%nat)) as [Hlen|_];
    [apply length_zero_iff_nil in Hlen; contradiction|].
  destruct (reportFailedPresubmitBuild ctx "") as [failed report0].
  simpl in Hmaster. subst failed.
  destruct (reportMergeConflicts ctx testResults refs) as [conflict posted].
  simpl in Hconflict. subst conflict.
  unfold reportBody, reportTestResultsSummary, reportedNew.
  pose proof (summary_names ctx testResults []
                (reportBuildCop ctx report0 +:+ "Test results:" +:+ Go.LF)) as Hnames.
  destruct (fold_left (summaryStep ctx) testResults _) as [failedTestNames report1].
  simpl in Hnames. subst failedTestNames.
  destruct (decide (length (TestName <$> filter testFailed testResults) <> 0%nat))
    as [Hfailed|Hnone].
  - rewrite decide_False
      by (intros Hnil; apply Hfailed; rewrite Hnil; reflexivity).
    unfold reportFailedTestCases, genFailedTestCasesGroupsForAllTests. simpl.
    eexists. f_equal. apply bool_decide_ext.
    destruct (group _ newFailure); simpl; split; intros H; try reflexivity;
      try discriminate; lia.
  - rewrite decide_True.
    + eexists. reflexivity.
    + destruct (filter testFailed testResults); [reflexivity|].
      exfalso. apply Hnone. simpl. lia.
Qed.

(** C6.  With no test results at all nothing is posted: [postTestReport]
    returns at once, without an error, [postMessage] is not called and no
    review reaches Gerrit. *)
Theorem no_results_no_post ctx refs :
  postTestReport ctx [] refs = (None, []) /\
  (forall message refs' success,
     PostMessage message refs' success ∉ (postTestReport ctx [] refs).2) /\
  (forall ref message labels,
     PostReview ref message labels ∉ (postTestReport ctx [] refs).2).
Proof.
  assert (H : postTestReport ctx [] refs = (None, [])) by reflexivity.
  rewrite H. split; [reflexivity|]. split; intros; apply not_elem_of_nil.
Qed.

(** [reportMergeConflicts] posts the notice of the first test result with
    a merge conflict. *)
Lemma reportMergeConflicts_found ctx testResults refs :
  (exists r, r ∈ testResults /\ mergeConflict r) ->
  exists before r after,
    testResults = before ++ r :: after /\
    (forall r', r' ∈ before -> ~ mergeConflict r') /\
    mergeConflict r /\
    reportMergeConflicts ctx testResults refs
    = (true,
       (postMessage ctx
          (mergeConflictMessage (testutil.MergeConflictCL (Result r))) refs
          false).2).
Proof.
  unfold mergeConflict.
  induction testResults as [|r0 rest IH]; intros (r & Hr & Hc);
    [inversion Hr|].
  cbn [reportMergeConflicts].
  destruct (decide (testutil.Status (Result r0) = testutil.TestFailedMergeConflict))
    as [Hc0|Hc0].
  - exists [], r0, rest. repeat split; [|exact Hc0].
    intros r' Hr'. inversion Hr'.
  - apply elem_of_cons in Hr as [->|Hr]; [contradiction|].
    destruct IH as (before & r1 & after & -> & Hbefore & Hc1 & ->); [eauto|].
    exists (r0 :: before), r1, after. repeat split; [|exact Hc1].
    intros r' Hr'. apply elem_of_cons in Hr' as [->|Hr']; auto.
Qed.

(** C5 (amended).  When some test result has the merge conflict status,
    what is posted depends on the check of the presubmit build, which
    comes first: if that build is reported as failed no merge conflict
    notice is posted, and otherwise the merge conflict notice of the first
    such result is the only message posted, with a failing vote; there is
    no results summary, no group of failed test cases and no other
    section. *)
Theorem merge_conflict_notice_only ctx testResults refs :
  (exists r, r ∈ testResults /\ mergeConflict r) ->
  ((reportFailedPresubmitBuild ctx "").1 = true ->
   forall cl refs' success,
     PostMessage (mergeConflictMessage cl) refs' success
     ∉ (postTestReport ctx testResults refs).2) /\
  ((reportFailedPresubmitBuild ctx "").1 = false ->
   exists before r after,
     testResults = before ++ r :: after /\
     (forall r', r' ∈ before -> ~ mergeConflict r') /\
     mergeConflict r /\
     let notice := mergeConflictMessage (testutil.MergeConflictCL (Result r)) in
     let posted := (postTestReport ctx testResults refs).2 in
     (postTestReport ctx testResults refs).1 = None /\
     posted = (postMessage ctx notice refs false).2 /\
     (exists rest, posted = PostMessage notice refs false :: rest) /\
     forall e, e ∈ posted ->
       e = PostMessage notice refs false \/
       exists ref labels,
         e = PostReview ref notice labels /\
         forall v, labels !! "Verified"%string = Some v -> v = "-1"%string).
Proof.
  intros Hex.
  assert (Hne : length testResults <> 0%nat).
  { destruct Hex as (r & Hr & _). destruct testResults; [inversion Hr|discriminate]. }
  split; intros Hmaster; unfold postTestReport;
    (destruct (decide (length testResults = 0%nat)); [contradiction|]);
    destruct (reportFailedPresubmitBuild ctx "") as [failed report0];
    simpl in Hmaster; subst failed; [intros; apply not_elem_of_nil|].
  destruct (reportMergeConflicts_found ctx testResults refs Hex)
    as (before & r & after & Heq & Hbefore & Hc & ->).
  exists before, r, after. split; [exact Heq|]. split; [exact Hbefore|].
  split; [exact Hc|]. cbv zeta. simpl.
  split; [reflexivity|]. split; [reflexivity|]. split.
  - apply postMessage_first.
  - intros e He. apply postMessage_events in He. exact He.
Qed.

End Properties.

(** * Further properties of the report generation *)

Section Further.

Context `{lib : GoLib} `{flags : Flags}.

(** ** Posting *)

Lemma refsUsingVerifiedLabel_fold cls (ret : gset string) ref :
  ref ∈ fold_left
          (fun (ret : gset string) cl =>
             if bool_decide ("Verified"%string ∈ gerrit.Labels cl)
             then {[gerrit.Reference cl]} ∪ ret else ret)
          cls ret
  <-> ref ∈ ret \/ usesVerifiedLabel cls ref.
Proof.
  unfold usesVerifiedLabel. revert ret.
  induction cls as [|cl rest IH]; intros ret; simpl.
  - rewrite Exists_nil. tauto.
  - rewrite IH, Exists_cons. case_bool_decide.
    + rewrite elem_of_union, elem_of_singleton. intuition congruence.
    + intuition congruence.
Qed.

(** The references that use the "Verified" label are those of the changes
    of the query that carry it. *)
Theorem getRefsUsingVerifiedLabel_spec ctx gerritCred cls ref :
  gerrit.Query
    (ctx_Gerrit ctx gerritBaseUrlFlag (username gerritCred) (password gerritCred))
    defaultQueryString = inl cls ->
  exists verified,
    getRefsUsingVerifiedLabel ctx gerritCred = inl verified /\
    (ref ∈ verified
     <-> exists cl, cl ∈ cls /\ gerrit.Reference cl = ref
                    /\ "Verified"%string ∈ gerrit.Labels cl).
Proof.
  intros Hq. unfold getRefsUsingVerifiedLabel. rewrite Hq.
  eexists. split; [reflexivity|].
  rewrite refsUsingVerifiedLabel_fold. unfold usesVerifiedLabel.
  rewrite Exists_exists. split.
  - intros [Hin|Hex]; [|exact Hex]. apply elem_of_empty in Hin. contradiction.
  - intros Hex. right. exact Hex.
Qed.

Lemma getRefsUsingVerifiedLabel_inv ctx gerritCred verified :
  getRefsUsingVerifiedLabel ctx gerritCred = inl verified ->
  exists cls,
    gerrit.Query
      (ctx_Gerrit ctx gerritBaseUrlFlag (username gerritCred) (password gerritCred))
      defaultQueryString = inl cls /\
    forall ref, bool_decide (ref ∈ verified) = bool_decide (usesVerifiedLabel cls ref).
Proof.
  unfold getRefsUsingVerifiedLabel.
  destruct (gerrit.Query _ _) as [cls|]; [|discriminate].
  intros [= <-]. exists cls. split; [reflexivity|]. intros ref.
  apply bool_decide_ext. rewrite refsUsingVerifiedLabel_fold. split.
  - intros [Hin|Hex]; [|exact Hex]. apply elem_of_empty in Hin. contradiction.
  - intros Hex. right. exact Hex.
Qed.

(** The loop over the references: the reviews are those of the references
    up to the first one whose review fails. *)
Lemma postReviews_spec gerritObj message value verified refs :
  let r := postReviews gerritObj message value verified refs in
  exists posted,
    r.2 = (fun ref =>
             PostReview ref message
               (if bool_decide (ref ∈ verified)
                then {["Verified"%string := value]} else ∅)) <$> posted /\
    posted `prefix_of` refs /\
    (r.1 = None -> posted = refs) /\
    (posted = refs -> r.1 = None \/ exists ref, last refs = Some ref).
Proof.
  induction refs as [|ref rest IH]; simpl.
  - exists []. repeat split; auto.
  - destruct IH as (posted & Hev & Hpre & Hall & _).
    destruct (gerrit.PostReview gerritObj ref message _) as [e|]; simpl.
    + exists [ref]. split; [reflexivity|]. split; [apply prefix_cons, prefix_nil|].
      split; [discriminate|]. intros [= <-]. right. eauto.
    + exists (ref :: posted). split; [rewrite Hev; reflexivity|].
      split; [apply prefix_cons; exact Hpre|].
      split; [intros H; rewrite (Hall H); reflexivity|].
      intros _. destruct (postReviews gerritObj message value verified rest).1;
        [right|left; reflexivity].
      destruct rest as [|r' rest']; simpl; eauto.
      destruct (last (r' :: rest')) eqn:Hl; eauto.
      apply last_None in Hl. discriminate.
Qed.

Lemma reviewedRefs_reviews (f : string -> gmap string string) message posted :
  reviewedRefs ((fun ref => PostReview ref message (f ref)) <$> posted) = posted.
Proof.
  unfold reviewedRefs. induction posted as [|ref rest IH]; [reflexivity|].
  simpl. f_equal. exact IH.
Qed.

(** A call of [postMessage] that returns no error has reviewed every
    reference once, in the order given, with the message; the review of a
    reference carries the vote ("1" on success, "-1" otherwise) on the
    "Verified" label when an open change with that reference carries the
    label, and no label at all otherwise. *)
Theorem postMessage_reviews_every_ref ctx message refs success events :
  postMessage ctx message refs success = (None, events) ->
  exists gerritHost gerritCred cls,
    checkGerritBaseUrl = inl gerritHost /\
    gerritHostCredential gerritHost = inl gerritCred /\
    gerrit.Query
      (ctx_Gerrit ctx gerritBaseUrlFlag (username gerritCred) (password gerritCred))
      defaultQueryString = inl cls /\
    events = PostMessage message refs success
             :: (reviewFor message (voteOf success) cls <$> refs).
Proof.
  unfold postMessage.
  destruct checkGerritBaseUrl as [gerritHost|] eqn:Hhost; [|discriminate].
  destruct (gerritHostCredential gerritHost) as [gerritCred|] eqn:Hcred;
    [|discriminate].
  destruct (getRefsUsingVerifiedLabel ctx gerritCred) as [verified|] eqn:Hv;
    [|discriminate].
  destruct (getRefsUsingVerifiedLabel_inv _ _ _ Hv) as (cls & Hq & Hsame).
  destruct (postReviews_spec
              (ctx_Gerrit ctx gerritBaseUrlFlag (username gerritCred)
                 (password gerritCred))
              message (if success then "1"%string else "-1"%string) verified refs)
    as (posted & Hev & _ & Hall & _).
  cbv zeta in Hev, Hall. cbv zeta. intros Heq. injection Heq as Herr Hevents.
  subst events.
  exists gerritHost, gerritCred, cls.
  split; [reflexivity|]. split; [exact Hcred|]. split; [exact Hq|].
  rewrite Hev, (Hall Herr). f_equal. apply list_fmap_ext.
  intros i ref _. unfold reviewFor, voteOf. rewrite Hsame. reflexivity.
Qed.





(** [postMessage] reviews the references in the order given and stops at
    the first review that fails: the references reviewed are always the
    first ones of the list, all of them when no error is returned; and
    when the Gerrit base URL, the credential or the query of the open
    changes fails, the error is returned and no reference is reviewed. *)
Theorem postMessage_stops_at_first_error ctx message refs success :
  let r := postMessage ctx message refs success in
  reviewedRefs r.2 `prefix_of` refs /\
  (r.1 = None -> reviewedRefs r.2 = refs) /\
  (forall err, checkGerritBaseUrl = inr err ->
               r = (Some err, [PostMessage message refs success])) /\
  (forall gerritHost err,
     checkGerritBaseUrl = inl gerritHost ->
     gerritHostCredential gerritHost = inr err ->
     r = (Some err, [PostMessage message refs success])) /\
  (forall gerritHost gerritCred err,
     checkGerritBaseUrl = inl gerritHost ->
     gerritHostCredential gerritHost = inl gerritCred ->
     gerrit.Query
       (ctx_Gerrit ctx gerritBaseUrlFlag (username gerritCred) (password gerritCred))
       defaultQueryString = inr err ->
     r = (Some err, [PostMessage message refs success])).
Proof.
  cbv zeta. unfold postMessage, getRefsUsingVerifiedLabel.
  destruct checkGerritBaseUrl as [gerritHost|e1] eqn:Hhost; simpl.
  2:{ repeat split; try apply prefix_nil; intros; congruence. }
  destruct (gerritHostCredential gerritHost) as [gerritCred|e2] eqn:Hcred; simpl.
  2:{ repeat split; try apply prefix_nil; intros; congruence. }
  destruct (gerrit.Query _ _) as [cls|e3] eqn:Hq; simpl.
  2:{ repeat split; try apply prefix_nil; intros; congruence. }
  match goal with
  | |- context [postReviews ?g ?m ?v ?vs refs] =>
      destruct (postReviews_spec g m v vs refs) as (posted & Hev & Hpre & Hall & _)
  end.
  cbv zeta in Hev, Hall. unfold reviewedRefs at 1 2. simpl. fold (reviewedRefs).
  rewrite Hev, reviewedRefs_reviews.
  repeat split; auto; intros; congruence.
Qed.

(** An error of [postTestReport] is the error of its last call of
    [postMessage], the one that posts the report: a run without test
    results, with a failed presubmit build or with a merge conflict
    returns no error, also when the merge conflict notice could not be
    posted. *)
Theorem postTestReport_error_is_post_error ctx testResults refs err :
  (postTestReport ctx testResults refs).1 = Some err ->
  testResults <> [] /\
  (reportFailedPresubmitBuild ctx "").1 = false /\
  (reportMergeConflicts ctx testResults refs).1 = false /\
  exists report success,
    postMessage ctx report refs success
    = (Some err, (postTestReport ctx testResults refs).2).
Proof.
  intros Herr.
  assert (Hne : testResults <> []).
  { intros ->. discriminate Herr. }
  assert (Hmaster : (reportFailedPresubmitBuild ctx "").1 = false).
  { revert Herr. unfold postTestReport.
    destruct (decide (length testResults = 0%nat)); [discriminate|].
    destruct (reportFailedPresubmitBuild ctx "") as [[|] report0];
      [discriminate|reflexivity]. }
  assert (Hconflict : (reportMergeConflicts ctx testResults refs).1 = false).
  { revert Herr. unfold postTestReport.
    destruct (decide (length testResults = 0%nat)); [discriminate|].
    destruct (reportFailedPresubmitBuild ctx "") as [[|] report0];
      [discriminate|].
    destruct (reportMergeConflicts ctx testResults refs) as [[|] posted];
      [discriminate|reflexivity]. }
  split; [exact Hne|]. split; [exact Hmaster|]. split; [exact Hconflict|].
  destruct (postTestReport_posts ctx testResults refs Hne Hmaster Hconflict)
    as [report Hpost].
  exists report, (bool_decide (reportedNew ctx testResults = [])).
  rewrite Hpost in Herr |- *.
  destruct (postMessage ctx report refs _) as [e evs]. simpl in Herr.
  subst e. reflexivity.
Qed.

(** ** The walk over the builds *)

Lemma checkBuilds_cutoff_mono jenkinsObj jobName slaveLabel cutoff1 cutoff2
    buildInfo i :
  cutoff1 <= cutoff2 ->
  (checkBuilds jenkinsObj jobName slaveLabel cutoff2 buildInfo i).2
    `prefix_of`
  (checkBuilds jenkinsObj jobName slaveLabel cutoff1 buildInfo i).2.
Proof.
  intros Hle. induction i as [i Hi|i Hi IH] using walk_ind;
    rewrite (checkBuilds_eq _ _ _ cutoff2 _ i), (checkBuilds_eq _ _ _ cutoff1 _ i).
  - destruct (decide (i >= 0)); [lia|]. apply prefix_nil.
  - destruct (decide (i >= 0)); [|lia].
    destruct (jenkins.BuildInfoForSpec _ _) as [cur|]; [|reflexivity].
    destruct (decide (jenkins.Timestamp cur > cutoff2)),
      (decide (jenkins.Timestamp cur > cutoff1)); simpl; try lia.
    + apply prefix_cons. exact IH.
    + apply prefix_cons, prefix_nil.
    + reflexivity.
Qed.

(** A later cutoff never makes the walk longer: the builds checked for a
    cutoff are the first ones of those checked for any earlier cutoff. *)
Theorem walk_shorter_for_later_cutoff ctx jobName slaveLabel cutoff1 cutoff2 :
  cutoff1 <= cutoff2 ->
  (getPostSubmitBuildStatus_log ctx jobName slaveLabel cutoff2).2
    `prefix_of`
  (getPostSubmitBuildStatus_log ctx jobName slaveLabel cutoff1).2.
Proof.
  intros Hle. unfold getPostSubmitBuildStatus_log.
  destruct (lastCompletedBuildStatus ctx jobName slaveLabel); [|reflexivity].
  destruct (Go.Atoi _); [|reflexivity].
  destruct (ctx_Jenkins ctx jenkinsHostFlag); [|reflexivity].
  apply checkBuilds_cutoff_mono. exact Hle.
Qed.

(** A build whose lookup fails ends the walk with the unknown status: the
    builds above it, all after the cutoff, have been checked, and no
    build below it is. *)
Theorem walk_stops_at_lookup_error jenkinsObj jobName slaveLabel cutoff
    buildInfo curId k err :
  0 <= k <= curId ->
  jenkins.BuildInfoForSpec jenkinsObj (buildSpecOf jobName slaveLabel k)
  = inr err ->
  (forall j, k < j <= curId ->
     exists b, jenkins.BuildInfoForSpec jenkinsObj (buildSpecOf jobName slaveLabel j)
               = inl b /\ jenkins.Timestamp b > cutoff) ->
  checkBuilds jenkinsObj jobName slaveLabel cutoff buildInfo curId
  = (unknownStatus, countdown curId (Z.to_nat (curId - k + 1))).
Proof.
  induction curId as [c Hc|c Hc IH] using walk_ind; intros Hk Herr Habove;
    [lia|].
  rewrite checkBuilds_eq. destruct (decide (c >= 0)); [|lia].
  destruct (decide (k = c)) as [->|Hne].
  - rewrite Herr. replace (Z.to_nat (c - c + 1)) with 1%nat by lia. reflexivity.
  - destruct (Habove c) as (b & -> & Hb); [lia|].
    destruct (decide (jenkins.Timestamp b > cutoff)); [|lia]. simpl.
    rewrite IH; [|lia|exact Herr|intros j Hj; apply Habove; lia]. simpl.
    replace (Z.to_nat (c - k + 1)) with (S (Z.to_nat (c - 1 - k + 1))) by lia.
    reflexivity.
Qed.

(** ** The occurrence counter over a report *)

Lemma casesStep_seen_count testName slaveLabel postsubmit testKey l st :
  let n := Z.of_nat (length (filter (fun c => testKeyOf slaveLabel c.1 c.2 = testKey) l)) in
  0 <= seen_count (st_seenTests st) testKey ->
  seen_count (st_seenTests st) testKey + n <= Go.MaxInt64 ->
  seen_count
    (st_seenTests (fold_left (casesStep testName slaveLabel postsubmit) l st))
    testKey
  = seen_count (st_seenTests st) testKey + n.
Proof.
  revert st. induction l as [|c l IH]; intros st; cbv zeta.
  - rewrite filter_nil. simpl. lia.
  - rewrite filter_cons. cbn [fold_left]. intros H0 Hmax.
    assert (Hstep : st_seenTests (casesStep testName slaveLabel postsubmit st c)
                    = seen_incr (st_seenTests st) (testKeyOf slaveLabel c.1 c.2)).
    { unfold casesStep. apply oneTestCase_seenTests. }
    destruct (decide (testKeyOf slaveLabel c.1 c.2 = testKey)) as [Heq|Hne].
    + simpl in Hmax.
      assert (Hone : seen_count
                       (st_seenTests (casesStep testName slaveLabel postsubmit st c))
                       testKey
                     = seen_count (st_seenTests st) testKey + 1).
      { rewrite Hstep, Heq, seen_incr_same. apply incr_succ.
        unfold Go.MinInt64. lia. }
      cbv zeta in IH. rewrite IH; rewrite Hone; simpl length; lia.
    + assert (Hsame : seen_count
                        (st_seenTests (casesStep testName slaveLabel postsubmit st c))
                        testKey
                      = seen_count (st_seenTests st) testKey).
      { rewrite Hstep. apply seen_incr_other. congruence. }
      cbv zeta in IH. rewrite IH; rewrite Hsame; lia.
Qed.

(** After a report has been processed, the counter of a key has grown by
    the number of test cases of the report with that key, passed or
    failed, over all its suites (the counter is an [int]: as long as it
    does not pass [math.MaxInt64]). *)
Theorem seenTests_counts_encounters testResult report seenTests postsubmit
    suites testKey :
  xml_Unmarshal report = inl suites ->
  let n := Z.of_nat (length (encounters (SlaveLabel testResult) testKey suites)) in
  0 <= seen_count seenTests testKey ->
  seen_count seenTests testKey + n <= Go.MaxInt64 ->
  seen_count
    (genFailedTestCasesGroupsForOneTest testResult report seenTests postsubmit).2
    testKey
  = seen_count seenTests testKey + n.
Proof.
  intros Hxml n H0 Hmax. subst n. unfold genFailedTestCasesGroupsForOneTest.
  rewrite Hxml. cbn [snd]. rewrite oneTestSuite_cases.
  unfold encounters, allCases in *.
  apply (casesStep_seen_count (TestName testResult) (SlaveLabel testResult)
           postsubmit testKey _
           {| st_groups := ∅; st_curFailedTestCases := [];
              st_seenTests := seenTests |}); simpl; assumption.
Qed.

(** ** The groups of a whole run *)

Lemma allTestsStep_groups ctx acc testResult :
  let acc' := allTestsStep ctx acc testResult in
  identity <$> group acc'.1 newFailure
  = (identity <$> group acc.1 newFailure)
    ++ filter (fun x => ~ inBaseline (baselineOf ctx testResult) x)
         (shardFailures ctx testResult) /\
  identity <$> group acc'.1 knownFailure
  = (identity <$> group acc.1 knownFailure)
    ++ filter (inBaseline (baselineOf ctx testResult))
         (shardFailures ctx testResult) /\
  group acc'.1 fixedFailure
  = group acc.1 fixedFailure
    ++ match shardSuites ctx testResult with
       | Some suites =>
           fixedInfo <$> filter (fun p => ~ stillFailing (currentFailures suites) p)
                           (baselineOf ctx testResult)
       | None => []
       end.
Proof.
  unfold allTestsStep, shardFailures, shardSuites, baselineOf.
  destruct (ReadFile ctx _) as [report|];
    [|simpl; rewrite !filter_nil, !app_nil_r; auto].
  destruct (xml_Unmarshal report) as [suites|e] eqn:Hxml.
  - destruct (genFailedTestCasesGroupsForOneTest_groups testResult report acc.2
                (getFailedTestCases ctx (TestName testResult)
                   (SlaveLabel testResult)).1 suites Hxml)
      as (cur & seen' & -> & Hnew & Hknown & Hfixed).
    simpl. rewrite !mergeGroups_group, !fmap_app, Hnew, Hknown, Hfixed. auto.
  - unfold genFailedTestCasesGroupsForOneTest. rewrite Hxml. simpl.
    rewrite !filter_nil, !app_nil_r. auto.
Qed.

(** The groups of a run list the tests in the order of the test results
    and, for each test, the cases in the order of its report: NEW holds
    the failing cases that the baseline of their test does not have,
    KNOWN those that it has, and FIXED the cases of the baseline of a
    test that do not fail in its report.  A test whose report cannot be
    read or does not parse adds nothing to any group, not even its fixed
    failures. *)
Theorem run_groups_in_order ctx testResults :
  let groups := (genFailedTestCasesGroupsForAllTests ctx testResults).1 in
  identity <$> group groups newFailure
  = testResults ≫= (fun r => filter (fun x => ~ inBaseline (baselineOf ctx r) x)
                               (shardFailures ctx r)) /\
  identity <$> group groups knownFailure
  = testResults ≫= (fun r => filter (inBaseline (baselineOf ctx r))
                               (shardFailures ctx r)) /\
  group groups fixedFailure
  = testResults ≫=
      (fun r => match shardSuites ctx r with
                | Some suites =>
                    fixedInfo <$>
                      filter (fun p => ~ stillFailing (currentFailures suites) p)
                        (baselineOf ctx r)
                | None => []
                end).
Proof.
  unfold genFailedTestCasesGroupsForAllTests. cbv zeta. cbn [fst].
  assert (Hgen : forall acc,
    let acc' := fold_left (allTestsStep ctx) testResults acc in
    identity <$> group acc'.1 newFailure
    = (identity <$> group acc.1 newFailure)
      ++ (testResults ≫= (fun r => filter (fun x => ~ inBaseline (baselineOf ctx r) x)
                                     (shardFailures ctx r))) /\
    identity <$> group acc'.1 knownFailure
    = (identity <$> group acc.1 knownFailure)
      ++ (testResults ≫= (fun r => filter (inBaseline (baselineOf ctx r))
                                     (shardFailures ctx r))) /\
    group acc'.1 fixedFailure
    = group acc.1 fixedFailure
      ++ (testResults ≫=
            (fun r => match shardSuites ctx r with
                      | Some suites =>
                          fixedInfo <$>
                            filter (fun p => ~ stillFailing (currentFailures suites) p)
                              (baselineOf ctx r)
                      | None => []
                      end))).
  { induction testResults as [|r rest IH]; intros acc; cbv zeta.
    - simpl. rewrite !app_nil_r. auto.
    - cbn [fold_left]. destruct (IH (allTestsStep ctx acc r)) as (H1 & H2 & H3).
      destruct (allTestsStep_groups ctx acc r) as (S1 & S2 & S3).
      rewrite H1, H2, H3, S1, S2, S3, !bind_cons, <- !app_assoc. auto. }
  destruct (Hgen (∅, ∅)) as (H1 & H2 & H3).
  rewrite H1, H2, H3. simpl. rewrite !group_empty. auto.
Qed.

(** ** The failed tests of the summary *)

(** The failed tests that the summary returns are the tests that are
    neither skipped nor passed, in the order of the test results, whatever
    Jenkins answers: a skipped test is never a failed test for its own
    sake, a test that timed out or had a merge conflict is one. *)
Theorem summary_failed_tests ctx testResults report :
  (reportTestResultsSummary ctx testResults report).1
  = TestName <$> filter testFailed testResults /\
  (forall r, r ∈ testResults ->
     testutil.Status (Result r) <> testutil.TestSkipped ->
     testutil.Status (Result r) <> testutil.TestPassed ->
     TestName r ∈ (reportTestResultsSummary ctx testResults report).1) /\
  (forall name, name ∈ (reportTestResultsSummary ctx testResults report).1 ->
     exists r, r ∈ testResults /\ TestName r = name /\
               testutil.Status (Result r) <> testutil.TestSkipped /\
               testutil.Status (Result r) <> testutil.TestPassed).
Proof.
  unfold reportTestResultsSummary. rewrite summary_names. simpl.
  split; [reflexivity|]. split.
  - intros r Hr Hs Hp. apply list_elem_of_fmap. exists r. split; [reflexivity|].
    apply list_elem_of_filter. split; [split; assumption|exact Hr].
  - intros name Hname. apply list_elem_of_fmap in Hname as (r & -> & Hr).
    apply list_elem_of_filter in Hr as [[Hs Hp] Hr]. exists r. auto.
Qed.

(** ** The package and the class of a link *)

Lemma LastIndex_from_bounds s i :
  0 <= i ->
  Go.LastIndex_from i s "." = -1
  \/ i <= Go.LastIndex_from i s "." < i + Z.of_nat (String.length s).
Proof.
  revert i. induction s as [|a s IH]; intros i Hi; [left; reflexivity|].
  cbn [Go.LastIndex_from String.length].
  destruct (IH (i + 1)) as [Hnone|Hsome]; [lia| |].
  - rewrite Hnone. destruct (decide (-1 = -1)); [|lia].
    destruct (String.prefix "." (String a s)); [right; lia|left; reflexivity].
  - destruct (decide (Go.LastIndex_from (i + 1) s "." = -1)); [lia|]. right. lia.
Qed.

Lemma LastIndex_from_shift s i :
  0 <= i ->
  Go.LastIndex_from i s "."
  = if decide (Go.LastIndex_from 0 s "." = -1) then -1
    else i + Go.LastIndex_from 0 s ".".
Proof.
  revert i. induction s as [|a s IH]; intros i Hi; [reflexivity|].
  cbn [Go.LastIndex_from].
  rewrite (IH (i + 1)), (IH (0 + 1)) by lia.
  destruct (LastIndex_from_bounds s 0) as [Hnone|Hsome]; [lia| |].
  - rewrite Hnone. destruct (String.prefix "." (String a s));
      repeat case_decide; lia.
  - repeat case_decide; lia.
Qed.

Lemma substring_all s : String.substring 0 (String.length s) s = s.
Proof. induction s as [|a s IH]; [reflexivity|]. simpl. rewrite IH. reflexivity. Qed.

Lemma prefix_dot a s : String.prefix "." (String a s) = true -> a = "."%char.
Proof.
  cbn [String.prefix].
  destruct (Ascii.ascii_dec "." a) as [<-|]; [intros _; reflexivity|discriminate].
Qed.

Lemma classic_dec_in s :
  {In "."%char (list_ascii_of_string s)} + {~ In "."%char (list_ascii_of_string s)}.
Proof. apply in_dec. apply Ascii.ascii_dec. Qed.

Lemma LastIndex_none_no_dot s :
  Go.LastIndex_from 0 s "." = -1 <-> ~ In "."%char (list_ascii_of_string s).
Proof.
  induction s as [|a s IH]; [simpl; tauto|].
  cbn [Go.LastIndex_from list_ascii_of_string In].
  rewrite (LastIndex_from_shift s (0 + 1)) by lia.
  destruct (LastIndex_from_bounds s 0) as [Hnone|Hsome]; [lia| |].
  - rewrite Hnone. rewrite !(decide_True (P := -1 = -1)) by reflexivity.
    assert (Hs : ~ In "."%char (list_ascii_of_string s)) by (apply IH; exact Hnone).
    cbn [String.prefix]. destruct (Ascii.ascii_dec "." a) as [<-|Hne].
    + rewrite prefix_empty. split; [lia|]. intros H. exfalso. apply H. auto.
    + split; [|reflexivity]. intros _ [Heq|Hin]; [congruence|auto].
  - destruct (decide (Go.LastIndex_from 0 s "." = -1)); [lia|].
    destruct (decide (0 + 1 + Go.LastIndex_from 0 s "." = -1)); [lia|].
    split; [lia|]. intros H. exfalso. apply H. right.
    destruct (classic_dec_in s) as [Hin|Hnot]; [exact Hin|].
    apply IH in Hnot. lia.
Qed.

Lemma split_at_last_dot s :
  Go.LastIndex_from 0 s "." <> -1 ->
  let k := Go.LastIndex_from 0 s "." in
  s = Go.slice_to s k +:+ "." +:+ Go.slice_from s (k + 1) /\
  Go.LastIndex_from 0 (Go.slice_from s (k + 1)) "." = -1.
Proof.
  unfold Go.slice_to, Go.slice_from.
  induction s as [|a s IH]; [simpl; lia|]. intros Hk. cbv zeta.
  revert Hk. cbn [Go.LastIndex_from].
  rewrite (LastIndex_from_shift s (0 + 1)) by lia.
  destruct (LastIndex_from_bounds s 0) as [Hnone|Hsome]; [lia| |].
  - rewrite Hnone. rewrite !(decide_True (P := -1 = -1)) by reflexivity.
    destruct (String.prefix "." (String a s)) eqn:Hp; [|lia]. intros _.
    apply prefix_dot in Hp. subst a.
    change (Z.to_nat 0) with 0%nat. change (Z.to_nat (0 + 1)) with 1%nat.
    cbn [String.substring String.length].
    replace (S (String.length s) - 1)%nat with (String.length s) by lia.
    rewrite substring_all. split; [reflexivity|exact Hnone].
  - destruct (decide (Go.LastIndex_from 0 s "." = -1)) as [|Hne]; [lia|].
    destruct (decide (0 + 1 + Go.LastIndex_from 0 s "." = -1)); [lia|]. intros _.
    specialize (IH Hne). cbv zeta in IH. destruct IH as [IH1 IH2].
    replace (Z.to_nat (0 + 1 + Go.LastIndex_from 0 s "."))
      with (S (Z.to_nat (Go.LastIndex_from 0 s "."))) by lia.
    replace (Z.to_nat (0 + 1 + Go.LastIndex_from 0 s "." + 1))
      with (S (Z.to_nat (Go.LastIndex_from 0 s "." + 1))) by lia.
    cbn [String.substring String.length]. rewrite Nat.sub_succ.
    split; [|exact IH2]. rewrite IH1 at 1. reflexivity.
Qed.

(** A class name with a "." is cut at its last ".": the package name, a
    "." and the class name make up the class name again, and the class
    name has no "." left; a class name without "." is the class of the
    package "(root)".  The raw URL of the link is built from the safe
    names of the two parts. *)
Theorem junit_package_and_class className :
  (Go.Contains className "." = true
   <-> In "."%char (list_ascii_of_string className)) /\
  (Go.Contains className "." = false ->
   junitPackageAndClass className = ("(root)"%string, className)) /\
  (Go.Contains className "." = true ->
   className = (junitPackageAndClass className).1 +:+ "."
               +:+ (junitPackageAndClass className).2 /\
   Go.Contains (junitPackageAndClass className).2 "." = false) /\
  (forall testCaseName testName slaveLabel,
     testResultRawurl className testCaseName testName slaveLabel
     = "http://goto.google.com/vpst/" +:+ Go.Sprintf_d jenkinsBuildNumberFlag
       +:+ "/L=" +:+ slaveLabel +:+ ",TEST=" +:+ testName +:+ "/testReport/"
       +:+ safePackageOrClassName (junitPackageAndClass className).1 +:+ "/"
       +:+ safePackageOrClassName (junitPackageAndClass className).2 +:+ "/"
       +:+ safeTestName testCaseName).
Proof.
  assert (Hcontains : forall s, Go.Contains s "." = true
                                <-> Go.LastIndex_from 0 s "." <> -1).
  { intros s. unfold Go.Contains, Go.LastIndex.
    case_bool_decide; simpl; split; intros; congruence. }
  split; [|split; [|split]].
  - rewrite Hcontains, LastIndex_none_no_dot.
    destruct (classic_dec_in className); tauto.
  - intros Hno. unfold junitPackageAndClass. rewrite Hno. reflexivity.
  - intros Hyes. unfold junitPackageAndClass. rewrite Hyes. cbv zeta. cbn [fst snd].
    apply Hcontains in Hyes.
    destruct (split_at_last_dot className Hyes) as [Heq Hnone].
    split; [exact Heq|]. unfold Go.LastIndex.
    destruct (Go.Contains _ ".") eqn:Hc; [|reflexivity].
    apply Hcontains in Hc. contradiction.
  - intros testCaseName testName slaveLabel.
    unfold testResultRawurl, junitPackageAndClass.
    destruct (Go.Contains className "."); reflexivity.
Qed.

End Further.

(** * Properties of the commands *)

Section CommandProperties.

Context `{lib : GoLib} `{flags : Flags} `{cmds : CmdLib}.

(** ** The order of [sort.Strings] *)

Lemma ascii_compare_lt_trans a b c :
  Ascii.compare a b = Lt -> Ascii.compare b c = Lt -> Ascii.compare a c = Lt.
Proof.
  unfold Ascii.compare. rewrite !N.compare_lt_iff. apply N.lt_trans.
Qed.

Lemma string_compare_lt_trans s1 s2 s3 :
  String.compare s1 s2 = Lt -> String.compare s2 s3 = Lt ->
  String.compare s1 s3 = Lt.
Proof.
  revert s2 s3. induction s1 as [|a s1 IH]; intros [|b s2] [|c s3]; simpl;
    try discriminate; try reflexivity.
  destruct (Ascii.compare a b) eqn:Hab; try discriminate;
    destruct (Ascii.compare b c) eqn:Hbc; try discriminate; intros H1 H2.
  - apply Ascii.compare_eq_iff in Hab, Hbc. subst.
    assert (Hcc : Ascii.compare c c = Eq).
    { unfold Ascii.compare. apply N.compare_refl. }
    rewrite Hcc. eapply IH; eassumption.
  - apply Ascii.compare_eq_iff in Hab. subst. rewrite Hbc. reflexivity.
  - apply Ascii.compare_eq_iff in Hbc. subst. rewrite Hab. reflexivity.
  - rewrite (ascii_compare_lt_trans _ _ _ Hab Hbc). reflexivity.
Qed.

Lemma string_le_cases a b :
  GoMore.string_le a b <-> a = b \/ String.compare a b = Lt.
Proof.
  unfold GoMore.string_le, String.leb. split.
  - destruct (String.compare a b) eqn:Hc; try discriminate; intros _.
    + left. apply String.compare_eq_iff. exact Hc.
    + right. reflexivity.
  - intros [-> | ->]; [|reflexivity].
    assert (Hbb : String.compare b b = Eq).
    { induction b as [|c b IH]; [reflexivity|]. simpl.
      unfold Ascii.compare. rewrite N.compare_refl. exact IH. }
    rewrite Hbb. reflexivity.
Qed.

#[local] Instance string_le_trans : Transitive GoMore.string_le.
Proof.
  intros a b c. rewrite !string_le_cases.
  intros [-> | Hab] [-> | Hbc]; auto. right.
  eapply string_compare_lt_trans; eassumption.
Qed.

#[local] Instance string_le_total : Total GoMore.string_le.
Proof. intros a b. apply String.leb_total. Qed.

#[local] Instance string_le_antisym : AntiSymm (=) GoMore.string_le.
Proof. intros a b. apply String.leb_antisym. Qed.

Lemma sort_Strings_Permutation l1 l2 :
  l1 ≡ₚ l2 -> GoMore.sort_Strings l1 = GoMore.sort_Strings l2.
Proof.
  intros Hperm. unfold GoMore.sort_Strings.
  apply (Sorted_unique GoMore.string_le).
  - apply Sorted_merge_sort. apply _.
  - apply Sorted_merge_sort. apply _.
  - rewrite !merge_sort_Permutation. exact Hperm.
Qed.

(** ** [runResult] *)

Lemma collectStatusFiles_Permutation visits1 visits2 :
  visits1 ≡ₚ visits2 ->
  match collectStatusFiles visits1, collectStatusFiles visits2 with
  | Some files1, Some files2 => files1 ≡ₚ files2
  | None, None => True
  | _, _ => False
  end.
Proof.
  intros Hperm. induction Hperm as [|x l1 l2 Hperm IH|x y l|l1 l2 l3 H12 IH12 H23 IH23].
  - simpl. reflexivity.
  - destruct x as [path [name|]]; simpl; [|exact I].
    destruct (collectStatusFiles l1), (collectStatusFiles l2); try tauto.
    destruct (_ && _); [constructor|]; exact IH.
  - destruct x as [path1 [name1|]], y as [path2 [name2|]]; simpl;
      destruct (collectStatusFiles l); try exact I.
    destruct (_ && _), (_ && _); try reflexivity. apply perm_swap.
  - destruct (collectStatusFiles l1), (collectStatusFiles l2),
      (collectStatusFiles l3); try tauto. etransitivity; eassumption.
Qed.

(** The outcome of [runResult] does not depend on the order in which the
    walk visits the files: the status files are sorted by their paths
    before they are read. *)
Theorem runResult_walk_order ctx Walk1 Walk2 :
  (forall dir, Walk1 dir ≡ₚ Walk2 dir) ->
  runResult ctx Walk1 = runResult ctx Walk2.
Proof.
  intros Hperm. unfold runResult. cbv zeta.
  pose proof (collectStatusFiles_Permutation _ _
                (Hperm (filepath_Join [Getenv ctx "WORKSPACE"; "test_results"%string;
                                       Go.Sprintf_d jenkinsBuildNumberFlag])))
    as Hcollect.
  destruct (collectStatusFiles (Walk1 _)) as [files1|],
    (collectStatusFiles (Walk2 _)) as [files2|]; try tauto.
  rewrite (sort_Strings_Permutation _ _ Hcollect). reflexivity.
Qed.

Lemma readStatusFiles_results ctx statusFiles testResults :
  readStatusFiles ctx statusFiles = inl testResults ->
  Forall2 (fun statusFile curResult =>
             exists bytes, ReadFile ctx statusFile = inl bytes /\
                           json_Unmarshal bytes = inl curResult)
    statusFiles testResults.
Proof.
  revert testResults. induction statusFiles as [|f rest IH]; intros testResults;
    simpl.
  - intros [= <-]. constructor.
  - destruct (ReadFile ctx f) as [bytes|] eqn:Hread; [|discriminate].
    destruct (json_Unmarshal bytes) as [r|] eqn:Hjson; [|discriminate].
    destruct (readStatusFiles ctx rest) as [rs|]; [|discriminate].
    intros [= <-]. constructor; [eauto|]. apply IH. reflexivity.
Qed.

(** [runResult] posts a report only for a complete set of results: when
    it has posted anything, the walk met no file without file info, every
    status file found (a file named "status_....json") was read and
    decoded, and the test results reported are those of the status files
    in the order of their sorted paths, at least one. *)
Theorem runResult_posts_complete_runs ctx Walk :
  (runResult ctx Walk).2 <> [] ->
  exists statusFiles testResults,
    collectStatusFiles
      (Walk (filepath_Join [Getenv ctx "WORKSPACE"; "test_results"%string;
                            Go.Sprintf_d jenkinsBuildNumberFlag]))
    = Some statusFiles /\
    Forall2 (fun statusFile curResult =>
               exists bytes, ReadFile ctx statusFile = inl bytes /\
                             json_Unmarshal bytes = inl curResult)
      (GoMore.sort_Strings statusFiles) testResults /\
    testResults <> [] /\
    runResult ctx Walk
    = (Returned (postTestReport ctx testResults
                   (GoMore.Split reviewTargetRefsFlag ":")).1,
       (postTestReport ctx testResults (GoMore.Split reviewTargetRefsFlag ":")).2).
Proof.
  unfold runResult. cbv zeta.
  destruct (collectStatusFiles _) as [statusFiles|]; [|intros H; contradiction].
  destruct (readStatusFiles ctx _) as [testResults|] eqn:Hread;
    [|intros H; contradiction].
  cbn [snd]. intros Hposted. exists statusFiles, testResults.
  split; [reflexivity|]. split; [apply readStatusFiles_results; exact Hread|].
  split; [|reflexivity]. intros ->. apply Hposted. reflexivity.
Qed.

(** ** The earlier link generation against the groups *)

Lemma links_empty t : links ∅ t = [].
Proof. unfold links. rewrite lookup_empty. reflexivity. Qed.

Lemma links_append_same linksMap t link :
  links (links_append linksMap t link) t = links linksMap t ++ [link].
Proof. unfold links_append, links at 1. rewrite lookup_insert_eq. reflexivity. Qed.

Lemma links_append_other linksMap t t' link :
  t <> t' -> links (links_append linksMap t link) t' = links linksMap t'.
Proof.
  intros Hne. unfold links_append, links at 1.
  rewrite lookup_insert_ne by exact Hne. reflexivity.
Qed.

Lemma Old_isNewFailure_toJenkins Classname Name failedTestCases :
  Old_isNewFailure Classname Name failedTestCases
  = isNewFailure Classname Name (toJenkins <$> failedTestCases).
Proof.
  induction failedTestCases as [|p rest IH]; [reflexivity|].
  simpl. rewrite IH. reflexivity.
Qed.

Lemma Old_isFixed_toJenkins p curFailedTestCases :
  Old_isFixed p curFailedTestCases
  = isFixed (toJenkins p) (toJenkins <$> curFailedTestCases).
Proof.
  induction curFailedTestCases as [|c rest IH]; [reflexivity|].
  simpl. rewrite IH. reflexivity.
Qed.

Lemma Old_genTestResultLink_full className testCaseName suffix testName slaveLabel :
  Old_genTestResultLink className testCaseName
    (genTestFullName className testCaseName) suffix testName slaveLabel
  = genTestResultLink className testCaseName suffix testName slaveLabel.
Proof. reflexivity. Qed.

Lemma Old_oneTestCase_linked testName slaveLabel failedTestCases suite ls st tc :
  linked ls st ->
  linked (Old_oneTestCase testName slaveLabel failedTestCases suite ls tc)
    (oneTestCase testName slaveLabel (toJenkins <$> failedTestCases) suite st tc).
Proof.
  intros (Hseen & Hcur & Hlinks).
  unfold Old_oneTestCase, oneTestCase, testKeyOf. rewrite Hseen.
  rewrite Old_isNewFailure_toJenkins.
  destruct (decide (FailureData tc <> ""));
    [|split; [reflexivity|split; [exact Hcur|exact Hlinks]]].
  destruct (isNewFailure _ _ _); (split; [reflexivity|]); (split;
    [simpl; rewrite fmap_app, Hcur; reflexivity|]);
    intros t; simpl.
  - destruct (decide (newFailure = t)) as [<-|Hne].
    + rewrite links_append_same, group_append_same, fmap_app, Hlinks. reflexivity.
    + rewrite links_append_other, group_append_other by exact Hne. apply Hlinks.
  - destruct (decide (knownFailure = t)) as [<-|Hne].
    + rewrite links_append_same, group_append_same, fmap_app, Hlinks. reflexivity.
    + rewrite links_append_other, group_append_other by exact Hne. apply Hlinks.
Qed.

Lemma Old_suites_linked testName slaveLabel failedTestCases suites ls st :
  linked ls st ->
  linked
    (fold_left
       (fun ls curTestSuite =>
          fold_left (Old_oneTestCase testName slaveLabel failedTestCases curTestSuite)
            (Testcases curTestSuite) ls)
       suites ls)
    (fold_left (oneTestSuite testName slaveLabel (toJenkins <$> failedTestCases))
       suites st).
Proof.
  revert ls st. induction suites as [|suite rest IH]; intros ls st Hl; [exact Hl|].
  cbn [fold_left]. apply IH. unfold oneTestSuite.
  generalize (Testcases suite) ls st Hl. clear.
  induction l as [|tc l IHl]; intros ls st Hl; [exact Hl|].
  cbn [fold_left]. apply IHl. apply Old_oneTestCase_linked. exact Hl.
Qed.

Lemma Old_populateFixed_fold cur curJ failedTestCases linksMap groups :
  toJenkins <$> cur = curJ ->
  links linksMap newFailure = linkOf <$> group groups newFailure ->
  links linksMap knownFailure = linkOf <$> group groups knownFailure ->
  links linksMap fixedFailure = fixedName <$> group groups fixedFailure ->
  let linksMap' := fold_left (Old_populateFixed cur) failedTestCases linksMap in
  let groups' :=
    fold_left (populateFixed curJ) (toJenkins <$> failedTestCases) groups in
  links linksMap' newFailure = linkOf <$> group groups' newFailure /\
  links linksMap' knownFailure = linkOf <$> group groups' knownFailure /\
  links linksMap' fixedFailure = fixedName <$> group groups' fixedFailure.
Proof.
  intros <-. revert linksMap groups.
  induction failedTestCases as [|p rest IH]; intros linksMap groups Hn Hk Hf;
    [simpl; auto|].
  cbn [fold_left fmap list_fmap]. apply IH;
    unfold Old_populateFixed, populateFixed; rewrite Old_isFixed_toJenkins;
    destruct (isFixed _ _); try assumption.
  - rewrite links_append_other, group_append_other by discriminate. exact Hn.
  - rewrite links_append_other, group_append_other by discriminate. exact Hk.
  - rewrite links_append_same, group_append_same, fmap_app, Hf. reflexivity.
Qed.

(** The earlier [genFailedTestLinks] and the grouping that replaced it
    agree: on the same report, counter and baseline they leave the same
    counter, the earlier NEW and KNOWN links are the links that the
    report shows for the entries of the NEW and KNOWN groups, and the
    earlier FIXED lines are the names of the entries of the FIXED group. *)
Theorem earlier_links_agree testResult report seenTests getFailedTestCases suites :
  xml_Unmarshal report = inl suites ->
  let postsubmit :=
    toJenkins <$> (getFailedTestCases (TestName testResult)
                     (SlaveLabel testResult)).1 in
  exists linksMap groups seenTests',
    genFailedTestLinks report seenTests (TestName testResult)
      (SlaveLabel testResult) getFailedTestCases
    = (inl linksMap, seenTests') /\
    genFailedTestCasesGroupsForOneTest testResult report seenTests postsubmit
    = (inl groups, seenTests') /\
    links linksMap newFailure = linkOf <$> group groups newFailure /\
    links linksMap knownFailure = linkOf <$> group groups knownFailure /\
    links linksMap fixedFailure = fixedName <$> group groups fixedFailure.
Proof.
  intros Hxml postsubmit. subst postsubmit.
  unfold genFailedTestLinks, genFailedTestCasesGroupsForOneTest. rewrite Hxml.
  cbv zeta.
  match goal with
  | |- context [fold_left (oneTestSuite ?t ?s (toJenkins <$> ?f)) ?l ?st0] =>
      pose proof (Old_suites_linked t s f l
                    {| ls_linksMap := ∅; ls_curFailedTestCases := [];
                       ls_seenTests := seenTests |} st0) as Hlinked
  end.
  destruct Hlinked as (Hseen & Hcur & Hlinks).
  { split; [reflexivity|]. split; [reflexivity|].
    intros t. simpl. rewrite links_empty, group_empty. reflexivity. }
  eexists _, _, _. split; [reflexivity|]. split; [rewrite Hseen; reflexivity|].
  apply (Old_populateFixed_fold _ _ _ _ _ Hcur (Hlinks newFailure)
           (Hlinks knownFailure)).
  rewrite Hlinks.
  match goal with
  | |- context [fold_left (oneTestSuite ?t ?s ?p) ?l ?st0] =>
      rewrite (oneTestSuite_cases t s p l st0);
      destruct (casesStep_fold t s p
                  (l ≫= (fun curTestSuite => pair curTestSuite <$> Testcases curTestSuite))
                  st0) as (_ & _ & _ & Hfixed)
  end.
  simpl in Hfixed. rewrite Hfixed, group_empty. reflexivity.
Qed.

End CommandProperties.

(** ** The test cases of a Jenkins test report *)

Lemma parseFailedTestCases_suite suite failedTestCases :
  fold_left
    (fun failedTestCases curCase =>
       if bool_decide (Old.Status curCase = "FAILED")
          || bool_decide (Old.Status curCase = "REGRESSION")
       then failedTestCases ++ [curCase] else failedTestCases)
    suite failedTestCases
  = failedTestCases ++ filter failedStatus suite.
Proof.
  revert failedTestCases.
  induction suite as [|curCase suite IH]; intros failedTestCases.
  - cbn [fold_left]. rewrite filter_nil, app_nil_r. reflexivity.
  - cbn [fold_left]. rewrite IH, filter_cons. unfold failedStatus at 2.
    destruct (decide (Old.Status curCase = "FAILED")) as [H1|H1];
      destruct (decide (Old.Status curCase = "REGRESSION")) as [H2|H2];
      try (rewrite (bool_decide_eq_true_2 _ H1));
      try (rewrite (bool_decide_eq_false_2 _ H1));
      try (rewrite (bool_decide_eq_true_2 _ H2));
      try (rewrite (bool_decide_eq_false_2 _ H2));
      cbn [orb].
    + rewrite decide_True by (left; exact H1). rewrite <- app_assoc. reflexivity.
    + rewrite decide_True by (left; exact H1). rewrite <- app_assoc. reflexivity.
    + rewrite decide_True by (right; exact H2). rewrite <- app_assoc. reflexivity.
    + rewrite decide_False by (intros [?|?]; contradiction). reflexivity.
Qed.

Lemma parseFailedTestCases_suites suites failedTestCases :
  fold_left
    (fun failedTestCases suite =>
       fold_left
         (fun failedTestCases curCase =>
            if bool_decide (Old.Status curCase = "FAILED")
               || bool_decide (Old.Status curCase = "REGRESSION")
            then failedTestCases ++ [curCase] else failedTestCases)
         suite failedTestCases)
    suites failedTestCases
  = failedTestCases ++ filter failedStatus (concat suites).
Proof.
  revert failedTestCases.
  induction suites as [|suite suites IH]; intros failedTestCases.
  - cbn [fold_left concat]. rewrite filter_nil, app_nil_r. reflexivity.
  - cbn [fold_left concat]. rewrite parseFailedTestCases_suite, IH.
    rewrite filter_app, app_assoc. reflexivity.
Qed.

(** [parseFailedTestCases] keeps, in the order of the report and over all
    its suites, exactly the test cases whose status is "FAILED" or
    "REGRESSION", and reports no error for a report that decodes. *)
Theorem parseFailedTestCases_keeps_failed suites :
  parseFailedTestCases (inl suites) = (filter failedStatus (concat suites), None).
Proof.
  unfold parseFailedTestCases. rewrite parseFailedTestCases_suites. reflexivity.
Qed.

(** ** The presubmit test command *)

Section TestProperties.

Context `{lib : GoLib} `{flags : Flags} `{cmds : CmdLib} `{tests : TestLib}.

Lemma string_app_assoc (a b c : string) : (a +:+ b) +:+ c = a +:+ (b +:+ c).
Proof.
  induction a as [|x a IH]; [reflexivity|].
  change (String x ((a +:+ b) +:+ c) = String x (a +:+ (b +:+ c))).
  f_equal. exact IH.
Qed.

Lemma string_app_nil_r (a : string) : a +:+ "" = a.
Proof.
  induction a as [|x a IH]; [reflexivity|].
  change (String x (a +:+ "") = String x a). f_equal. exact IH.
Qed.

Lemma string_app_length (a b : string) :
  String.length (a +:+ b) = (String.length a + String.length b)%nat.
Proof.
  induction a as [|x a IH]; [reflexivity|].
  change (S (String.length (a +:+ b)) = S (String.length a + String.length b)).
  f_equal. exact IH.
Qed.

Lemma substring_append a b n :
  String.substring (String.length a) n (a +:+ b) = String.substring 0 n b.
Proof.
  induction a as [|x a IH]; [reflexivity|].
  exact IH.
Qed.

Lemma HasPrefix_app a b : GoMore.HasPrefix (a +:+ b) a = true.
Proof.
  unfold GoMore.HasPrefix. induction a as [|x a IH]; [apply prefix_empty|].
  change (String x a +:+ b) with (String x (a +:+ b)). cbn [String.prefix].
  destruct (Ascii.ascii_dec x x) as [_|Hne]; [exact IH|congruence].
Qed.

Lemma HasSuffix_app a b : GoMore.HasSuffix (a +:+ b) b = true.
Proof.
  unfold GoMore.HasSuffix. rewrite string_app_length.
  replace (String.length a + String.length b - String.length b)%nat
    with (String.length a) by lia.
  rewrite substring_append, substring_all.
  rewrite bool_decide_eq_true_2 by reflexivity.
  rewrite andb_true_r. apply Nat.leb_le. lia.
Qed.

Lemma Split_from_cons skip piece s sep :
  exists x l, GoMore.Split_from skip piece s sep = x :: l.
Proof.
  revert skip piece. induction s as [|c s IH]; intros skip piece;
    cbn [GoMore.Split_from]; [eauto|].
  destruct skip; [|apply IH].
  destruct (String.prefix sep (String c s)); [eauto|apply IH].
Qed.

(** Joining the elements that [strings.Split] gives for ":" gives the
    string back. *)
Lemma Join_Split_from_colon s piece :
  Go.Join (GoMore.Split_from 0 piece s ":") ":" = piece +:+ s.
Proof.
  revert piece. induction s as [|c s IH]; intros piece.
  - cbn [GoMore.Split_from Go.Join]. rewrite string_app_nil_r. reflexivity.
  - cbn [GoMore.Split_from String.prefix].
    destruct (Ascii.ascii_dec ":" c) as [<-|Hne].
    + rewrite prefix_empty. cbn [String.length Nat.sub].
      pose proof (IH ""%string) as IH0.
      destruct (Split_from_cons 0 "" s ":") as (x & l & Heq).
      rewrite Heq in IH0 |- *.
      change (Go.Join (piece :: x :: l) ":")
        with (piece +:+ ":" +:+ Go.Join (x :: l) ":").
      rewrite IH0. reflexivity.
    + rewrite IH, string_app_assoc. reflexivity.
Qed.

Lemma Join_Split_colon s : Go.Join (GoMore.Split s ":") ":" = s.
Proof. unfold GoMore.Split. apply Join_Split_from_colon. Qed.

(** The loop of [parseCLs] when every ref has its project: it does not
    panic, and the CLs it adds are the refs with their projects in
    order, each with the numbers parsed from its ref. *)
Lemma parseCLs_loop_ok refs i projects cls :
  length projects = (i + length refs)%nat ->
  Test.parseCLs_loop i refs projects cls <> Panicked /\
  forall out, Test.parseCLs_loop i refs projects cls = Returned (inl out) ->
    exists new, out = cls ++ new /\ Test.ref <$> new = refs /\
      Test.project <$> new = drop i projects /\
      Forall (fun c => parseRefString (Test.ref c)
                       = inl (Test.clNumber c, Test.patchset c)) new.
Proof.
  revert i cls. induction refs as [|curRef refs IH]; intros i cls Hlen.
  - cbn [Test.parseCLs_loop]. split; [discriminate|].
    intros out [= <-]. exists []. rewrite app_nil_r. split; [reflexivity|].
    split; [reflexivity|]. split; [|constructor].
    rewrite drop_ge by (simpl in Hlen; lia). reflexivity.
  - cbn [Test.parseCLs_loop]. cbn [length] in Hlen.
    destruct (lookup_lt_is_Some_2 projects i) as [curProject Hp]; [lia|].
    rewrite Hp. destruct (parseRefString curRef) as [[curClNumber curPatchset]|err] eqn:Hparse.
    + destruct (IH (S i)
                  (cls ++ [{| Test.clNumber := curClNumber;
                              Test.patchset := curPatchset;
                              Test.ref := curRef;
                              Test.project := curProject |}]))
        as [Hnp Hout]; [lia|].
      split; [exact Hnp|]. intros out Heq.
      destruct (Hout out Heq) as (new & -> & Hrefs & Hprojects & Hparsed).
      eexists (_ :: new). rewrite <- app_assoc. split; [reflexivity|].
      cbn [fmap list_fmap Test.ref Test.project]. rewrite Hrefs.
      split; [reflexivity|]. split.
      * rewrite (drop_S _ _ _ Hp). f_equal. exact Hprojects.
      * constructor; [exact Hparse|exact Hparsed].
    + split; [discriminate|]. intros out [=].
Qed.

Lemma parseCLs_loop_bad pre i projects cls bad post err :
  length projects = (i + length (pre ++ bad :: post))%nat ->
  Forall (fun r => exists p, parseRefString r = inl p) pre ->
  parseRefString bad = inr err ->
  Test.parseCLs_loop i (pre ++ bad :: post) projects cls = Returned (inr err).
Proof.
  revert i cls. induction pre as [|curRef pre IH]; intros i cls Hlen Hpre Hbad.
  - cbn [app Test.parseCLs_loop]. cbn [app length] in Hlen.
    destruct (lookup_lt_is_Some_2 projects i) as [curProject Hp]; [lia|].
    rewrite Hp, Hbad. reflexivity.
  - cbn [app Test.parseCLs_loop]. cbn [app length] in Hlen.
    destruct (lookup_lt_is_Some_2 projects i) as [curProject Hp]; [lia|].
    rewrite Hp. inversion Hpre as [|? ? [[curClNumber curPatchset] Hparse] Hrest]; subst.
    rewrite Hparse. apply IH; [lia|exact Hrest|exact Hbad].
Qed.

Lemma parseCLs_ok cls :
  Test.parseCLs = Returned (inl cls) ->
  Test.ref <$> cls = GoMore.Split reviewTargetRefsFlag ":" /\
  Test.project <$> cls = GoMore.Split projectsFlag ":" /\
  Forall (fun c => parseRefString (Test.ref c)
                   = inl (Test.clNumber c, Test.patchset c)) cls.
Proof.
  unfold Test.parseCLs. cbv zeta.
  destruct (decide (_ <> _)) as [|Hlen]; [discriminate|].
  apply dec_stable in Hlen. intros Heq.
  destruct (parseCLs_loop_ok (GoMore.Split reviewTargetRefsFlag ":") 0
              (GoMore.Split projectsFlag ":") []) as [_ Hout];
    [symmetry; exact Hlen|].
  destruct (Hout cls Heq) as (new & -> & Hrefs & Hprojects & Hparsed).
  rewrite drop_0 in Hprojects. auto.
Qed.

(** [parseCLs] pairs the refs with the projects by position: the refs
    of the CLs it returns are the elements of the [-refs] flag, their
    projects are the elements of the [-projects] flag, and the numbers
    of each CL are the ones parsed from its ref. *)
Theorem parseCLs_positional cls :
  Test.parseCLs = Returned (inl cls) ->
  Test.ref <$> cls = GoMore.Split reviewTargetRefsFlag ":" /\
  Test.project <$> cls = GoMore.Split projectsFlag ":" /\
  Forall (fun c => parseRefString (Test.ref c)
                   = inl (Test.clNumber c, Test.patchset c)) cls.
Proof. apply parseCLs_ok. Qed.

(** The CLs that [parseCLs] returns give the two flags back: their refs
    joined by ":" are the [-refs] flag and their projects joined by ":"
    are the [-projects] flag; and there is at least one CL. *)
Theorem parseCLs_round_trip cls :
  Test.parseCLs = Returned (inl cls) ->
  Go.Join (Test.ref <$> cls) ":" = reviewTargetRefsFlag /\
  Go.Join (Test.project <$> cls) ":" = projectsFlag /\
  cls <> [].
Proof.
  intros Heq. destruct (parseCLs_ok cls Heq) as (Hrefs & Hprojects & _).
  rewrite Hrefs, Hprojects, !Join_Split_colon. split; [reflexivity|].
  split; [reflexivity|]. intros ->.
  destruct (Split_from_cons 0 "" reviewTargetRefsFlag ":") as (x & l & Hx).
  unfold GoMore.Split in Hrefs. rewrite Hx in Hrefs. discriminate.
Qed.

(** [parseCLs] never panics: the counts of the refs and of the projects
    are compared before a project is read by the index of its ref. *)
Theorem parseCLs_index_in_range : Test.parseCLs <> Panicked.
Proof.
  unfold Test.parseCLs. cbv zeta.
  destruct (decide (_ <> _)) as [|Hlen]; [discriminate|].
  apply dec_stable in Hlen.
  apply (parseCLs_loop_ok (GoMore.Split reviewTargetRefsFlag ":") 0
           (GoMore.Split projectsFlag ":") []).
  symmetry. exact Hlen.
Qed.

(** When the counts agree, [parseCLs] fails with the error of the first
    ref that does not parse. *)
Theorem parseCLs_first_bad_ref pre bad post err :
  GoMore.Split reviewTargetRefsFlag ":" = pre ++ bad :: post ->
  length (GoMore.Split reviewTargetRefsFlag ":")
  = length (GoMore.Split projectsFlag ":") ->
  Forall (fun r => exists p, parseRefString r = inl p) pre ->
  parseRefString bad = inr err ->
  Test.parseCLs = Returned (inr err).
Proof.
  intros Hsplit Hlen Hpre Hbad. unfold Test.parseCLs. cbv zeta.
  rewrite decide_False by (intros Hne; apply Hne; exact Hlen).
  rewrite Hsplit. apply parseCLs_loop_bad; [|exact Hpre|exact Hbad].
  rewrite <- Hsplit, Hlen. reflexivity.
Qed.

(** A file with the name that [writeTestStatusFile] gives the status
    file is one that the walk of [runResult] collects, whatever the
    name of the test. *)
Theorem status_file_is_collected path rest :
  collectStatusFiles ((path, Some Test.statusFileName) :: rest)
  = (cons path) <$> collectStatusFiles rest.
Proof.
  cbn [collectStatusFiles].
  assert (GoMore.HasPrefix Test.statusFileName "status_" = true) as ->
    by apply HasPrefix_app.
  assert (GoMore.HasSuffix Test.statusFileName ".json" = true) as ->.
  { unfold Test.statusFileName.
    rewrite <- (string_app_assoc "status_" (Go.Replace testFlag "-" "_") ".json").
    apply HasSuffix_app. }
  destruct (collectStatusFiles rest); reflexivity.
Qed.

(** The failure report of the merge conflict in [c]. *)
Lemma recordMergeConflict_writes ctx c :
  let report :=
    xunit_CreateFailureReport testFlag testFlag "MergeConflict"
      (mergeConflictMessage (Test.cl_String c))
      (mergeConflictMessage (Test.cl_String c)) in
  let r := Test.recordMergeConflict ctx (Some c) in
  (r = (Returned None, report.2) /\ report.1 <> None) \/
  (report.1 = None /\ r.2 = report.2 /\ r.1 <> Returned None /\ r.1 <> Panicked) \/
  exists path bytes,
    report.1 = None /\
    json_Marshal (recordMergeConflict testFlag (Getenv ctx "L") (Test.cl_String c))
    = inl bytes /\
    WriteFile path bytes = None /\
    r = (Returned None, report.2 ++ [(path, bytes)]).
Proof.
  cbv zeta. unfold Test.recordMergeConflict, Test.writeTestStatusFile.
  destruct (xunit_CreateFailureReport _ _ _ _ _) as [[reportErr|] reportFiles];
    [left; split; [reflexivity|discriminate]|].
  right. cbv zeta.
  change {| Result := _; TestName := testFlag; SlaveLabel := _;
            Timestamp := Go.MaxInt64; PostSubmitResult := "" |}
    with (recordMergeConflict testFlag (Getenv ctx "L") (Test.cl_String c)).
  destruct (json_Marshal _) as [bytes|err] eqn:Hm.
  2: { left. cbn [fst snd]. rewrite app_nil_r.
       repeat split; discriminate. }
  match goal with
  | |- context [WriteFile ?p bytes] => destruct (WriteFile p bytes) eqn:Hw
  end.
  - left. cbn [fst snd]. rewrite app_nil_r. repeat split; discriminate.
  - right. eexists _, bytes. cbn [fst snd]. eauto.
Qed.

(** The attempts to prepare the test branch are numbered from 1 to at
    most 3; every attempt before the last one made failed with "unable
    to access", and the loop stops before the third attempt only at an
    attempt that did not. *)
Theorem prepare_attempts ctx prepare :
  let n := (Test.prepareTestBranch ctx prepare).2 in
  (1 <= n <= 3)%nat /\
  (forall j, (1 <= j < n)%nat -> unableToAccess (prepare j)) /\
  ((n < 3)%nat -> ~ unableToAccess (prepare n)).
Proof.
  unfold Test.prepareTestBranch, Test.prepareTestBranchAttempts, unableToAccess.
  cbn [Test.prepareFrom].
  destruct (prepare 1%nat) as [c1 [e1|]] eqn:H1;
    [destruct (Go.Contains e1 "unable to access") eqn:U1|].
  2: { assert (forall j, (1 <= j < 1)%nat -> False) by lia.
       destruct (Go.Contains e1 "git pull"); cbn [snd]; rewrite H1;
         (split; [lia|]); (split; [intros j Hj; lia|]);
         intros _ (err & [= ->] & Hc); congruence. }
  2: { cbn [snd]. rewrite H1. split; [lia|]. split; [intros j Hj; lia|].
       intros _ (err & [=] & _). }
  destruct (prepare 2%nat) as [c2 [e2|]] eqn:H2;
    [destruct (Go.Contains e2 "unable to access") eqn:U2|].
  2: { destruct (Go.Contains e2 "git pull"); cbn [snd]; rewrite H2;
         (split; [lia|]);
         (split; [intros j Hj; assert (j = 1%nat) as -> by lia;
                  rewrite H1; eauto|]);
         intros _ (err & [= ->] & Hc); congruence. }
  2: { cbn [snd]. rewrite H2. split; [lia|].
       split; [intros j Hj; assert (j = 1%nat) as -> by lia; rewrite H1; eauto|].
       intros _ (err & [=] & _). }
  assert (forall j, (1 <= j < 3)%nat ->
            exists err, (prepare j).2 = Some err
                        /\ Go.Contains err "unable to access" = true) as Hbefore.
  { intros j Hj. assert (j = 1 \/ j = 2)%nat as [-> | ->] by lia;
      [rewrite H1|rewrite H2]; eauto. }
  destruct (prepare 3%nat) as [c3 [e3|]] eqn:H3;
    [destruct (Go.Contains e3 "unable to access") eqn:U3;
     [|destruct (Go.Contains e3 "git pull")]|];
    cbn [snd Nat.pred]; (split; [lia|]); (split; [exact Hbefore|lia]).
Qed.

(** When all three attempts fail with "unable to access", the loop is
    left without an error: nothing is written and the command goes on to
    run the test. *)
Theorem prepare_exhausted_goes_on ctx prepare :
  (forall j, (1 <= j <= 3)%nat -> unableToAccess (prepare j)) ->
  Test.prepareTestBranch ctx prepare = (Test.TestsRun, [], 3%nat).
Proof.
  intros Hall. unfold Test.prepareTestBranch, Test.prepareTestBranchAttempts.
  cbn [Test.prepareFrom].
  destruct (Hall 1%nat) as (e1 & H1 & U1); [lia|].
  destruct (Hall 2%nat) as (e2 & H2 & U2); [lia|].
  destruct (Hall 3%nat) as (e3 & H3 & U3); [lia|].
  destruct (prepare 1%nat) as [c1 o1]. cbn [snd] in H1. subst o1. rewrite U1.
  destruct (prepare 2%nat) as [c2 o2]. cbn [snd] in H2. subst o2. rewrite U2.
  destruct (prepare 3%nat) as [c3 o3]. cbn [snd] in H3. subst o3. rewrite U3.
  reflexivity.
Qed.

(** How the loop ends is decided by the last attempt made. *)
Lemma prepare_last ctx prepare :
  (Test.prepareTestBranch ctx prepare).1
  = match prepare (Test.prepareTestBranch ctx prepare).2 with
    | (failedCL, Some err) =>
        if Go.Contains err "unable to access" then (Test.TestsRun, [])
        else if Go.Contains err "git pull"
        then (Test.Return (Test.deferred (Test.recordMergeConflict ctx failedCL).1),
              (Test.recordMergeConflict ctx failedCL).2)
        else (Test.Return (Test.deferred (Returned (Some err))), [])
    | (_, None) => (Test.TestsRun, [])
    end.
Proof.
  unfold Test.prepareTestBranch, Test.prepareTestBranchAttempts.
  cbn [Test.prepareFrom].
  destruct (prepare 1%nat) as [c1 [e1|]] eqn:H1;
    [destruct (Go.Contains e1 "unable to access") eqn:U1;
     [|destruct (Go.Contains e1 "git pull") eqn:P1;
       cbn [fst snd]; rewrite H1, U1, P1; reflexivity]
    |cbn [fst snd]; rewrite H1; reflexivity].
  destruct (prepare 2%nat) as [c2 [e2|]] eqn:H2;
    [destruct (Go.Contains e2 "unable to access") eqn:U2;
     [|destruct (Go.Contains e2 "git pull") eqn:P2;
       cbn [fst snd]; rewrite H2, U2, P2; reflexivity]
    |cbn [fst snd]; rewrite H2; reflexivity].
  destruct (prepare 3%nat) as [c3 [e3|]] eqn:H3;
    [destruct (Go.Contains e3 "unable to access") eqn:U3;
     [|destruct (Go.Contains e3 "git pull") eqn:P3];
     cbn [fst snd Nat.pred]; rewrite H3, U3, ?P3; reflexivity
    |cbn [fst snd]; rewrite H3; reflexivity].
Qed.

(** The loop over the attempts writes files only for a merge conflict:
    when something is written, the last attempt failed on a CL with an
    error that holds "git pull", and what is written is first what
    [xunit.CreateFailureReport] writes for the conflict in that CL, then
    at most one more file, the status file.  The status file is written
    only after the failure report was created without an error; it holds
    the record of the merge conflict in that CL, with the greatest time
    stamp; and the return statement then gives nil, so that the command
    ends with what the deferred clean-up makes of nil. *)
Theorem prepare_writes_conflict_record ctx prepare end_ writes n :
  Test.prepareTestBranch ctx prepare = (end_, writes, n) ->
  writes = [] \/
  exists c err,
    prepare n = (Some c, Some err) /\
    Go.Contains err "git pull" = true /\
    let report :=
      xunit_CreateFailureReport testFlag testFlag "MergeConflict"
        (mergeConflictMessage (Test.cl_String c))
        (mergeConflictMessage (Test.cl_String c)) in
    (writes = report.2 \/
     exists path bytes,
       report.1 = None /\
       json_Marshal (recordMergeConflict testFlag (Getenv ctx "L")
                       (Test.cl_String c)) = inl bytes /\
       WriteFile path bytes = None /\
       writes = report.2 ++ [(path, bytes)] /\
       end_ = Test.Return (Returned (collect_Error cleanupFn None))).
Proof.
  intros Heq. pose proof (prepare_last ctx prepare) as Hlast.
  rewrite Heq in Hlast. cbn [fst snd] in Hlast.
  destruct (prepare n) as [failedCL [err|]] eqn:Hn;
    [|injection Hlast as _ ->; left; reflexivity].
  destruct (Go.Contains err "unable to access");
    [injection Hlast as _ ->; left; reflexivity|].
  destruct (Go.Contains err "git pull") eqn:Hpull;
    [|injection Hlast as _ ->; left; reflexivity].
  destruct failedCL as [c|]; [|injection Hlast as _ ->; left; reflexivity].
  right. exists c, err. split; [reflexivity|]. split; [exact Hpull|].
  pose proof (recordMergeConflict_writes ctx c) as Hr. cbv zeta in Hr |- *.
  destruct Hr as [[Hr _]|[(_ & Hr & _)|(path & bytes & Hrep & Hm & Hw & Hr)]].
  - rewrite Hr in Hlast. injection Hlast as _ ->. left. reflexivity.
  - rewrite Hr in Hlast. injection Hlast as _ ->. left. reflexivity.
  - rewrite Hr in Hlast. cbn [fst snd Test.deferred] in Hlast.
    injection Hlast as -> ->. right. exists path, bytes. auto.
Qed.

(** When the last attempt made fails with an error that holds "git pull"
    and not "unable to access", and names no CL, the command ends in a
    run-time panic: the merge conflict is recorded for the CL that
    failed, and there is none. *)
Theorem prepare_pull_error_without_cl ctx prepare err :
  prepare (Test.prepareTestBranch ctx prepare).2 = (None, Some err) ->
  Go.Contains err "unable to access" = false ->
  Go.Contains err "git pull" = true ->
  (Test.prepareTestBranch ctx prepare).1 = (Test.Return Panicked, []).
Proof.
  intros Hn U P. rewrite prepare_last, Hn, U, P. reflexivity.
Qed.

(** A merge conflict whose failure report cannot be created is dropped:
    [recordMergeConflict] returns nil on the error of
    [xunit.CreateFailureReport], so the return statement of [runTest]
    gives nil and the command ends with what the deferred clean-up makes
    of nil; no status file is written, the files written are those of
    the failed call itself. *)
Theorem prepare_conflict_report_error_dropped ctx prepare c err reportErr
    reportFiles :
  prepare (Test.prepareTestBranch ctx prepare).2 = (Some c, Some err) ->
  Go.Contains err "unable to access" = false ->
  Go.Contains err "git pull" = true ->
  xunit_CreateFailureReport testFlag testFlag "MergeConflict"
    (mergeConflictMessage (Test.cl_String c))
    (mergeConflictMessage (Test.cl_String c)) = (Some reportErr, reportFiles) ->
  (Test.prepareTestBranch ctx prepare).1
  = (Test.Return (Returned (collect_Error cleanupFn None)), reportFiles).
Proof.
  intros Hn U P Hreport. rewrite prepare_last, Hn, U, P.
  unfold Test.recordMergeConflict. rewrite Hreport. reflexivity.
Qed.

End TestProperties.






(** * The properties on the concrete run *)

(** ** The run of the scenario *)

Import Scenario.

(** Shard A fails with T2, which the baseline knows; shard B fails with
    T3, which it does not: T3 is new, T2 is known, nothing is fixed, and
    the report is posted with a vote of -1. *)
Example scenario_groups :
  let groups :=
    (genFailedTestCasesGroupsForAllTests (lib := lib) (flags := flags) ctx
       [shardA 1000; shardB]).1 in
  group groups newFailure = [T3info] /\
  group groups knownFailure = [T2info] /\
  group groups fixedFailure = [].
Proof. vm_compute. repeat split. Qed.

Example scenario_vote :
  exists report,
    (postTestReport (lib := lib) (flags := flags) ctx [shardA 1000; shardB] refs).2
    = [PostMessage report refs false;
       PostReview "refs/changes/1/1/1" report {["Verified"%string := "-1"%string]}].
Proof. eexists. vm_compute. reflexivity. Qed.

Example scenario_walk :
  getPostSubmitBuildStatus_log (flags := flags) ctx "vanadium-go-test"
    "linux-slave" 1000 = ("FAILURE"%string, [2]) /\
  getPostSubmitBuildStatus_log (flags := flags) ctx "vanadium-go-test"
    "linux-slave" 600 = ("FAILURE"%string, [2; 1]) /\
  getPostSubmitBuildStatus_log (flags := flags) ctx "vanadium-go-test"
    "linux-slave" 50 = (unknownStatus, [2; 1; 0]) /\
  getPostSubmitBuildStatus_log (flags := flags) ctx "vanadium-go-test"
    "linux-slave" (Timestamp conflictA) = ("FAILURE"%string, [2]).
Proof. vm_compute. repeat split. Qed.

Example scenario_links :
  genTestResultLink (lib := lib) (flags := flags) "v.io/x/lib.Suite" "T2" 1
    "vanadium-go-test" "linux-slave"
  = ("- v::io/x/lib::Suite::T2" +:+ Go.LF +:+
     "http://goto.google.com/vpst/45/L=linux-slave,TEST=vanadium-go-test/testReport/v.io_x_lib/Suite/T2")%string /\
  genTestResultLink (lib := lib) (flags := flags) "v.io/x/lib.Suite" "T2" 2
    "vanadium-go-test" "linux-slave"
  = ("- v::io/x/lib::Suite::T2" +:+ Go.LF +:+
     "http://goto.google.com/vpst/45/L=linux-slave,TEST=vanadium-go-test/testReport/v.io_x_lib/Suite/T2_2")%string.
Proof. vm_compute. repeat split. Qed.

(** ** Instances of the theorems *)

Lemma classification_new_or_known_witness :
  xml_Unmarshal (GoLib := lib) "<A/>" = inl suitesA /\
  exists groups seenTests',
    genFailedTestCasesGroupsForOneTest (lib := lib) (shardA 1000) "<A/>" ∅ [T2]
    = (inl groups, seenTests') /\
    identity <$> group groups knownFailure = [("v.io/x/lib.Suite", "T2")]%string /\
    identity <$> group groups newFailure = [].
Proof.
  split; [reflexivity|].
  destruct (classification_new_or_known (lib := lib) (shardA 1000) "<A/>" ∅ [T2]
              suitesA eq_refl)
    as (groups & seenTests' & Hgen & Hnew & Hknown & _).
  exists groups, seenTests'. split; [exact Hgen|].
  split; [rewrite Hknown|rewrite Hnew]; vm_compute; reflexivity.
Defined.

Lemma classification_fixed_witness :
  xml_Unmarshal (GoLib := lib) "<B/>" = inl suitesB /\
  exists groups seenTests',
    genFailedTestCasesGroupsForOneTest (lib := lib) shardB "<B/>" ∅ [T2]
    = (inl groups, seenTests') /\
    group groups fixedFailure = [fixedInfo T2].
Proof.
  split; [reflexivity|].
  destruct (classification_fixed (lib := lib) shardB "<B/>" ∅ [T2] suitesB eq_refl)
    as (groups & seenTests' & Hgen & Hfixed & _).
  exists groups, seenTests'. split; [exact Hgen|].
  rewrite Hfixed. vm_compute. reflexivity.
Defined.

Lemma firstBuildAtOrBefore_600 :
  firstBuildAtOrBefore jenkinsA "vanadium-go-test" "linux-slave" 600 2 1.
Proof.
  split; [lia|]. split.
  - eexists. split; [reflexivity|]. simpl. lia.
  - intros k Hk. assert (k = 2) as -> by lia.
    eexists. split; [reflexivity|]. simpl. lia.
Defined.

Lemma baseline_resolution_walk_witness :
  ctx_Jenkins ctx (jenkinsHostFlag (Flags := flags)) = inl jenkinsA /\
  lastCompletedBuildStatus (flags := flags) ctx "vanadium-go-test" "linux-slave"
  = inl (build "2" 900 "FAILURE") /\
  Go.Atoi "2" = inl 2 /\
  firstBuildAtOrBefore jenkinsA "vanadium-go-test" "linux-slave" 600 2 1 /\
  (getPostSubmitBuildStatus_log (flags := flags) ctx "vanadium-go-test"
     "linux-slave" 600).2 = [2; 1] /\
  getFailedTestCases (flags := flags) ctx "vanadium-go-test" "linux-slave"
  = ([T2], None).
Proof.
  split; [reflexivity|]. split; [reflexivity|]. split; [reflexivity|].
  split; [exact firstBuildAtOrBefore_600|].
  destruct (baseline_resolution_walk (flags := flags) ctx "vanadium-go-test"
              "linux-slave" 600 jenkinsA (build "2" 900 "FAILURE") 2 1
              eq_refl eq_refl eq_refl firstBuildAtOrBefore_600)
    as (Hchecked & _ & _ & Hfailed).
  split; [exact Hchecked|exact Hfailed].
Defined.

(** C3, refuted as the specification words it: with the cutoff 600 the
    walk stops at build 1, a success without failed test cases, and yet
    the status returned is the FAILURE of build 2, the last completed
    build, and the failed test cases are its T2. *)
Lemma baseline_not_resolved_at_cutoff :
  ~ resolvesAtCutoff (flags := flags) ctx "vanadium-go-test" "linux-slave" 600.
Proof.
  intros Hclaim.
  destruct (Hclaim jenkinsA (build "2" 900 "FAILURE") 2 1
              (build "1" 500 "SUCCESS") [] eq_refl eq_refl eq_refl
              firstBuildAtOrBefore_600 eq_refl eq_refl) as [Hstatus _].
  vm_compute in Hstatus. discriminate Hstatus.
Qed.

Lemma lookup_error_all_new_witness :
  (getFailedTestCases (flags := flags) ctxNoReport (TestName (shardA 1000))
     (SlaveLabel (shardA 1000))).2
  = Some ("not found: vanadium-go-test/L=linux-slave/lastCompletedBuild"%string) /\
  xml_Unmarshal (GoLib := lib) "<A/>" = inl suitesA /\
  exists groups seenTests',
    genFailedTestCasesGroupsForOneTest (lib := lib) (shardA 1000) "<A/>" ∅
      (getFailedTestCases (flags := flags) ctxNoReport (TestName (shardA 1000))
         (SlaveLabel (shardA 1000))).1
    = (inl groups, seenTests') /\
    identity <$> group groups newFailure = [("v.io/x/lib.Suite", "T2")]%string /\
    group groups knownFailure = [].
Proof.
  split; [reflexivity|]. split; [reflexivity|].
  destruct (lookup_error_all_new (lib := lib) (flags := flags) ctxNoReport
              (shardA 1000) "<A/>" ∅ suitesA _ eq_refl eq_refl)
    as (_ & (groups & seenTests' & Hgen & Hnew & Hknown & _) & _).
  exists groups, seenTests'. split; [exact Hgen|].
  split; [rewrite Hnew; vm_compute; reflexivity|exact Hknown].
Defined.

(** C4, refuted as the specification words it: with the cutoff 50 every
    build is after the cutoff, the walk ends with the unknown status, and
    yet the failing case T2 is classified as known, not as new. *)
Lemma unknown_status_known_failure :
  getPostSubmitBuildStatus (flags := flags) ctx (TestName (shardA 50))
    (SlaveLabel (shardA 50)) (Timestamp (shardA 50)) = unknownStatus /\
  ~ (getPostSubmitBuildStatus (flags := flags) ctx (TestName (shardA 50))
       (SlaveLabel (shardA 50)) (Timestamp (shardA 50)) = unknownStatus ->
     group (genFailedTestCasesGroupsForAllTests (lib := lib) (flags := flags) ctx
              [shardA 50]).1 knownFailure = [] /\
     identity <$> group (genFailedTestCasesGroupsForAllTests (lib := lib)
                           (flags := flags) ctx [shardA 50]).1 newFailure
     = [("v.io/x/lib.Suite", "T2")]%string).
Proof.
  split; [reflexivity|]. intros Hclaim.
  destruct (Hclaim eq_refl) as [Hknown _]. vm_compute in Hknown.
  discriminate Hknown.
Qed.

Lemma conflictA_in_run :
  exists r, r ∈ [shardB; conflictA] /\ mergeConflict r.
Proof.
  exists conflictA. split; [|reflexivity].
  apply list_elem_of_further. apply list_elem_of_here.
Defined.

Lemma merge_conflict_notice_only_witness :
  (exists r, r ∈ [shardB; conflictA] /\ mergeConflict r) /\
  (reportFailedPresubmitBuild (flags := flags) ctx "").1 = false /\
  (postTestReport (lib := lib) (flags := flags) ctx [shardB; conflictA] refs).1
  = None /\
  (postTestReport (lib := lib) (flags := flags) ctx [shardB; conflictA] refs).2
  = [PostMessage (mergeConflictMessage "http://go/vcl/7/2") refs false;
     PostReview "refs/changes/1/1/1" (mergeConflictMessage "http://go/vcl/7/2")
       {["Verified"%string := "-1"%string]}].
Proof.
  split; [exact conflictA_in_run|]. split; [reflexivity|].
  destruct (merge_conflict_notice_only (lib := lib) (flags := flags) ctx
              [shardB; conflictA] refs conflictA_in_run) as [_ Hposted].
  destruct (Hposted eq_refl)
    as (before & r & after & _ & _ & _ & Hnone & _).
  split; [exact Hnone|]. vm_compute. reflexivity.
Defined.

(** C5, refuted as the specification words it: when the presubmit build
    is reported as failed, a run with a merge conflict posts nothing, not
    even the merge conflict notice. *)
Lemma merge_conflict_after_failed_build :
  mergeConflict conflictA /\
  postTestReport (lib := lib) (flags := flags) ctxFailedBuild [conflictA] refs
  = (None, []) /\
  PostMessage (mergeConflictMessage (testutil.MergeConflictCL (Result conflictA)))
    refs false
  ∉ (postTestReport (lib := lib) (flags := flags) ctxFailedBuild [conflictA] refs).2.
Proof.
  split; [reflexivity|].
  assert (H : postTestReport (lib := lib) (flags := flags) ctxFailedBuild
                [conflictA] refs = (None, [])) by (vm_compute; reflexivity).
  rewrite H. split; [reflexivity|]. apply not_elem_of_nil.
Qed.






(** ** Instances of the further properties *)

Lemma getRefsUsingVerifiedLabel_spec_witness :
  exists verified,
    getRefsUsingVerifiedLabel (flags := flags) ctx
      {| username := "u"; password := "p" |} = inl verified /\
    ("refs/changes/1/1/1"%string ∈ verified
     <-> exists cl,
           cl ∈ [{| gerrit.Reference := "refs/changes/1/1/1";
                    gerrit.Labels := ["Code-Review"; "Verified"]%string |}]
           /\ gerrit.Reference cl = "refs/changes/1/1/1"%string
           /\ "Verified"%string ∈ gerrit.Labels cl).
Proof.
  exact (getRefsUsingVerifiedLabel_spec (flags := flags) ctx
           {| username := "u"; password := "p" |}
           [{| gerrit.Reference := "refs/changes/1/1/1";
               gerrit.Labels := ["Code-Review"; "Verified"]%string |}]
           "refs/changes/1/1/1" eq_refl).
Defined.

Lemma postMessage_reviews_every_ref_witness :
  postMessage (flags := flags) ctx "ok" refs true
  = (None, [PostMessage "ok" refs true;
            PostReview "refs/changes/1/1/1" "ok" {["Verified"%string := "1"%string]}])
  /\ exists gerritHost gerritCred cls,
       checkGerritBaseUrl (Flags := flags) = inl gerritHost /\
       gerritHostCredential (Flags := flags) gerritHost = inl gerritCred /\
       gerrit.Query
         (ctx_Gerrit ctx (gerritBaseUrlFlag (Flags := flags)) (username gerritCred)
            (password gerritCred))
         (defaultQueryString (Flags := flags)) = inl cls /\
       [PostMessage "ok" refs true;
        PostReview "refs/changes/1/1/1" "ok" {["Verified"%string := "1"%string]}]
       = PostMessage "ok" refs true :: (reviewFor "ok" (voteOf true) cls <$> refs).
Proof.
  assert (H : postMessage (flags := flags) ctx "ok" refs true
              = (None, [PostMessage "ok" refs true;
                        PostReview "refs/changes/1/1/1" "ok"
                          {["Verified"%string := "1"%string]}]))
    by (vm_compute; reflexivity).
  split; [exact H|].
  exact (postMessage_reviews_every_ref (flags := flags) ctx "ok" refs true _ H).
Defined.

Lemma postTestReport_error_is_post_error_witness :
  (postTestReport (lib := lib) (flags := flagsNoGerrit) ctx [shardA 1000] refs).1
  = Some "invalid gerrit base url"%string /\
  [shardA 1000] <> [] /\
  (reportFailedPresubmitBuild (flags := flagsNoGerrit) ctx "").1 = false /\
  (reportMergeConflicts (flags := flagsNoGerrit) ctx [shardA 1000] refs).1 = false /\
  exists report success,
    postMessage (flags := flagsNoGerrit) ctx report refs success
    = (Some "invalid gerrit base url"%string,
       (postTestReport (lib := lib) (flags := flagsNoGerrit) ctx [shardA 1000]
          refs).2).
Proof.
  assert (H : (postTestReport (lib := lib) (flags := flagsNoGerrit) ctx
                 [shardA 1000] refs).1 = Some "invalid gerrit base url"%string)
    by (vm_compute; reflexivity).
  split; [exact H|].
  exact (postTestReport_error_is_post_error (lib := lib) (flags := flagsNoGerrit)
           ctx [shardA 1000] refs _ H).
Defined.

Lemma walk_shorter_for_later_cutoff_witness :
  600 <= 1000 /\
  (getPostSubmitBuildStatus_log (flags := flags) ctx "vanadium-go-test"
     "linux-slave" 1000).2
    `prefix_of`
  (getPostSubmitBuildStatus_log (flags := flags) ctx "vanadium-go-test"
     "linux-slave" 600).2.
Proof.
  assert (H : 600 <= 1000) by lia.
  split; [exact H|].
  exact (walk_shorter_for_later_cutoff (flags := flags) ctx "vanadium-go-test"
           "linux-slave" 600 1000 H).
Defined.

Lemma walk_stops_at_lookup_error_witness :
  jenkins.BuildInfoForSpec jenkinsGap
    (buildSpecOf "vanadium-go-test" "linux-slave" 1)
  = inr "not found: vanadium-go-test/L=linux-slave/1"%string /\
  checkBuilds jenkinsGap "vanadium-go-test" "linux-slave" 600
    (build "2" 900 "FAILURE") 2
  = (unknownStatus, [2; 1]).
Proof.
  split; [reflexivity|].
  apply (walk_stops_at_lookup_error jenkinsGap "vanadium-go-test" "linux-slave"
           600 (build "2" 900 "FAILURE") 2 1
           "not found: vanadium-go-test/L=linux-slave/1");
    [lia|reflexivity|].
  intros j Hj. assert (j = 2) as -> by lia.
  eexists. split; [reflexivity|]. simpl. lia.
Defined.

Lemma seenTests_counts_encounters_witness :
  xml_Unmarshal (GoLib := lib) "<A/>" = inl suitesA /\
  seen_count
    (genFailedTestCasesGroupsForOneTest (lib := lib) (shardA 1000) "<A/>" ∅ [T2]).2
    "v::io/x/lib::Suite::T2-linux-slave"
  = 1.
Proof.
  split; [reflexivity|].
  rewrite (seenTests_counts_encounters (lib := lib) (shardA 1000) "<A/>" ∅ [T2]
             suitesA "v::io/x/lib::Suite::T2-linux-slave" eq_refl);
    vm_compute; [reflexivity|discriminate|discriminate].
Defined.

Lemma walks_permuted : forall dir, walk dir ≡ₚ walkBack dir.
Proof. intros dir. apply perm_swap. Defined.

Lemma runResult_walk_order_witness :
  (forall dir, walk dir ≡ₚ walkBack dir) /\
  runResult (lib := lib) (flags := flags) (cmds := cmds) ctxStatus walk
  = runResult (lib := lib) (flags := flags) (cmds := cmds) ctxStatus walkBack.
Proof.
  split; [exact walks_permuted|].
  exact (runResult_walk_order (lib := lib) (flags := flags) (cmds := cmds)
           ctxStatus walk walkBack walks_permuted).
Defined.

Lemma runResult_posted :
  (runResult (lib := lib) (flags := flags) (cmds := cmds) ctxStatus walk).2 <> [].
Proof. vm_compute. discriminate. Defined.

Lemma runResult_posts_complete_runs_witness :
  (runResult (lib := lib) (flags := flags) (cmds := cmds) ctxStatus walk).2 <> [] /\
  exists statusFiles testResults,
    collectStatusFiles (walk "ws/test_results/45") = Some statusFiles /\
    Forall2 (fun statusFile curResult =>
               exists bytes, ReadFile ctxStatus statusFile = inl bytes /\
                             json_Unmarshal (CmdLib := cmds) bytes = inl curResult)
      (GoMore.sort_Strings statusFiles) testResults /\
    testResults <> [] /\
    runResult (lib := lib) (flags := flags) (cmds := cmds) ctxStatus walk
    = (Returned (postTestReport (lib := lib) (flags := flags) ctxStatus testResults
                   (GoMore.Split (reviewTargetRefsFlag (Flags := flags)) ":")).1,
       (postTestReport (lib := lib) (flags := flags) ctxStatus testResults
          (GoMore.Split (reviewTargetRefsFlag (Flags := flags)) ":")).2).
Proof.
  split; [exact runResult_posted|].
  exact (runResult_posts_complete_runs (lib := lib) (flags := flags) (cmds := cmds)
           ctxStatus walk runResult_posted).
Defined.

Lemma earlier_links_agree_witness :
  xml_Unmarshal (GoLib := lib) "<A/>" = inl suitesA /\
  exists linksMap groups seenTests',
    genFailedTestLinks (lib := lib) (flags := flags) "<A/>" ∅ "vanadium-go-test"
      "linux-slave" (fun _ _ => ([oldT2], None))
    = (inl linksMap, seenTests') /\
    genFailedTestCasesGroupsForOneTest (lib := lib) (shardA 1000) "<A/>" ∅ [T2]
    = (inl groups, seenTests') /\
    links linksMap newFailure
    = linkOf (lib := lib) (flags := flags) <$> group groups newFailure /\
    links linksMap knownFailure
    = linkOf (lib := lib) (flags := flags) <$> group groups knownFailure /\
    links linksMap fixedFailure = fixedName <$> group groups fixedFailure.
Proof.
  split; [reflexivity|].
  exact (earlier_links_agree (lib := lib) (flags := flags) (shardA 1000) "<A/>" ∅
           (fun _ _ => ([oldT2], None)) suitesA eq_refl).
Defined.

Lemma parseCLs_scenario :
  Test.parseCLs (flags := flags) (cmds := cmds)
  = Returned (inl [{| Test.clNumber := 1; Test.patchset := 1;
                      Test.ref := "refs/changes/1/1/1";
                      Test.project := "release.go.core" |}]).
Proof. vm_compute. reflexivity. Defined.

Lemma parseCLs_positional_witness :
  Test.ref <$> [{| Test.clNumber := 1; Test.patchset := 1;
                   Test.ref := "refs/changes/1/1/1";
                   Test.project := "release.go.core" |}]
  = GoMore.Split (reviewTargetRefsFlag (Flags := flags)) ":" /\
  Test.project <$> [{| Test.clNumber := 1; Test.patchset := 1;
                       Test.ref := "refs/changes/1/1/1";
                       Test.project := "release.go.core" |}]
  = GoMore.Split (projectsFlag (Flags := flags)) ":" /\
  Forall (fun c => parseRefString (CmdLib := cmds) (Test.ref c)
                   = inl (Test.clNumber c, Test.patchset c))
    [{| Test.clNumber := 1; Test.patchset := 1;
        Test.ref := "refs/changes/1/1/1";
        Test.project := "release.go.core" |}].
Proof.
  exact (parseCLs_positional (flags := flags) (cmds := cmds) _ parseCLs_scenario).
Defined.

Lemma parseCLs_round_trip_witness :
  Go.Join (Test.ref <$> [{| Test.clNumber := 1; Test.patchset := 1;
                            Test.ref := "refs/changes/1/1/1";
                            Test.project := "release.go.core" |}]) ":"
  = reviewTargetRefsFlag (Flags := flags) /\
  Go.Join (Test.project <$> [{| Test.clNumber := 1; Test.patchset := 1;
                                Test.ref := "refs/changes/1/1/1";
                                Test.project := "release.go.core" |}]) ":"
  = projectsFlag (Flags := flags) /\
  [{| Test.clNumber := 1; Test.patchset := 1;
      Test.ref := "refs/changes/1/1/1";
      Test.project := "release.go.core" |}] <> [].
Proof.
  exact (parseCLs_round_trip (flags := flags) (cmds := cmds) _ parseCLs_scenario).
Defined.

Lemma parseCLs_first_bad_ref_witness :
  Test.parseCLs (flags := flagsTwo) (cmds := cmds)
  = Returned (inr "not found: refs/oops"%string).
Proof.
  apply (parseCLs_first_bad_ref (flags := flagsTwo) (cmds := cmds)
           ["refs/changes/1/1/1"%string] "refs/oops" []);
    [vm_compute; reflexivity|vm_compute; reflexivity| |reflexivity].
  constructor; [|constructor]. exists (1, 1). reflexivity.
Defined.

Lemma noAccess_always : forall j, (1 <= j <= 3)%nat -> unableToAccess (noAccess j).
Proof.
  intros j _. eexists. split; [reflexivity|]. vm_compute. reflexivity.
Defined.

Lemma prepare_exhausted_goes_on_witness :
  (forall j, (1 <= j <= 3)%nat -> unableToAccess (noAccess j)) /\
  Test.prepareTestBranch (lib := lib) (cmds := cmds) (tests := tests) ctx noAccess
  = (Test.TestsRun, [], 3%nat).
Proof.
  split; [exact noAccess_always|].
  exact (prepare_exhausted_goes_on (lib := lib) (cmds := cmds) (tests := tests)
           ctx noAccess noAccess_always).
Defined.

Lemma prepare_writes_conflict_record_witness :
  Test.prepareTestBranch (lib := lib) (cmds := cmds) (tests := tests) ctx pullFails
  = (Test.Return (Returned None),
     [reportFile;
      ("ws/status_vanadium_go_test.json"%string,
       "{vanadium-go-test http://go/vcl/7/2}"%string)], 1%nat) /\
  ([reportFile;
    ("ws/status_vanadium_go_test.json"%string,
     "{vanadium-go-test http://go/vcl/7/2}"%string)] = [] \/
   exists c err,
     pullFails 1%nat = (Some c, Some err) /\
     Go.Contains err "git pull" = true /\
     let report :=
       xunit_CreateFailureReport (TestLib := tests) (testFlag (TestLib := tests))
         (testFlag (TestLib := tests)) "MergeConflict"
         (mergeConflictMessage (Test.cl_String c))
         (mergeConflictMessage (Test.cl_String c)) in
     ([reportFile;
       ("ws/status_vanadium_go_test.json"%string,
        "{vanadium-go-test http://go/vcl/7/2}"%string)] = report.2 \/
      exists path bytes,
        report.1 = None /\
        json_Marshal (CmdLib := cmds)
          (recordMergeConflict (testFlag (TestLib := tests)) (Getenv ctx "L")
             (Test.cl_String c)) = inl bytes /\
        WriteFile (TestLib := tests) path bytes = None /\
        [reportFile;
         ("ws/status_vanadium_go_test.json"%string,
          "{vanadium-go-test http://go/vcl/7/2}"%string)]
        = report.2 ++ [(path, bytes)] /\
        Test.Return (Returned None)
        = Test.Return
            (Returned (collect_Error (TestLib := tests)
                         (cleanupFn (TestLib := tests)) None)))).
Proof.
  assert (H : Test.prepareTestBranch (lib := lib) (cmds := cmds) (tests := tests)
                ctx pullFails
              = (Test.Return (Returned None),
                 [reportFile;
                  ("ws/status_vanadium_go_test.json"%string,
                   "{vanadium-go-test http://go/vcl/7/2}"%string)], 1%nat))
    by (vm_compute; reflexivity).
  split; [exact H|].
  exact (prepare_writes_conflict_record (lib := lib) (cmds := cmds) (tests := tests)
           ctx pullFails _ _ _ H).
Defined.

Lemma prepare_pull_error_without_cl_witness :
  (Test.prepareTestBranch (lib := lib) (cmds := cmds) (tests := tests) ctx
     cleanupFails).1
  = (Test.Return Panicked, []).
Proof.
  apply (prepare_pull_error_without_cl (lib := lib) (cmds := cmds) (tests := tests)
           ctx cleanupFails "clean up after 'git pull' failed");
    [reflexivity|vm_compute; reflexivity|vm_compute; reflexivity].
Defined.

Lemma prepare_conflict_report_error_dropped_witness :
  (Test.prepareTestBranch (lib := lib) (cmds := cmds) (tests := testsNoReport) ctx
     pullFails).1
  = (Test.Return (Returned None), []).
Proof.
  apply (prepare_conflict_report_error_dropped (lib := lib) (cmds := cmds)
           (tests := testsNoReport) ctx pullFails cl7 "'git pull' failed"
           "no space left" []);
    [reflexivity|vm_compute; reflexivity|vm_compute; reflexivity|reflexivity].
Defined.
